(** * Benchmark aggregator of MyTaskList: [ios-native/Scripts/benchmark.py]

    A shallow embedding of the statistics, tier classification,
    recommendation, summary and probe-runner code of
    [PerformanceBenchmarker], followed by the properties its
    specification states about them.

    Numbers.  Python floats are modelled by the canonical rationals [Qc]
    (exact arithmetic, Leibniz equality, a decidable total order), and
    Python ints by [nat] or [Z].  Everything the script does with its
    numbers besides arithmetic is comparison and selection, which agree
    on floats and rationals as long as no NaN is involved.

    Dictionaries.  [self.thresholds] and the [categories] counter are
    looked up by string key and are [gmap]s; the dictionaries written as
    literals with a fixed key set ([summary], [metadata]) are records
    whose optional parts are [option]s.

    Exceptions.  A pure function that can raise returns [option], [None]
    standing for the exception named in its comment.  The probe runner
    lives in a state-and-exception monad over an abstract world; every
    call that reaches outside the script ([print], the clock, [psutil],
    the files) and [str(e)] itself may raise there. *)

From stdpp Require Import gmap strings list fin_maps numbers pretty sorting.
From Stdlib Require Import QArith Qcanon Qround Lqa.

Open Scope Qc_scope.

(** ** Python built-ins used by the script *)
Module Py.

(** An int where a float is expected. *)
Definition of_int (z : Z) : Qc := Q2Qc (inject_Z z).

(** [len(l)] as a float operand. *)
Definition len {A} (l : list A) : Qc := of_int (Z.of_nat (length l)).

(** [a / b]: ZeroDivisionError when [b] is zero. *)
Definition truediv (a b : Qc) : option Qc :=
  if decide (b = 0) then None else Some (a / b).

(** [min(a, b)] keeps its first argument unless the second is smaller. *)
Definition min2 (a b : Qc) : Qc := if decide (b < a) then b else a.

(** [max(a, b)] keeps its first argument unless the second is larger. *)
Definition max2 (a b : Qc) : Qc := if decide (a < b) then b else a.

(** [min(l)]: ValueError on the empty list. *)
Definition min (l : list Qc) : option Qc :=
  match l with
  | [] => None
  | x :: l' => Some (foldl min2 x l')
  end.

(** [max(l)]: ValueError on the empty list. *)
Definition max (l : list Qc) : option Qc :=
  match l with
  | [] => None
  | x :: l' => Some (foldl max2 x l')
  end.

(** [sum(l)]: starts from 0 and adds from the left. *)
Definition sum (l : list Qc) : Qc := foldl Qcplus 0 l.

(** [statistics.mean(l)]: StatisticsError on the empty list. *)
Definition mean (l : list Qc) : option Qc :=
  match l with
  | [] => None
  | _ :: _ => Some (sum l / len l)
  end.

(** [sorted(l)].  The order on [Qc] is total and antisymmetric, so the
    ascending arrangement of a list is unique and any sorting function
    computes it. *)
Definition sorted (l : list Qc) : list Qc := merge_sort Qcle l.

(** [l.index(x)]: position of the first occurrence, ValueError if there
    is none. *)
Fixpoint index (l : list string) (x : string) : option nat :=
  match l with
  | [] => None
  | y :: l' => if decide (y = x) then Some 0%nat else S <$> index l' x
  end.

(** [l[i]] for an int [i]: a negative index counts from the end,
    IndexError outside [-len(l) .. len(l)-1]. *)
Definition getitem {A} (l : list A) (i : Z) : option A :=
  if decide (0 ≤ i)%Z then l !! Z.to_nat i
  else if decide (- Z.of_nat (length l) ≤ i)%Z
       then l !! Z.to_nat (Z.of_nat (length l) + i)
       else None.

(** [int(a / b)] for ints [a] and [b > 0]: true division followed by
    truncation towards zero, computed here on the exact quotient.  The
    script divides by 100 only; see [float_exact] for the ints on which
    the float quotient gives the same integer. *)
Definition int_div (a b : Z) : Z := Z.quot a b.

(** The ints [a] on which [int(a / 100)] is [int_div a 100].  CPython
    rounds the quotient of two ints correctly, and up to [2^53 / 100]
    two neighbouring floats are less than 0.02 apart, so the rounded
    quotient of such an [a] never reaches the next integer.  From
    [100 * 2^47] on it can, and from about [10^310] on the division
    raises OverflowError. *)
Definition float_exact (a : Z) : Prop := (- 2 ^ 53 ≤ a ≤ 2 ^ 53)%Z.

(** [sep.join(l)]. *)
Definition join (sep : string) (l : list string) : string :=
  String.concat sep l.

(** [f"{n}"] for a non-negative int. *)
Definition fmt_int (n : nat) : string := pretty n.

End Py.

(** ** The data classes *)

(** The [metadata] dictionary of a successful result. *)
Module Metadata.
Record t := mk {
  iterations : nat;
  min_duration_ms : Qc;
  max_duration_ms : Qc;
  std_dev_ms : Qc
}.
End Metadata.

Record BenchmarkResult := mkBenchmarkResult {
  name : string;
  duration_ms : Qc;
  memory_mb : Qc;
  cpu_percent : Qc;
  success : bool;
  error : option string;
  metadata : option Metadata.t
}.

(** The nested dictionaries of the summary. *)
Record PerformanceStats := mkPerformanceStats {
  avg_duration_ms : Qc;
  min_duration_ms : Qc;
  max_duration_ms : Qc;
  p95_duration_ms : Qc;
  p99_duration_ms : Qc
}.

Record MemoryStats := mkMemoryStats {
  avg_memory_mb : Qc;
  max_memory_mb : Qc;
  total_memory_mb : Qc
}.

Record CpuStats := mkCpuStats {
  avg_cpu_percent : Qc;
  max_cpu_percent : Qc
}.

(** The dictionary returned by [_generate_summary]; the keys that only
    the second [return] writes are optional. *)
Record Summary := mkSummary {
  total_tests : nat;
  successful : nat;
  failed : nat;
  success_rate : Qc;
  total_duration_ms : Qc;
  performance_stats : option PerformanceStats;
  memory_stats : option MemoryStats;
  cpu_stats : option CpuStats;
  performance_categories : option (gmap string nat);
  recommendations : option (list string)
}.

(** The part of [PerformanceBenchmarker] the computations read. *)
Record PerformanceBenchmarker := mkPerformanceBenchmarker {
  thresholds : gmap string (gmap string Qc)
}.

(** ** [PerformanceBenchmarker.__init__]: the threshold tables *)

Definition threshold_table (e g a p : Z) : gmap string Qc :=
  <["excellent" := Py.of_int e]>
    (<["good" := Py.of_int g]>
       (<["acceptable" := Py.of_int a]>
          (<["poor" := Py.of_int p]> ∅))).

Definition init : PerformanceBenchmarker :=
  {| thresholds :=
       <["duration_ms" := threshold_table 100 500 1000 5000]>
         (<["memory_mb" := threshold_table 10 25 50 100]>
            (<["cpu_percent" := threshold_table 20 50 80 100]> ∅)) |}.

(** ** Tier classification *)

(** [_get_category]: KeyError ([None]) when the metric or one of the
    three cut-offs that the comparison reaches is missing. *)
Definition _get_category (self : PerformanceBenchmarker)
    (value : Qc) (metric : string) : option string :=
  thresholds ← thresholds self !! metric;
  excellent ← thresholds !! "excellent";
  if decide (value ≤ excellent) then Some "excellent"
  else
    good ← thresholds !! "good";
    if decide (value ≤ good) then Some "good"
    else
      acceptable ← thresholds !! "acceptable";
      if decide (value ≤ acceptable) then Some "acceptable"
      else Some "poor".

(** The local list [categories] of [_categorize_performance]. *)
Definition categories : list string :=
  ["excellent"; "good"; "acceptable"; "poor"].

(** [_categorize_performance]: the worst of the three categories. *)
Definition _categorize_performance (self : PerformanceBenchmarker)
    (result : BenchmarkResult) : option string :=
  duration_category ← _get_category self (duration_ms result) "duration_ms";
  memory_category ← _get_category self (memory_mb result) "memory_mb";
  cpu_category ← _get_category self (cpu_percent result) "cpu_percent";
  i ← Py.index categories duration_category;
  j ← Py.index categories memory_category;
  k ← Py.index categories cpu_category;
  let worst_index := Nat.max (Nat.max i j) k in
  categories !! worst_index.

(** ** Percentile *)

(** [_percentile].  [None] is the IndexError of an index below
    [-len(data)].  The index is computed with [Py.int_div], which is
    what the script computes as long as [len(data) * percentile] is
    [Py.float_exact]: always for a percentile between -100 and 100 and
    a list of less than [2^53 / 100] entries. *)
Definition _percentile (data : list Qc) (percentile : Z) : option Qc :=
  match data with
  | [] => Some 0
  | _ :: _ =>
      let sorted_data := Py.sorted data in
      let n := Z.of_nat (length sorted_data) in
      let index := Py.int_div (n * percentile) 100 in
      Py.getitem sorted_data (Z.min index (n - 1))
  end.

(** The specification's reading of the percentile index: the floor of
    [len(data) * p / 100], clamped to the last valid index. *)
Definition percentile_spec (data : list Qc) (p : Z) : option Qc :=
  match data with
  | [] => Some 0
  | _ :: _ =>
      let n := Z.of_nat (length data) in
      Py.getitem (Py.sorted data) (Z.min ((n * p) `div` 100) (n - 1))
  end.

(** ** Recommendations *)

Definition slow_message (slow_operations : list BenchmarkResult) : string :=
  ("Consider optimizing " +:+ Py.fmt_int (length slow_operations)
     +:+ " slow operations: ")
    +:+ Py.join ", " (name <$> take 3 slow_operations).

Definition memory_message (high_memory_ops : list BenchmarkResult) : string :=
  "Review memory usage for " +:+ Py.fmt_int (length high_memory_ops)
    +:+ " memory-intensive operations".

Definition cpu_message (high_cpu_ops : list BenchmarkResult) : string :=
  "Optimize CPU usage for " +:+ Py.fmt_int (length high_cpu_ops)
    +:+ " CPU-intensive operations".

Definition affirmation : string :=
  "Excellent performance across all benchmarks!".

(** [_generate_recommendations]: the list [recommendations] is threaded
    through the four [if] statements, each [append] adding at its end. *)
Definition _generate_recommendations (results : list BenchmarkResult)
    : list string :=
  let recommendations := [] in
  let slow_operations :=
    filter (λ r, Py.of_int 100 < duration_ms r) results in
  let recommendations :=
    match slow_operations with
    | [] => recommendations
    | _ :: _ => recommendations ++ [slow_message slow_operations]
    end in
  let high_memory_ops :=
    filter (λ r, Py.of_int 25 < memory_mb r) results in
  let recommendations :=
    match high_memory_ops with
    | [] => recommendations
    | _ :: _ => recommendations ++ [memory_message high_memory_ops]
    end in
  let high_cpu_ops :=
    filter (λ r, Py.of_int 50 < cpu_percent r) results in
  let recommendations :=
    match high_cpu_ops with
    | [] => recommendations
    | _ :: _ => recommendations ++ [cpu_message high_cpu_ops]
    end in
  match recommendations with
  | [] => recommendations ++ [affirmation]
  | _ :: _ => recommendations
  end.

(** The specification's reading: three independent rules, each of which
    emits at most one recommendation that names its offenders as the
    rule requires, and a single affirmation when none of them emitted
    anything.  Nothing here refers to the texts the script builds. *)
Module RecommendationSpec.

(** The samples a rule is about, in suite order. *)
Definition offenders (metric : BenchmarkResult → Qc) (limit : Z)
    (samples : list BenchmarkResult) : list BenchmarkResult :=
  filter (λ r, Py.of_int limit < metric r) samples.

(** A text names a word when the word occurs in it. *)
Definition names (text word : string) : Prop :=
  ∃ before after, text = before +:+ word +:+ after.

(** A text names the count of the samples when it holds that number in
    decimal digits. *)
Definition names_count (text : string) (samples : list BenchmarkResult)
    : Prop :=
  names text (Py.fmt_int (length samples)).

(** A text names up to three of the samples when it ends with the names
    of the first three of them (of all of them, if they are fewer), in
    suite order, separated by a comma and a space. *)
Definition names_up_to_3 (text : string) (samples : list BenchmarkResult)
    : Prop :=
  ∃ lead, text = lead +:+ Py.join ", " (name <$> take 3 samples).

(** A rule emits one recommendation that says what it has to about the
    offenders when some sample exceeds the limit, and none otherwise. *)
Definition rule (metric : BenchmarkResult → Qc) (limit : Z)
    (says : string → list BenchmarkResult → Prop)
    (samples : list BenchmarkResult) (emitted : list string) : Prop :=
  (Exists (λ r, Py.of_int limit < metric r) samples →
   ∃ text, emitted = [text] ∧ says text (offenders metric limit samples))
  ∧ (¬ Exists (λ r, Py.of_int limit < metric r) samples → emitted = []).

(** The recommendations for a list of samples: what the three rules
    emit, in the order duration, memory, CPU, or the affirmation alone
    when they emit nothing. *)
Definition recommend (samples : list BenchmarkResult)
    (recommendations : list string) : Prop :=
  ∃ slow heavy busy,
    rule duration_ms 100
      (λ text offenders,
         names_count text offenders ∧ names_up_to_3 text offenders)
      samples slow
    ∧ rule memory_mb 25 names_count samples heavy
    ∧ rule cpu_percent 50 names_count samples busy
    ∧ recommendations
      = match slow ++ heavy ++ busy with
        | [] => ["Excellent performance across all benchmarks!"]
        | fired => fired
        end.

End RecommendationSpec.

(** ** Summary *)

(** The loop of [_generate_summary] that fills the [categories] counter:
    [categories[category] += 1] is a KeyError on a missing key. *)
Fixpoint count_categories (self : PerformanceBenchmarker)
    (successful_results : list BenchmarkResult)
    (categories : gmap string nat) : option (gmap string nat) :=
  match successful_results with
  | [] => Some categories
  | result :: rest =>
      category ← _categorize_performance self result;
      n ← categories !! category;
      count_categories self rest (<[category := (n + 1)%nat]> categories)
  end.

(** The initial counter [{'excellent': 0, 'good': 0, 'acceptable': 0,
    'poor': 0}]. *)
Definition categories0 : gmap string nat :=
  <["excellent" := 0%nat]>
    (<["good" := 0%nat]> (<["acceptable" := 0%nat]> (<["poor" := 0%nat]> ∅))).

(** [_generate_summary].  [None] stands for an exception escaping it. *)
Definition _generate_summary (self : PerformanceBenchmarker)
    (results : list BenchmarkResult) (total_duration : Qc) : option Summary :=
  let successful_results := filter (λ r, success r = true) results in
  let failed_results := filter (λ r, success r = false) results in
  match successful_results with
  | [] =>
      Some {| total_tests := length results;
              successful := 0;
              failed := length failed_results;
              success_rate := 0;
              total_duration_ms := total_duration;
              performance_stats := None;
              memory_stats := None;
              cpu_stats := None;
              performance_categories := None;
              recommendations := None |}
  | _ :: _ =>
      let durations := duration_ms <$> successful_results in
      let memory_usage := memory_mb <$> successful_results in
      let cpu_usage := cpu_percent <$> successful_results in
      categories ← count_categories self successful_results categories0;
      ratio ← Py.truediv (Py.len successful_results) (Py.len results);
      avg_duration ← Py.mean durations;
      min_duration ← Py.min durations;
      max_duration ← Py.max durations;
      p95 ← _percentile durations 95;
      p99 ← _percentile durations 99;
      avg_memory ← Py.mean memory_usage;
      max_memory ← Py.max memory_usage;
      avg_cpu ← Py.mean cpu_usage;
      max_cpu ← Py.max cpu_usage;
      Some {| total_tests := length results;
              successful := length successful_results;
              failed := length failed_results;
              success_rate := ratio * Py.of_int 100;
              total_duration_ms := total_duration;
              performance_stats :=
                Some {| avg_duration_ms := avg_duration;
                        min_duration_ms := min_duration;
                        max_duration_ms := max_duration;
                        p95_duration_ms := p95;
                        p99_duration_ms := p99 |};
              memory_stats :=
                Some {| avg_memory_mb := avg_memory;
                        max_memory_mb := max_memory;
                        total_memory_mb := Py.sum memory_usage |};
              cpu_stats :=
                Some {| avg_cpu_percent := avg_cpu;
                        max_cpu_percent := max_cpu |};
              performance_categories := Some categories;
              recommendations :=
                Some (_generate_recommendations successful_results) |}
  end.

(** ** The probe runner: exceptions and effects *)

(** What the script distinguishes about a raised exception: whether
    [except ImportError] or [except Exception] handles it (the rest of
    [BaseException], such as KeyboardInterrupt and SystemExit, is
    handled by neither), and what [str(e)] does: it returns a text or,
    for a class whose [__str__] fails, raises an exception of its
    own. *)
Inductive exception_class := ImportError | OtherException | NonException.

Inductive str_outcome (E : Type) : Type :=
| Text (text : string)
| StrRaises (e : E).
Scheme All for str_outcome.
Arguments Text {E} text.
Arguments StrRaises {E} e.

Inductive exception : Type :=
  mkException { cls : exception_class; str : str_outcome exception }.

Definition is_ImportError (e : exception) : bool :=
  match cls e with ImportError => true | _ => false end.

Definition is_Exception (e : exception) : bool :=
  match cls e with NonException => false | _ => true end.

Inductive outcome (A : Type) : Type :=
| Return (a : A)
| Raise (e : exception).
Arguments Return {A} a.
Arguments Raise {A} e.

(** A computation over the world [W]: clock, process memory, standard
    output.  The world it leaves behind is kept when it raises. *)
Definition M (W A : Type) : Type := W → outcome A * W.

#[global] Instance M_ret {W} : MRet (M W) := λ A a w, (Return a, w).

#[global] Instance M_bind {W} : MBind (M W) := λ A B k m w,
  match m w with
  | (Return a, w') => k a w'
  | (Raise e, w') => (Raise e, w')
  end.

(** [try: body except <class> as e: handler e]. *)
Definition try_except {W A} (body : M W A) (handles : exception → bool)
    (handler : exception → M W A) : M W A := λ w,
  match body w with
  | (Return a, w') => (Return a, w')
  | (Raise e, w') => if handles e then handler e w' else (Raise e, w')
  end.

(** An exception of the pure part, with the text CPython gives it. *)
Definition or_raise {W A} (text : string) (o : option A) : M W A :=
  match o with
  | Some a => mret a
  | None => λ w, (Raise {| cls := OtherException; str := Text text |}, w)
  end.

(** [str(e)], as a step of a computation. *)
Definition str_of {W} (e : exception) : M W string := λ w,
  match str e with
  | Text text => (Return text, w)
  | StrRaises e' => (Raise e', w)
  end.

(** [for _ in range(n): acc = body(acc)]. *)
Fixpoint for_range {W A} (n : nat) (body : A → M W A) (acc : A) : M W A :=
  match n with
  | O => mret acc
  | S n' => acc' ← body acc; for_range n' body acc'
  end.

(** The library calls the runner makes. *)
Class Env (W : Type) := {
  (** [time.perf_counter()], in seconds *)
  perf_counter : M W Qc;
  (** [time.time()], in seconds *)
  time_time : M W Qc;
  (** [import psutil; psutil.Process().memory_info().rss], in bytes *)
  psutil_rss : M W Z;
  (** [time.sleep(seconds)] *)
  sleep : Qc → M W unit;
  (** [print(line)], which raises when the line cannot be encoded or
      written to standard output *)
  print : string → M W unit;
  (** [statistics.stdev], which takes a square root *)
  stdev : list Qc → Qc;
  (** [f"{x:.<digits>f}"] *)
  fmt_float : nat → Qc → string
}.

Section Runner.
Context {W : Type} `{!Env W}.

Definition print_line (line : string) : M W unit := print line.

(** [x % m] on floats, for a positive [m]. *)
Definition fmod (x m : Qc) : Qc :=
  x - m * Py.of_int (Qfloor (x / m)).

(** [_get_memory_usage]. *)
Definition _get_memory_usage : M W Qc :=
  try_except
    (rss ← psutil_rss;
     mret (Py.of_int rss / Py.of_int 1024 / Py.of_int 1024))
    is_ImportError
    (λ _, now ← time_time;
          mret (Py.of_int 25 + fmod now (Py.of_int 10))).

(** One pass of the timing loop of [_run_single_benchmark]. *)
Definition iteration (benchmark_func : M W unit) (durations : list Qc)
    : M W (list Qc) :=
  start_time ← perf_counter;
  _ ← benchmark_func;
  end_time ← perf_counter;
  mret (durations ++ [(end_time - start_time) * Py.of_int 1000]).

(** [statistics.stdev(durations) if len(durations) > 1 else 0]. *)
Definition std_dev_ms_of (durations : list Qc) : Qc :=
  if decide (1 < length durations)%nat then stdev durations else 0.

(** The result the [except] branch builds from the text of the
    exception. *)
Definition failed_result (name : string) (text : string) : BenchmarkResult :=
  {| name := name;
     duration_ms := 0;
     memory_mb := 0;
     cpu_percent := 0;
     success := false;
     error := Some text;
     metadata := None |}.

(** The [try] block of [_run_single_benchmark].  The three [or_raise]
    cannot fire, since [durations] holds five entries when they are
    reached. *)
Definition timed_run (name : string) (benchmark_func : M W unit)
    : M W BenchmarkResult :=
  initial_memory ← _get_memory_usage;
  durations ← for_range 5 (iteration benchmark_func) [];
  final_memory ← _get_memory_usage;
  let memory_delta := Py.max2 0 (final_memory - initial_memory) in
  avg_duration ←
    or_raise "mean requires at least one data point" (Py.mean durations);
  let cpu_percent :=
    Py.min2 (Py.of_int 100) (avg_duration / Py.of_int 10) in
  min_duration ←
    or_raise "min() arg is an empty sequence" (Py.min durations);
  max_duration ←
    or_raise "max() arg is an empty sequence" (Py.max durations);
  mret {| name := name;
          duration_ms := avg_duration;
          memory_mb := memory_delta;
          cpu_percent := cpu_percent;
          success := true;
          error := None;
          metadata :=
            Some {| Metadata.iterations := length durations;
                    Metadata.min_duration_ms := min_duration;
                    Metadata.max_duration_ms := max_duration;
                    Metadata.std_dev_ms := std_dev_ms_of durations |} |}.

(** [_run_single_benchmark]: the [try] block under
    [except Exception as e]; what [str(e)] raises in the handler is not
    handled there. *)
Definition _run_single_benchmark (name : string) (benchmark_func : M W unit)
    : M W BenchmarkResult :=
  try_except (timed_run name benchmark_func) is_Exception
    (λ e, text ← str_of e; mret (failed_result name text)).

(** The dictionary literal of [_print_benchmark_result]. *)
Definition category_emoji_table : gmap string string :=
  <["excellent" := "🟢"]>
    (<["good" := "🔵"]> (<["acceptable" := "🟠"]> (<["poor" := "🔴"]> ∅))).

(** [f"{result.error}"]. *)
Definition fmt_error (error : option string) : string :=
  default "None" error.

(** [_print_benchmark_result]. *)
Definition _print_benchmark_result (self : PerformanceBenchmarker)
    (result : BenchmarkResult) : M W unit :=
  if success result then
    category ← or_raise "KeyError" (_categorize_performance self result);
    category_emoji ← or_raise "KeyError" (category_emoji_table !! category);
    print_line
      ("  " +:+ category_emoji +:+ " " +:+ name result +:+ ": "
         +:+ fmt_float 2 (duration_ms result) +:+ "ms, "
         +:+ fmt_float 2 (memory_mb result) +:+ "MB, "
         +:+ fmt_float 1 (cpu_percent result) +:+ "% CPU")
  else
    print_line
      ("  ❌ " +:+ name result +:+ ": FAILED - " +:+ fmt_error (error result)).

(** The loop shared by the five [_run_*_benchmarks] methods: run each
    probe of the table, append its result, print it. *)
Fixpoint run_benchmarks (self : PerformanceBenchmarker)
    (benchmarks : list (string * M W unit))
    (results : list BenchmarkResult) : M W (list BenchmarkResult) :=
  match benchmarks with
  | [] => mret results
  | (name, benchmark_func) :: rest =>
      result ← _run_single_benchmark name benchmark_func;
      _ ← _print_benchmark_result self result;
      run_benchmarks self rest (results ++ [result])
  end.

(** [time.sleep(num / den)]. *)
Definition sleep_for (num den : Z) : M W unit :=
  sleep (Py.of_int num / Py.of_int den).

(** The simulated probes. *)
Definition _benchmark_store_init : M W unit := sleep_for 1 1000.
Definition _benchmark_task_addition : M W unit := sleep_for 2 1000.
Definition _benchmark_task_retrieval : M W unit := sleep_for 1 1000.
Definition _benchmark_concurrent_access : M W unit := sleep_for 5 1000.
Definition _benchmark_timeslot_ops : M W unit := sleep_for 5 10000.
Definition _benchmark_pet_evolution : M W unit := sleep_for 3 1000.
Definition _benchmark_pet_state : M W unit := sleep_for 2 1000.

(** [_run_core_benchmarks]. *)
Definition _run_core_benchmarks (self : PerformanceBenchmarker)
    : M W (list BenchmarkResult) :=
  _ ← print_line "⚡ Running core performance benchmarks...";
  run_benchmarks self
    [("SharedStore_Initialization", _benchmark_store_init);
     ("SharedStore_TaskAddition", _benchmark_task_addition);
     ("SharedStore_TaskRetrieval", _benchmark_task_retrieval);
     ("SharedStore_ConcurrentAccess", _benchmark_concurrent_access);
     ("TimeSlot_Operations", _benchmark_timeslot_ops);
     ("PetEvolution_PointAddition", _benchmark_pet_evolution);
     ("PetEvolution_StateCalculation", _benchmark_pet_state)]
    [].

(** [m] returns [a] from the world [w], leaving [w']. *)
Definition returns {A} (m : M W A) (w : W) (a : A) (w' : W) : Prop :=
  m w = (Return a, w').

(** The timing loop seen from outside: from [w] to [w'] the work unit
    is called once per entry of [durations], each call between two
    clock readings whose difference, in milliseconds, is that entry. *)
Fixpoint timed_calls (benchmark_func : M W unit) (w : W)
    (durations : list Qc) (w' : W) : Prop :=
  match durations with
  | [] => w = w'
  | d :: rest =>
      ∃ start_time end_time w1 w2 w3,
        returns perf_counter w start_time w1
        ∧ returns benchmark_func w1 () w2
        ∧ returns perf_counter w2 end_time w3
        ∧ d = (end_time - start_time) * Py.of_int 1000
        ∧ timed_calls benchmark_func w3 rest w'
  end.

End Runner.


(** ** The specification's tiers *)
Module Tier.

(** The ordered set {excellent, good, acceptable, poor}. *)
Inductive t := excellent | good | acceptable | poor.

(** Position in the order, best first. *)
Definition rank (c : t) : nat :=
  match c with
  | excellent => 0
  | good => 1
  | acceptable => 2
  | poor => 3
  end.

(** The label the script uses for the tier. *)
Definition label (c : t) : string :=
  match c with
  | excellent => "excellent"
  | good => "good"
  | acceptable => "acceptable"
  | poor => "poor"
  end.

(** Lookup of a metric value in an ascending threshold table. *)
Definition of_value (t1 t2 t3 : Z) (v : Qc) : t :=
  if decide (v ≤ Py.of_int t1) then excellent
  else if decide (v ≤ Py.of_int t2) then good
  else if decide (v ≤ Py.of_int t3) then acceptable
  else poor.

(** The worse of two tiers. *)
Definition worse (a b : t) : t :=
  if decide (rank a < rank b)%nat then b else a.

(** The tier of a sample under the default tables. *)
Definition of_sample (r : BenchmarkResult) : t :=
  worse (worse (of_value 100 500 1000 (duration_ms r))
               (of_value 10 25 50 (memory_mb r)))
        (of_value 20 50 80 (cpu_percent r)).

#[global] Instance eq_dec : EqDecision t.
Proof. solve_decision. Defined.

(** The samples of a list that fall in tier [c]. *)
Definition members (c : t) (rs : list BenchmarkResult) : list BenchmarkResult :=
  filter (λ r, of_sample r = c) rs.

End Tier.

(** ** A small deterministic world for examples

    A clock in milliseconds that only [time.sleep] advances, no
    [psutil] module, and a standard output that takes every line and
    keeps the lines printed so far.  [stdev] and the float formatting
    are stand-ins. *)
Module Sim.

Record world := mk { now_ms : Z; printed : list string }.

Definition seconds (w : world) : Qc := Py.of_int (now_ms w) / Py.of_int 1000.

#[global] Instance env : Env world := {
  perf_counter := λ w, (Return (seconds w), w);
  time_time := λ w, (Return (seconds w), w);
  psutil_rss := λ w,
    (Raise {| cls := ImportError; str := Text "No module named 'psutil'" |}, w);
  sleep := λ s w,
    (Return (),
     {| now_ms := now_ms w + Qfloor (s * Py.of_int 1000);
        printed := printed w |});
  print := λ line w,
    (Return (), {| now_ms := now_ms w; printed := printed w ++ [line] |});
  stdev := λ _, 0;
  fmt_float := λ _ _, "?"
}.

Definition start : world := {| now_ms := 0; printed := [] |}.

(** A work unit that fails with [raise RuntimeError()]. *)
Definition raise_bare : M world unit :=
  λ w, (Raise {| cls := OtherException; str := Text "" |}, w).

(** A work unit that fails with [raise RuntimeError("boom")]. *)
Definition raise_boom : M world unit :=
  λ w, (Raise {| cls := OtherException; str := Text "boom" |}, w).

(** A work unit that raises an [Exception] whose [__str__] raises
    TypeError. *)
Definition unprintable : exception :=
  {| cls := OtherException;
     str := StrRaises
              {| cls := OtherException;
                 str := Text "__str__ returned non-string (type int)" |} |}.

Definition raise_unprintable : M world unit :=
  λ w, (Raise unprintable, w).

(** A work unit that ends the interpreter with [sys.exit(1)]: it raises
    SystemExit, which is not an [Exception]. *)
Definition exit_now : M world unit :=
  λ w, (Raise {| cls := NonException; str := Text "1" |}, w).

(** A sample with the given three metrics. *)
Definition sample (n : string) (d m c : Z) (ok : bool) : BenchmarkResult :=
  {| name := n;
     duration_ms := Py.of_int d;
     memory_mb := Py.of_int m;
     cpu_percent := Py.of_int c;
     success := ok;
     error := if ok then None else Some "boom";
     metadata := None |}.

End Sim.

(** ** The suite: the other probe groups, the files and reports, [main] *)

(** The data class [BenchmarkSuite]. *)
Module BenchmarkSuite.
Record t := mk {
  name : string;
  timestamp : string;
  device : string;
  os_version : string;
  total_duration_ms : Qc;
  results : list BenchmarkResult;
  summary : Summary
}.
End BenchmarkSuite.

(** The parsed command line of [main]. *)
Module Args.
Record t := mk {
  project_path : string;
  results_dir : string;
  suite_name : string;
  device : string;
  os_version : string
}.
End Args.

(** The double quote character. *)
Definition dq : string := String (Ascii.ascii_of_nat 34) EmptyString.

(** The line feed character. *)
Definition nl : string := String (Ascii.ascii_of_nat 10) EmptyString.

(** [str.title()] on ASCII text: a letter that starts a run of letters
    is put in upper case, the other letters of the run in lower case. *)
Definition is_lower (c : Ascii.ascii) : bool :=
  Nat.leb 97 (Ascii.nat_of_ascii c) && Nat.leb (Ascii.nat_of_ascii c) 122.

Definition is_upper (c : Ascii.ascii) : bool :=
  Nat.leb 65 (Ascii.nat_of_ascii c) && Nat.leb (Ascii.nat_of_ascii c) 90.

Definition to_upper (c : Ascii.ascii) : Ascii.ascii :=
  if is_lower c then Ascii.ascii_of_nat (Ascii.nat_of_ascii c - 32) else c.

Definition to_lower (c : Ascii.ascii) : Ascii.ascii :=
  if is_upper c then Ascii.ascii_of_nat (Ascii.nat_of_ascii c + 32) else c.

Fixpoint title_from (previous_is_cased : bool) (s : string) : string :=
  match s with
  | EmptyString => EmptyString
  | String c rest =>
      String (if previous_is_cased then to_lower c else to_upper c)
             (title_from (is_lower c || is_upper c) rest)
  end.

Definition title (s : string) : string := title_from false s.

(** [f"{b}"] for a bool. *)
Definition fmt_bool (b : bool) : string := if b then "True" else "False".

(** [d.items()] for the category counter of a summary: Python lists a
    dict in insertion order, which for the counter that
    [_generate_summary] builds is the order of its initial literal,
    the one of [categories]. *)
Definition counter_items (d : gmap string nat) : list (string * nat) :=
  omap (λ category, (λ count, (category, count)) <$> d !! category)
       categories.

(** The library calls of the part that writes files. *)
Class Host (W : Type) := {
  (** [datetime.now().strftime("%Y%m%d_%H%M%S")] *)
  now_stamp : M W string;
  (** [datetime.now(timezone.utc).isoformat()] *)
  utc_isoformat : M W string;
  (** [str(directory / file_name)] for a [pathlib.Path] *)
  path_join : string → string → string;
  (** [Path(directory).mkdir(parents=True, exist_ok=True)] *)
  mkdir : string → M W unit;
  (** [open(path, 'w')] *)
  open_w : string → M W unit;
  (** [f.write(text)] on the file opened at the path *)
  write : string → string → M W unit;
  (** [f.close()] when the [with] block is left, which raises when the
      buffered text cannot be written *)
  close : string → M W unit;
  (** [json.dump(asdict(suite), f, indent=2, default=str)] on the file
      opened at the path *)
  json_dump : BenchmarkSuite.t → string → M W unit;
  (** [parser.parse_args()] for the five options of [main] *)
  parse_args : M W Args.t
}.

Section Suite.
Context {W : Type} `{!Env W} `{!Host W}.

(** [with open(path, 'w') as f: body]: the file is closed however the
    body ends, and an exception of [close] replaces the outcome of the
    body. *)
Definition with_open {A} (path : string) (body : M W A) : M W A :=
  _ ← open_w path;
  ((λ w,
      let (outcome, w') := body w in
      match close path w' with
      | (Return _, w'') => (outcome, w'')
      | (Raise e, w'') => (Raise e, w'')
      end) : M W A).

(** [for x in xs: acc = body(acc, x)]. *)
Fixpoint for_each {A B} (xs : list A) (body : B → A → M W B) (acc : B)
    : M W B :=
  match xs with
  | [] => mret acc
  | x :: rest => acc' ← body acc x; for_each rest body acc'
  end.

(** The remaining simulated probes; the objects some of them build
    before sleeping are not observable from here. *)
Definition _benchmark_task_memory : M W unit := sleep_for 1 1000.
Definition _benchmark_widget_memory : M W unit := sleep_for 2 1000.
Definition _benchmark_asset_memory : M W unit := sleep_for 1 1000.
Definition _benchmark_memory_leaks : M W unit := sleep_for 3 1000.
Definition _benchmark_view_creation : M W unit := sleep_for 2 1000.
Definition _benchmark_animations : M W unit := sleep_for 16 1000.
Definition _benchmark_scrolling : M W unit := sleep_for 8 1000.
Definition _benchmark_responsiveness : M W unit := sleep_for 1 1000.
Definition _benchmark_cdn_response : M W unit := sleep_for 50 1000.
Definition _benchmark_asset_download : M W unit := sleep_for 100 1000.
Definition _benchmark_failover : M W unit := sleep_for 200 1000.
Definition _benchmark_cache : M W unit := sleep_for 1 1000.
Definition _benchmark_task_planning : M W unit := sleep_for 50 1000.
Definition _benchmark_recommendations : M W unit := sleep_for 30 1000.
Definition _benchmark_sentiment : M W unit := sleep_for 10 1000.
Definition _benchmark_behavior_analysis : M W unit := sleep_for 40 1000.

(** [_run_memory_benchmarks]. *)
Definition _run_memory_benchmarks (self : PerformanceBenchmarker)
    : M W (list BenchmarkResult) :=
  _ ← print_line "🧠 Running memory performance benchmarks...";
  run_benchmarks self
    [("Memory_TaskCreation", _benchmark_task_memory);
     ("Memory_WidgetCreation", _benchmark_widget_memory);
     ("Memory_AssetLoading", _benchmark_asset_memory);
     ("Memory_LeakDetection", _benchmark_memory_leaks)]
    [].

(** [_run_ui_benchmarks]. *)
Definition _run_ui_benchmarks (self : PerformanceBenchmarker)
    : M W (list BenchmarkResult) :=
  _ ← print_line "🎨 Running UI performance benchmarks...";
  run_benchmarks self
    [("UI_ViewCreation", _benchmark_view_creation);
     ("UI_AnimationPerformance", _benchmark_animations);
     ("UI_ScrollingPerformance", _benchmark_scrolling);
     ("UI_ResponsivenessTest", _benchmark_responsiveness)]
    [].

(** [_run_network_benchmarks]. *)
Definition _run_network_benchmarks (self : PerformanceBenchmarker)
    : M W (list BenchmarkResult) :=
  _ ← print_line "🌐 Running network performance benchmarks...";
  run_benchmarks self
    [("Network_CDNResponse", _benchmark_cdn_response);
     ("Network_AssetDownload", _benchmark_asset_download);
     ("Network_FailoverHandling", _benchmark_failover);
     ("Network_CacheEfficiency", _benchmark_cache)]
    [].

(** [_run_ai_benchmarks]. *)
Definition _run_ai_benchmarks (self : PerformanceBenchmarker)
    : M W (list BenchmarkResult) :=
  _ ← print_line "🤖 Running AI/ML performance benchmarks...";
  run_benchmarks self
    [("AI_TaskPlanGeneration", _benchmark_task_planning);
     ("AI_RecommendationEngine", _benchmark_recommendations);
     ("AI_SentimentAnalysis", _benchmark_sentiment);
     ("AI_BehaviorAnalysis", _benchmark_behavior_analysis)]
    [].

(** [self._categorize_performance(result) if result.success else
    "failed"], as the CSV and both reports compute it. *)
Definition category_or_failed (self : PerformanceBenchmarker)
    (result : BenchmarkResult) : M W string :=
  if success result
  then or_raise "KeyError" (_categorize_performance self result)
  else mret "failed".

(** The row [_save_results] writes for one result. *)
Definition csv_row (self : PerformanceBenchmarker) (result : BenchmarkResult)
    : M W string :=
  category ← category_or_failed self result;
  mret (name result +:+ "," +:+ fmt_float 2 (duration_ms result) +:+ ","
          +:+ fmt_float 2 (memory_mb result) +:+ ","
          +:+ fmt_float 2 (cpu_percent result) +:+ ","
          +:+ fmt_bool (success result) +:+ "," +:+ category +:+ nl).

(** [_save_results]; [self.results_dir] is passed beside [self], whose
    record holds the thresholds only. *)
Definition _save_results (self : PerformanceBenchmarker)
    (results_dir : string) (benchmark_suite : BenchmarkSuite.t) : M W unit :=
  timestamp ← now_stamp;
  let json_file :=
    path_join results_dir ("benchmark_" +:+ timestamp +:+ ".json") in
  _ ← with_open json_file (json_dump benchmark_suite json_file);
  let csv_file :=
    path_join results_dir ("benchmark_summary_" +:+ timestamp +:+ ".csv") in
  _ ← with_open csv_file
        (_ ← write csv_file
               ("Test Name,Duration (ms),Memory (MB),CPU (%),Success,Category"
                  +:+ nl);
         for_each (BenchmarkSuite.results benchmark_suite)
           (λ _ result, row ← csv_row self result; write csv_file row) ());
  _ ← print_line ("📊 Results saved to " +:+ json_file);
  print_line ("📈 Summary saved to " +:+ csv_file).

(** ['performance_stats'], ['memory_stats'], ['cpu_stats'],
    ['performance_categories'] and ['recommendations'] of a summary:
    KeyError, with the quoted key as its text, when the summary is the
    short one. *)
Definition summary_key {A} (key : string) (entry : option A) : M W A :=
  or_raise ("'" +:+ key +:+ "'") entry.

(** The first f-string of [_generate_html_report]. *)
Definition html_head (benchmark_suite : BenchmarkSuite.t) : M W string :=
  performance_stats ←
    summary_key "performance_stats"
      (performance_stats (BenchmarkSuite.summary benchmark_suite));
  memory_stats ←
    summary_key "memory_stats"
      (memory_stats (BenchmarkSuite.summary benchmark_suite));
  cpu_stats ←
    summary_key "cpu_stats"
      (cpu_stats (BenchmarkSuite.summary benchmark_suite));
  mret
    ("
<!DOCTYPE html>
<html>
<head>
    <title>Performance Benchmark Report - "
    +:+ BenchmarkSuite.name benchmark_suite
    +:+ "</title>
    <style>
        body { font-family: -apple-system, BlinkMacSystemFont, sans-serif; margin: 40px; }
        .header { background: linear-gradient(135deg, #667eea 0%, #764ba2 100%);
                  color: white; padding: 30px; border-radius: 12px; margin-bottom: 30px; }
        .summary { display: grid; grid-template-columns: repeat(auto-fit, minmax(200px, 1fr));
                   gap: 20px; margin-bottom: 30px; }
        .metric-card { padding: 20px; border-radius: 8px; text-align: center; }
        .excellent { background: #e8f5e8; border-left: 4px solid #4CAF50; }
        .good { background: #e3f2fd; border-left: 4px solid #2196F3; }
        .acceptable { background: #fff3e0; border-left: 4px solid #FF9800; }
        .poor { background: #ffebee; border-left: 4px solid #F44336; }
        .results-table { width: 100%; border-collapse: collapse; margin-top: 20px; }
        .results-table th, .results-table td { padding: 12px; text-align: left; border-bottom: 1px solid #ddd; }
        .results-table th { background: #f5f5f5; font-weight: 600; }
        .status-success { color: #4CAF50; font-weight: bold; }
        .status-failed { color: #F44336; font-weight: bold; }
        .recommendations { background: #f8f9fa; padding: 20px; border-radius: 8px; margin-top: 20px; }
    </style>
</head>
<body>
    <div class="
    +:+ dq
    +:+ "header"
    +:+ dq
    +:+ ">
        <h1>⚡ Performance Benchmark Report</h1>
        <h2>"
    +:+ BenchmarkSuite.name benchmark_suite
    +:+ "</h2>
        <p><strong>Device:</strong> "
    +:+ BenchmarkSuite.device benchmark_suite
    +:+ " | <strong>OS:</strong> "
    +:+ BenchmarkSuite.os_version benchmark_suite
    +:+ "</p>
        <p><strong>Timestamp:</strong> "
    +:+ BenchmarkSuite.timestamp benchmark_suite
    +:+ "</p>
        <p><strong>Total Duration:</strong> "
    +:+ fmt_float 2 (BenchmarkSuite.total_duration_ms benchmark_suite)
    +:+ "ms</p>
    </div>

    <div class="
    +:+ dq
    +:+ "summary"
    +:+ dq
    +:+ ">
        <div class="
    +:+ dq
    +:+ "metric-card excellent"
    +:+ dq
    +:+ ">
            <h3>Success Rate</h3>
            <div style="
    +:+ dq
    +:+ "font-size: 2em; font-weight: bold;"
    +:+ dq
    +:+ ">
                "
    +:+ fmt_float 1 (success_rate (BenchmarkSuite.summary benchmark_suite))
    +:+ "%
            </div>
            <p>"
    +:+ Py.fmt_int (successful (BenchmarkSuite.summary benchmark_suite))
    +:+ "/"
    +:+ Py.fmt_int (total_tests (BenchmarkSuite.summary benchmark_suite))
    +:+ " tests passed</p>
        </div>

        <div class="
    +:+ dq
    +:+ "metric-card good"
    +:+ dq
    +:+ ">
            <h3>Avg Performance</h3>
            <div style="
    +:+ dq
    +:+ "font-size: 2em; font-weight: bold;"
    +:+ dq
    +:+ ">
                "
    +:+ fmt_float 2 (avg_duration_ms performance_stats)
    +:+ "ms
            </div>
            <p>Average execution time</p>
        </div>

        <div class="
    +:+ dq
    +:+ "metric-card acceptable"
    +:+ dq
    +:+ ">
            <h3>Memory Usage</h3>
            <div style="
    +:+ dq
    +:+ "font-size: 2em; font-weight: bold;"
    +:+ dq
    +:+ ">
                "
    +:+ fmt_float 2 (avg_memory_mb memory_stats)
    +:+ "MB
            </div>
            <p>Average memory consumption</p>
        </div>

        <div class="
    +:+ dq
    +:+ "metric-card good"
    +:+ dq
    +:+ ">
            <h3>CPU Usage</h3>
            <div style="
    +:+ dq
    +:+ "font-size: 2em; font-weight: bold;"
    +:+ dq
    +:+ ">
                "
    +:+ fmt_float 1 (avg_cpu_percent cpu_stats)
    +:+ "%
            </div>
            <p>Average CPU utilization</p>
        </div>
    </div>

    <h2>📊 Performance Categories</h2>
    <div class="
    +:+ dq
    +:+ "summary"
    +:+ dq
    +:+ ">
").

(** The card of one category. *)
Definition html_category_card (category : string) (count : nat) : string :=
  let color_class := category in
  "
        <div class="
  +:+ dq
  +:+ "metric-card "
  +:+ color_class
  +:+ dq
  +:+ ">
            <h4>"
  +:+ title category
  +:+ "</h4>
            <div style="
  +:+ dq
  +:+ "font-size: 1.5em; font-weight: bold;"
  +:+ dq
  +:+ ">"
  +:+ Py.fmt_int count
  +:+ "</div>
            <p>tests</p>
        </div>
".

Definition html_table_head : string :=
  "
    </div>

    <h2>📋 Detailed Results</h2>
    <table class="
  +:+ dq
  +:+ "results-table"
  +:+ dq
  +:+ ">
        <thead>
            <tr>
                <th>Test Name</th>
                <th>Duration (ms)</th>
                <th>Memory (MB)</th>
                <th>CPU (%)</th>
                <th>Status</th>
                <th>Category</th>
            </tr>
        </thead>
        <tbody>
".

(** The table row of one result. *)
Definition html_row (self : PerformanceBenchmarker) (result : BenchmarkResult)
    : M W string :=
  let status_class :=
    if success result then "status-success" else "status-failed" in
  let status_text := if success result then "✅ Pass" else "❌ Fail" in
  category ← category_or_failed self result;
  mret
    ("
            <tr>
                <td>"
    +:+ name result
    +:+ "</td>
                <td>"
    +:+ fmt_float 2 (duration_ms result)
    +:+ "</td>
                <td>"
    +:+ fmt_float 2 (memory_mb result)
    +:+ "</td>
                <td>"
    +:+ fmt_float 2 (cpu_percent result)
    +:+ "</td>
                <td class="
    +:+ dq
    +:+ status_class
    +:+ dq
    +:+ ">"
    +:+ status_text
    +:+ "</td>
                <td>"
    +:+ title category
    +:+ "</td>
            </tr>
").

Definition html_recommendations_head : string :=
  "
        </tbody>
    </table>

    <div class="
  +:+ dq
  +:+ "recommendations"
  +:+ dq
  +:+ ">
        <h2>💡 Recommendations</h2>
        <ul>
".

Definition html_recommendation (recommendation : string) : string :=
  "            <li>"
  +:+ recommendation
  +:+ "</li>
".

Definition html_foot : string :=
  "
        </ul>
    </div>
</body>
</html>
".

(** [_generate_html_report]: the text is built first, the file is
    opened after. *)
Definition _generate_html_report (self : PerformanceBenchmarker)
    (benchmark_suite : BenchmarkSuite.t) (output_file : string) : M W unit :=
  html_content ← html_head benchmark_suite;
  performance_categories ←
    summary_key "performance_categories"
      (performance_categories (BenchmarkSuite.summary benchmark_suite));
  html_content ←
    for_each (counter_items performance_categories)
      (λ html_content '(category, count),
         mret (html_content +:+ html_category_card category count))
      html_content;
  let html_content := html_content +:+ html_table_head in
  html_content ←
    for_each (BenchmarkSuite.results benchmark_suite)
      (λ html_content result,
         row ← html_row self result; mret (html_content +:+ row))
      html_content;
  let html_content := html_content +:+ html_recommendations_head in
  recommendations ←
    summary_key "recommendations"
      (recommendations (BenchmarkSuite.summary benchmark_suite));
  html_content ←
    for_each recommendations
      (λ html_content recommendation,
         mret (html_content +:+ html_recommendation recommendation))
      html_content;
  let html_content := html_content +:+ html_foot in
  with_open output_file (write output_file html_content).

(** The first f-string of [_generate_markdown_report]. *)
Definition md_head (benchmark_suite : BenchmarkSuite.t) : M W string :=
  performance_stats ←
    summary_key "performance_stats"
      (performance_stats (BenchmarkSuite.summary benchmark_suite));
  memory_stats ←
    summary_key "memory_stats"
      (memory_stats (BenchmarkSuite.summary benchmark_suite));
  cpu_stats ←
    summary_key "cpu_stats"
      (cpu_stats (BenchmarkSuite.summary benchmark_suite));
  mret
    ("# ⚡ Performance Benchmark Report

## "
    +:+ BenchmarkSuite.name benchmark_suite
    +:+ "

**Device:** "
    +:+ BenchmarkSuite.device benchmark_suite
    +:+ "
**OS:** "
    +:+ BenchmarkSuite.os_version benchmark_suite
    +:+ "
**Timestamp:** "
    +:+ BenchmarkSuite.timestamp benchmark_suite
    +:+ "
**Total Duration:** "
    +:+ fmt_float 2 (BenchmarkSuite.total_duration_ms benchmark_suite)
    +:+ "ms

## 📊 Summary

| Metric | Value |
|--------|-------|
| Success Rate | "
    +:+ fmt_float 1 (success_rate (BenchmarkSuite.summary benchmark_suite))
    +:+ "% ("
    +:+ Py.fmt_int (successful (BenchmarkSuite.summary benchmark_suite))
    +:+ "/"
    +:+ Py.fmt_int (total_tests (BenchmarkSuite.summary benchmark_suite))
    +:+ ") |
| Avg Duration | "
    +:+ fmt_float 2 (avg_duration_ms performance_stats)
    +:+ "ms |
| P95 Duration | "
    +:+ fmt_float 2 (p95_duration_ms performance_stats)
    +:+ "ms |
| P99 Duration | "
    +:+ fmt_float 2 (p99_duration_ms performance_stats)
    +:+ "ms |
| Avg Memory | "
    +:+ fmt_float 2 (avg_memory_mb memory_stats)
    +:+ "MB |
| Max Memory | "
    +:+ fmt_float 2 (max_memory_mb memory_stats)
    +:+ "MB |
| Avg CPU | "
    +:+ fmt_float 1 (avg_cpu_percent cpu_stats)
    +:+ "% |

## 🎯 Performance Categories

").

(** The line of one category. *)
Definition md_category_line (category : string) (count : nat) : M W string :=
  emoji ←
    or_raise ("'" +:+ category +:+ "'") (category_emoji_table !! category);
  mret
    ("- "
    +:+ emoji
    +:+ " **"
    +:+ title category
    +:+ ":** "
    +:+ Py.fmt_int count
    +:+ " tests
").

Definition md_table_head : string :=
  "
## 📋 Detailed Results

| Test Name | Duration (ms) | Memory (MB) | CPU (%) | Status | Category |
|-----------|---------------|-------------|---------|--------|----------|
".

(** The table row of one result. *)
Definition md_row (self : PerformanceBenchmarker) (result : BenchmarkResult)
    : M W string :=
  let status_emoji := if success result then "✅" else "❌" in
  category ← category_or_failed self result;
  mret
    ("| "
    +:+ name result
    +:+ " | "
    +:+ fmt_float 2 (duration_ms result)
    +:+ " | "
    +:+ fmt_float 2 (memory_mb result)
    +:+ " | "
    +:+ fmt_float 2 (cpu_percent result)
    +:+ " | "
    +:+ status_emoji
    +:+ " | "
    +:+ title category
    +:+ " |
").

Definition md_recommendations_head : string :=
  "
## 💡 Recommendations

".

Definition md_recommendation (recommendation : string) : string :=
  "- "
  +:+ recommendation
  +:+ "
".

Definition md_foot : string :=
  "
---
*Report generated by Enterprise Performance Benchmarker*
".

(** [_generate_markdown_report]. *)
Definition _generate_markdown_report (self : PerformanceBenchmarker)
    (benchmark_suite : BenchmarkSuite.t) (output_file : string) : M W unit :=
  md_content ← md_head benchmark_suite;
  performance_categories ←
    summary_key "performance_categories"
      (performance_categories (BenchmarkSuite.summary benchmark_suite));
  md_content ←
    for_each (counter_items performance_categories)
      (λ md_content '(category, count),
         line ← md_category_line category count;
         mret (md_content +:+ line))
      md_content;
  let md_content := md_content +:+ md_table_head in
  md_content ←
    for_each (BenchmarkSuite.results benchmark_suite)
      (λ md_content result,
         row ← md_row self result; mret (md_content +:+ row))
      md_content;
  let md_content := md_content +:+ md_recommendations_head in
  recommendations ←
    summary_key "recommendations"
      (recommendations (BenchmarkSuite.summary benchmark_suite));
  md_content ←
    for_each recommendations
      (λ md_content recommendation,
         mret (md_content +:+ md_recommendation recommendation))
      md_content;
  let md_content := md_content +:+ md_foot in
  with_open output_file (write output_file md_content).

(** [_generate_reports]. *)
Definition _generate_reports (self : PerformanceBenchmarker)
    (results_dir : string) (benchmark_suite : BenchmarkSuite.t) : M W unit :=
  timestamp ← now_stamp;
  let html_file :=
    path_join results_dir ("benchmark_report_" +:+ timestamp +:+ ".html") in
  _ ← _generate_html_report self benchmark_suite html_file;
  let md_file :=
    path_join results_dir ("benchmark_report_" +:+ timestamp +:+ ".md") in
  _ ← _generate_markdown_report self benchmark_suite md_file;
  _ ← print_line ("📄 HTML report: " +:+ html_file);
  print_line ("📝 Markdown report: " +:+ md_file).

(** [run_benchmark_suite]. *)
Definition run_benchmark_suite (self : PerformanceBenchmarker)
    (results_dir suite_name device os_version : string)
    : M W BenchmarkSuite.t :=
  _ ← print_line ("🚀 Starting benchmark suite: " +:+ suite_name);
  _ ← print_line ("📱 Device: " +:+ device);
  _ ← print_line ("🔢 OS Version: " +:+ os_version);
  start_time ← time_time;
  let results := [] in
  core ← _run_core_benchmarks self;
  let results := results ++ core in
  memory ← _run_memory_benchmarks self;
  let results := results ++ memory in
  ui ← _run_ui_benchmarks self;
  let results := results ++ ui in
  network ← _run_network_benchmarks self;
  let results := results ++ network in
  ai ← _run_ai_benchmarks self;
  let results := results ++ ai in
  end_time ← time_time;
  let total_duration := (end_time - start_time) * Py.of_int 1000 in
  summary ← or_raise "KeyError" (_generate_summary self results total_duration);
  timestamp ← utc_isoformat;
  let benchmark_suite :=
    {| BenchmarkSuite.name := suite_name;
       BenchmarkSuite.timestamp := timestamp;
       BenchmarkSuite.device := device;
       BenchmarkSuite.os_version := os_version;
       BenchmarkSuite.total_duration_ms := total_duration;
       BenchmarkSuite.results := results;
       BenchmarkSuite.summary := summary |} in
  _ ← _save_results self results_dir benchmark_suite;
  _ ← _generate_reports self results_dir benchmark_suite;
  _ ← print_line ("✅ Benchmark suite completed in "
                    +:+ fmt_float 2 total_duration +:+ "ms");
  mret benchmark_suite.

(** [PerformanceBenchmarker(project_path, results_dir)]: the directory
    is created and the default tables are set. *)
Definition new_benchmarker (project_path results_dir : string)
    : M W PerformanceBenchmarker :=
  _ ← mkdir results_dir;
  mret init.

(** [main], up to the exit code it returns. *)
Definition main : M W Z :=
  args ← parse_args;
  benchmarker ←
    new_benchmarker (Args.project_path args) (Args.results_dir args);
  try_except
    (suite ← run_benchmark_suite benchmarker (Args.results_dir args)
               (Args.suite_name args) (Args.device args)
               (Args.os_version args);
     _ ← print_line (nl +:+ "🎉 Benchmark completed successfully!");
     _ ← print_line ("📊 Results saved to: " +:+ Args.results_dir args);
     _ ← print_line
           ("✅ Success Rate: "
              +:+ fmt_float 1 (success_rate (BenchmarkSuite.summary suite))
              +:+ "%");
     performance_stats ←
       summary_key "performance_stats"
         (performance_stats (BenchmarkSuite.summary suite));
     _ ← print_line
           ("⚡ Average Performance: "
              +:+ fmt_float 2 (avg_duration_ms performance_stats) +:+ "ms");
     mret (if decide (failed (BenchmarkSuite.summary suite) = 0%nat)
           then 0%Z else 1%Z))
    is_Exception
    (λ e,
       text ← str_of e;
       _ ← print_line ("❌ Benchmark failed: " +:+ text);
       mret 1%Z).

End Suite.

(** ** A simulated host with a disk

    The clock and the output of [Sim], the files written so far, and a
    switch that makes every [time.sleep] fail with an [Exception]. *)
Module Lab.

Record world := mk {
  sim : Sim.world;
  files : list (string * string);
  sleep_fails : bool
}.

Definition with_sim (w : world) (s : Sim.world) : world :=
  {| sim := s; files := files w; sleep_fails := sleep_fails w |}.

Definition with_files (w : world) (fs : list (string * string)) : world :=
  {| sim := sim w; files := fs; sleep_fails := sleep_fails w |}.

#[global] Instance env : Env world := {
  perf_counter := λ w, (Return (Sim.seconds (sim w)), w);
  time_time := λ w, (Return (Sim.seconds (sim w)), w);
  psutil_rss := λ w,
    (Raise {| cls := ImportError; str := Text "No module named 'psutil'" |}, w);
  sleep := λ s w,
    if sleep_fails w
    then (Raise {| cls := OtherException; str := Text "boom" |}, w)
    else (Return (),
          with_sim w
            {| Sim.now_ms := Sim.now_ms (sim w) + Qfloor (s * Py.of_int 1000);
               Sim.printed := Sim.printed (sim w) |});
  print := λ line w,
    (Return (),
     with_sim w
       {| Sim.now_ms := Sim.now_ms (sim w);
          Sim.printed := Sim.printed (sim w) ++ [line] |});
  stdev := λ _, 0;
  fmt_float := λ _ _, "?"
}.

(** Writing appends to the text stored under the path. *)
Definition append_to (path text : string) (fs : list (string * string))
    : list (string * string) :=
  fs ++ [(path, text)].

#[global] Instance host : Host world := {
  now_stamp := λ w, (Return "20240101_000000", w);
  utc_isoformat := λ w, (Return "2024-01-01T00:00:00+00:00", w);
  path_join := λ directory file_name, directory +:+ "/" +:+ file_name;
  mkdir := λ _ w, (Return (), w);
  open_w := λ path w, (Return (), with_files w (append_to path "" (files w)));
  write := λ path text w,
    (Return (), with_files w (append_to path text (files w)));
  close := λ _ w, (Return (), w);
  json_dump := λ _ path w,
    (Return (), with_files w (append_to path "{}" (files w)));
  parse_args := λ w,
    (Return {| Args.project_path := ".";
               Args.results_dir := "BenchmarkResults";
               Args.suite_name := "MyTaskList Performance Suite";
               Args.device := "iPhone 15 Pro";
               Args.os_version := "17.0" |}, w)
}.

Definition start : world :=
  {| sim := Sim.start; files := []; sleep_fails := false |}.

Definition broken : world :=
  {| sim := Sim.start; files := []; sleep_fails := true |}.

End Lab.

(** * Properties *)

(** ** Tier classification *)

Lemma get_category_table self metric e g a p v :
  thresholds self !! metric = Some (threshold_table e g a p) →
  _get_category self v metric = Some (Tier.label (Tier.of_value e g a v)).
Proof.
  intros Htable.
  unfold _get_category, Tier.of_value.
  rewrite Htable; unfold threshold_table; simpl.
  repeat (rewrite ?lookup_insert_eq; rewrite ?lookup_insert_ne by done; simpl).
  repeat case_decide; reflexivity.
Qed.

Lemma get_category_init v :
  _get_category init v "duration_ms"
  = Some (Tier.label (Tier.of_value 100 500 1000 v))
  ∧ _get_category init v "memory_mb"
    = Some (Tier.label (Tier.of_value 10 25 50 v))
  ∧ _get_category init v "cpu_percent"
    = Some (Tier.label (Tier.of_value 20 50 80 v)).
Proof.
  split; [|split].
  - by apply (get_category_table init _ _ _ _ 5000).
  - by apply (get_category_table init _ _ _ _ 100).
  - by apply (get_category_table init _ _ _ _ 100).
Qed.

Lemma rank_worse a b :
  Tier.rank (Tier.worse a b) = Nat.max (Tier.rank a) (Tier.rank b).
Proof. destruct a, b; reflexivity. Qed.

Lemma categorize_init r :
  _categorize_performance init r = Some (Tier.label (Tier.of_sample r)).
Proof.
  unfold _categorize_performance.
  destruct (get_category_init (duration_ms r)) as (-> & _ & _).
  destruct (get_category_init (memory_mb r)) as (_ & -> & _).
  destruct (get_category_init (cpu_percent r)) as (_ & _ & ->).
  unfold Tier.of_sample.
  generalize (Tier.of_value 100 500 1000 (duration_ms r))
             (Tier.of_value 10 25 50 (memory_mb r))
             (Tier.of_value 20 50 80 (cpu_percent r)).
  intros [] [] []; reflexivity.
Qed.

(** C1.  Under the default tables, each metric of a sample is looked up
    as excellent (v ≤ t1), good (v ≤ t2), acceptable (v ≤ t3) or poor,
    with cut-offs 100/500/1000, 10/25/50 and 20/50/80; the category of
    the sample is the one of highest rank among the three.  A sample
    with metrics 50, 5, 10 is excellent and one with 50, 60, 10 is
    poor. *)
Theorem categorize_is_worst_of_three (r : BenchmarkResult) :
  let d := Tier.of_value 100 500 1000 (duration_ms r) in
  let m := Tier.of_value 10 25 50 (memory_mb r) in
  let c := Tier.of_value 20 50 80 (cpu_percent r) in
  _get_category init (duration_ms r) "duration_ms" = Some (Tier.label d)
  ∧ _get_category init (memory_mb r) "memory_mb" = Some (Tier.label m)
  ∧ _get_category init (cpu_percent r) "cpu_percent" = Some (Tier.label c)
  ∧ (∃ worst : Tier.t,
        _categorize_performance init r = Some (Tier.label worst)
        ∧ worst ∈ [d; m; c]
        ∧ Tier.rank worst
          = Nat.max (Nat.max (Tier.rank d) (Tier.rank m)) (Tier.rank c))
  ∧ (duration_ms r = Py.of_int 50 → memory_mb r = Py.of_int 5 →
     cpu_percent r = Py.of_int 10 →
     _categorize_performance init r = Some "excellent")
  ∧ (duration_ms r = Py.of_int 50 → memory_mb r = Py.of_int 60 →
     cpu_percent r = Py.of_int 10 →
     _categorize_performance init r = Some "poor").
Proof.
  intros d m c.
  destruct (get_category_init (duration_ms r)) as (Hd & _ & _).
  destruct (get_category_init (memory_mb r)) as (_ & Hm & _).
  destruct (get_category_init (cpu_percent r)) as (_ & _ & Hc).
  repeat split; try assumption.
  - exists (Tier.of_sample r). split; [apply categorize_init|].
    unfold Tier.of_sample. fold d m c. split.
    + destruct d, m, c; simpl; set_solver.
    + rewrite !rank_worse. reflexivity.
  - intros Ed Em Ec. rewrite categorize_init. unfold Tier.of_sample.
    rewrite Ed, Em, Ec. reflexivity.
  - intros Ed Em Ec. rewrite categorize_init. unfold Tier.of_sample.
    rewrite Ed, Em, Ec. reflexivity.
Qed.

Lemma categorize_is_worst_of_three_witness :
  _categorize_performance init (Sim.sample "a" 50 5 10 true) = Some "excellent"
  ∧ _categorize_performance init (Sim.sample "b" 50 60 10 true) = Some "poor".
Proof.
  pose proof (categorize_is_worst_of_three (Sim.sample "a" 50 5 10 true))
    as (_ & _ & _ & _ & Ha & _).
  pose proof (categorize_is_worst_of_three (Sim.sample "b" 50 60 10 true))
    as (_ & _ & _ & _ & _ & Hb).
  split; [apply Ha | apply Hb]; reflexivity.
Defined.

(** ** Percentile *)

Lemma sorted_Sorted data : Sorted Qcle (Py.sorted data).
Proof. apply (Sorted_merge_sort Qcle). Qed.

Lemma sorted_Permutation data : Py.sorted data ≡ₚ data.
Proof. apply merge_sort_Permutation. Qed.

Lemma sorted_length data : length (Py.sorted data) = length data.
Proof. apply Permutation_length, sorted_Permutation. Qed.

Lemma getitem_nonneg {A} (l : list A) (i : Z) :
  (0 ≤ i)%Z → Py.getitem l i = l !! Z.to_nat i.
Proof. intros Hi. unfold Py.getitem. by rewrite decide_True. Qed.

(** For a percentile that is not negative, truncation is the floor, and
    the clamped index is a position of the list. *)
Lemma percentile_index (n : nat) (p : Z) :
  (0 < n)%nat → (0 ≤ p)%Z →
  let index := Py.int_div (Z.of_nat n * p) 100 in
  index = ((Z.of_nat n * p) `div` 100)%Z
  ∧ (0 ≤ Z.min index (Z.of_nat n - 1))%Z
  ∧ (Z.to_nat (Z.min index (Z.of_nat n - 1)) < n)%nat.
Proof.
  intros Hn Hp index. unfold index, Py.int_div.
  rewrite Z.quot_div_nonneg by lia.
  assert (0 ≤ (Z.of_nat n * p) `div` 100)%Z by (apply Z.div_pos; lia).
  lia.
Qed.

Lemma percentile_nonneg (data : list Qc) (p : Z) :
  data ≠ [] → (0 ≤ p)%Z →
  let n := Z.of_nat (length data) in
  _percentile data p
  = Py.sorted data !! Z.to_nat (Z.min ((n * p) `div` 100) (n - 1))
  ∧ is_Some (_percentile data p).
Proof.
  intros Hne Hp n. destruct data as [|x data']; [done|].
  set (data := x :: data') in *.
  assert (0 < length data)%nat as Hlen by (simpl; lia).
  destruct (percentile_index (length data) p Hlen Hp) as (Hfloor & H0 & Hlt).
  unfold _percentile; fold data. cbv zeta. rewrite sorted_length.
  rewrite getitem_nonneg by done. fold n in Hfloor, H0, Hlt |- *.
  rewrite Hfloor in *. split; [done|].
  apply lookup_lt_is_Some. by rewrite sorted_length.
Qed.

Lemma percentile_spec_nonneg (data : list Qc) (p : Z) :
  (0 ≤ p)%Z → _percentile data p = percentile_spec data p.
Proof.
  intros Hp. destruct data as [|x data']; [done|].
  set (data := x :: data').
  assert (0 < length data)%nat as Hlen by (simpl; lia).
  destruct (percentile_index (length data) p Hlen Hp) as (Hfloor & _).
  unfold _percentile, percentile_spec; fold data. cbv zeta.
  rewrite sorted_length. by rewrite Hfloor.
Qed.

(** C2.  For a percentile [p], an int from 0 to 100: a non-empty
    [data] is sorted ascending, the index is the floor of
    [len(data) * p / 100] clamped to [len(data) - 1], and the element of
    the sorted list at that index is returned; an empty [data] gives 0.
    [percentile([10,20,30,40,50], 50) = 30] and [percentile([], 95) = 0]. *)
Theorem percentile_nearest_rank (data : list Qc) (p : Z) :
  (0 ≤ p ≤ 100)%Z →
  Sorted Qcle (Py.sorted data)
  ∧ Py.sorted data ≡ₚ data
  ∧ (data = [] → _percentile data p = Some 0)
  ∧ (data ≠ [] →
     let n := Z.of_nat (length data) in
     let index := Z.min ((n * p) `div` 100) (n - 1) in
     (0 ≤ index ≤ n - 1)%Z
     ∧ _percentile data p = Py.sorted data !! Z.to_nat index
     ∧ is_Some (_percentile data p))
  ∧ _percentile data p = percentile_spec data p
  ∧ _percentile (Py.of_int <$> [10; 20; 30; 40; 50]%Z) 50
    = Some (Py.of_int 30)
  ∧ _percentile [] 95 = Some 0.
Proof.
  intros [Hp _]. split; [apply sorted_Sorted|].
  split; [apply sorted_Permutation|].
  split; [by intros ->|]. split.
  - intros Hne n index.
    destruct (percentile_nonneg data p Hne Hp) as [Heq Hsome].
    split; [|by split].
    assert (0 < length data)%nat by (destruct data; [done | simpl; lia]).
    assert (0 ≤ (n * p) `div` 100)%Z by (apply Z.div_pos; lia).
    subst index n. lia.
  - split; [by apply percentile_spec_nonneg|]. split; reflexivity.
Qed.

Lemma percentile_nearest_rank_witness :
  _percentile (Py.of_int <$> [7; 3; 9; 1]%Z) 50
  = Py.sorted (Py.of_int <$> [7; 3; 9; 1]%Z) !! 2%nat
  ∧ _percentile (Py.of_int <$> [7; 3; 9; 1]%Z) 50 = Some (Py.of_int 7).
Proof.
  destruct (percentile_nearest_rank (Py.of_int <$> [7; 3; 9; 1]%Z) 50)
    as (_ & _ & _ & H & _); [lia|].
  destruct H as (_ & Heq & _); [done|].
  split; [exact Heq | reflexivity].
Defined.

Lemma foldl_min2_lower (l : list Qc) (x : Qc) :
  foldl Py.min2 x l ≤ x ∧ Forall (λ y, foldl Py.min2 x l ≤ y) l.
Proof.
  revert x. induction l as [|y l IH]; intros x; simpl.
  - split; [apply Qcle_refl | constructor].
  - destruct (IH (Py.min2 x y)) as [Hx Hl].
    assert (Py.min2 x y ≤ x ∧ Py.min2 x y ≤ y) as [Hmx Hmy].
    { unfold Py.min2. case_decide as Hlt.
      - split; [by apply Qclt_le_weak | apply Qcle_refl].
      - split; [apply Qcle_refl | by apply Qcnot_lt_le]. }
    split; [by etrans|]. constructor; [by etrans | done].
Qed.

Lemma foldl_max2_upper (l : list Qc) (x : Qc) :
  x ≤ foldl Py.max2 x l ∧ Forall (λ y, y ≤ foldl Py.max2 x l) l.
Proof.
  revert x. induction l as [|y l IH]; intros x; simpl.
  - split; [apply Qcle_refl | constructor].
  - destruct (IH (Py.max2 x y)) as [Hx Hl].
    assert (x ≤ Py.max2 x y ∧ y ≤ Py.max2 x y) as [Hmx Hmy].
    { unfold Py.max2. case_decide as Hlt.
      - split; [by apply Qclt_le_weak | apply Qcle_refl].
      - split; [apply Qcle_refl | by apply Qcnot_lt_le]. }
    split; [by etrans|]. constructor; [by etrans | done].
Qed.

Lemma min_max_bounds (data : list Qc) :
  data ≠ [] →
  ∃ lo hi, Py.min data = Some lo ∧ Py.max data = Some hi
           ∧ lo ∈ data ∧ hi ∈ data
           ∧ ∀ x, x ∈ data → lo ≤ x ≤ hi.
Proof.
  destruct data as [|x0 l]; [done|]. intros _.
  exists (foldl Py.min2 x0 l), (foldl Py.max2 x0 l).
  destruct (foldl_min2_lower l x0) as [Hlo0 Hlo].
  destruct (foldl_max2_upper l x0) as [Hhi0 Hhi].
  rewrite Forall_forall in Hlo, Hhi.
  assert (∀ f : Qc → Qc → Qc, (∀ a b, f a b = a ∨ f a b = b) →
          ∀ l x, foldl f x l ∈ x :: l) as Hsel.
  { intros f Hf l'. induction l' as [|y l' IH]; intros x; simpl.
    - set_solver.
    - pose proof (IH (f x y)) as Hin. clear IH.
      apply elem_of_cons in Hin as [Hin|Hin].
      + rewrite Hin. destruct (Hf x y) as [->| ->]; set_solver.
      + set_solver. }
  repeat split; try done.
  - apply Hsel. intros a b. unfold Py.min2. case_decide; auto.
  - apply Hsel. intros a b. unfold Py.max2. case_decide; auto.
  - apply elem_of_cons in H as [->|Hin]; [done | by apply Hlo].
  - apply elem_of_cons in H as [->|Hin]; [done | by apply Hhi].
Qed.

(** C9.  For a non-empty [data] and [0 ≤ p ≤ 100], the percentile is an
    element of [data], hence between [min(data)] and [max(data)]. *)
Theorem percentile_is_element (data : list Qc) (p : Z) :
  data ≠ [] → (0 ≤ p ≤ 100)%Z →
  ∃ x lo hi,
    _percentile data p = Some x
    ∧ x ∈ data
    ∧ Py.min data = Some lo
    ∧ Py.max data = Some hi
    ∧ lo ≤ x ≤ hi.
Proof.
  intros Hne [Hp _].
  destruct (percentile_nonneg data p Hne Hp) as [Heq [x Hx]].
  destruct (min_max_bounds data Hne) as (lo & hi & Hlo & Hhi & _ & _ & Hb).
  assert (x ∈ data) as Hin.
  { rewrite <- (sorted_Permutation data).
    rewrite Heq in Hx. by eapply list_elem_of_lookup_2. }
  exists x, lo, hi. repeat split; try done; by apply Hb.
Qed.

Lemma percentile_is_element_witness :
  ∃ x lo hi,
    _percentile (Py.of_int <$> [7; 3; 9; 1]%Z) 95 = Some x
    ∧ x ∈ Py.of_int <$> [7; 3; 9; 1]%Z
    ∧ Py.min (Py.of_int <$> [7; 3; 9; 1]%Z) = Some lo
    ∧ Py.max (Py.of_int <$> [7; 3; 9; 1]%Z) = Some hi
    ∧ lo ≤ x ≤ hi.
Proof.
  apply (percentile_is_element (Py.of_int <$> [7; 3; 9; 1]%Z) 95);
    [done | lia].
Defined.

(** ** Recommendations *)

Lemma filter_nil_not_Exists {A} (P : A → Prop) `{!∀ x, Decision (P x)}
    (l : list A) :
  filter P l = [] ↔ ¬ Exists P l.
Proof.
  induction l as [|x l IH]; simpl.
  - split; [intros _ Hex; inversion Hex | done].
  - rewrite filter_cons. case_decide as HP.
    + split; [done | intros Hnot; destruct Hnot; by left].
    + rewrite IH, Exists_cons. tauto.
Qed.

Lemma string_app_assoc (s1 s2 s3 : string) :
  (s1 +:+ s2) +:+ s3 = s1 +:+ s2 +:+ s3.
Proof.
  induction s1 as [|c s1 IH]; [done|].
  change (String c ((s1 +:+ s2) +:+ s3) = String c (s1 +:+ s2 +:+ s3)).
  by f_equal.
Qed.

Lemma filter_cons_Exists {A} (P : A → Prop) `{!∀ x, Decision (P x)}
    (l : list A) x xs :
  filter P l = x :: xs → Exists P l.
Proof.
  intros Hf. destruct (decide (Exists P l)) as [|Hno]; [done|].
  apply (proj2 (filter_nil_not_Exists P l)) in Hno. by rewrite Hno in Hf.
Qed.

(** What the three texts of the script say about their offenders. *)
Lemma slow_message_says offenders :
  RecommendationSpec.names_count (slow_message offenders) offenders
  ∧ RecommendationSpec.names_up_to_3 (slow_message offenders) offenders.
Proof.
  split.
  - exists "Consider optimizing ",
      (" slow operations: " +:+ Py.join ", " (name <$> take 3 offenders)).
    unfold slow_message. by rewrite !string_app_assoc.
  - by eexists.
Qed.

Lemma memory_message_says offenders :
  RecommendationSpec.names_count (memory_message offenders) offenders.
Proof. by exists "Review memory usage for ", " memory-intensive operations". Qed.

Lemma cpu_message_says offenders :
  RecommendationSpec.names_count (cpu_message offenders) offenders.
Proof. by exists "Optimize CPU usage for ", " CPU-intensive operations". Qed.

Lemma rule_emits metric limit says message samples :
  (∀ offenders, says (message offenders) offenders) →
  RecommendationSpec.rule metric limit says samples
    match filter (λ r, Py.of_int limit < metric r) samples with
    | [] => []
    | _ :: _ => [message (filter (λ r, Py.of_int limit < metric r) samples)]
    end.
Proof.
  intros Hsays. unfold RecommendationSpec.rule, RecommendationSpec.offenders.
  destruct (filter _ samples) as [|r rs] eqn:E; split.
  - intros Hex. by apply (filter_nil_not_Exists _ samples) in E.
  - done.
  - intros _. eexists. split; [reflexivity | apply Hsays].
  - intros Hno. by apply filter_cons_Exists in E.
Qed.

Lemma recommendations_spec results :
  RecommendationSpec.recommend results (_generate_recommendations results).
Proof.
  eexists _, _, _.
  split; [apply (rule_emits duration_ms 100 _ slow_message);
          apply slow_message_says|].
  split; [apply (rule_emits memory_mb 25 _ memory_message);
          apply memory_message_says|].
  split; [apply (rule_emits cpu_percent 50 _ cpu_message);
          apply cpu_message_says|].
  unfold _generate_recommendations.
  destruct (filter (λ r, Py.of_int 100 < duration_ms r) results);
    destruct (filter (λ r, Py.of_int 25 < memory_mb r) results);
    destruct (filter (λ r, Py.of_int 50 < cpu_percent r) results);
    reflexivity.
Qed.

(** C4.  The recommendations are those of three independent rules taken
    in the order duration (> 100), memory (> 25), CPU (> 50).  Each rule
    emits one line exactly when some sample is over its limit; the line
    holds the number of such samples in decimal, and the line of the
    duration rule ends with the names of the first three of them (of
    all, if fewer).  When no rule emitted anything the result is the
    affirmation alone.  When every sample has duration 10, memory 1 and
    CPU 1 the result is the affirmation and nothing else; and for five
    samples of which four are slow, one is memory-intensive and two are
    CPU-intensive, the three lines read as shown. *)
Theorem recommendations_by_rules (results : list BenchmarkResult) :
  RecommendationSpec.recommend results (_generate_recommendations results)
  ∧ (Forall (λ r, duration_ms r = Py.of_int 10 ∧ memory_mb r = Py.of_int 1
                  ∧ cpu_percent r = Py.of_int 1) results →
     _generate_recommendations results
     = ["Excellent performance across all benchmarks!"])
  ∧ _generate_recommendations
      [Sim.sample "a" 150 30 60 true; Sim.sample "b" 10 1 1 true;
       Sim.sample "c" 200 1 1 true; Sim.sample "d" 300 1 1 true;
       Sim.sample "e" 400 1 90 true]
    = ["Consider optimizing 4 slow operations: a, c, d";
       "Review memory usage for 1 memory-intensive operations";
       "Optimize CPU usage for 2 CPU-intensive operations"].
Proof.
  split; [apply recommendations_spec|]. split; [|reflexivity].
  intros Hall. rewrite Forall_forall in Hall.
  assert (filter (λ r, Py.of_int 100 < duration_ms r) results = []) as Hslow.
  { apply filter_nil_not_Exists. rewrite Exists_exists. intros (r & Hin & Hlt).
    destruct (Hall r Hin) as (Hd & _). revert Hlt. rewrite Hd. by vm_compute. }
  assert (filter (λ r, Py.of_int 25 < memory_mb r) results = []) as Hmem.
  { apply filter_nil_not_Exists. rewrite Exists_exists. intros (r & Hin & Hlt).
    destruct (Hall r Hin) as (_ & Hm & _). revert Hlt. rewrite Hm.
    by vm_compute. }
  assert (filter (λ r, Py.of_int 50 < cpu_percent r) results = []) as Hcpu.
  { apply filter_nil_not_Exists. rewrite Exists_exists. intros (r & Hin & Hlt).
    destruct (Hall r Hin) as (_ & _ & Hc). revert Hlt. rewrite Hc.
    by vm_compute. }
  unfold _generate_recommendations. by rewrite Hslow, Hmem, Hcpu.
Qed.

Lemma recommendations_by_rules_witness :
  _generate_recommendations
    [Sim.sample "a" 10 1 1 true; Sim.sample "b" 10 1 1 true]
  = ["Excellent performance across all benchmarks!"]
  ∧ ∃ slow heavy busy text,
      _generate_recommendations
        [Sim.sample "a" 150 1 1 true; Sim.sample "b" 10 1 1 true;
         Sim.sample "c" 200 1 1 true; Sim.sample "d" 300 1 1 true;
         Sim.sample "e" 400 1 1 true]
      = slow ++ heavy ++ busy
      ∧ slow = [text]
      ∧ RecommendationSpec.names text "4"
      ∧ RecommendationSpec.names_up_to_3 text
          [Sim.sample "a" 150 1 1 true; Sim.sample "c" 200 1 1 true;
           Sim.sample "d" 300 1 1 true; Sim.sample "e" 400 1 1 true]
      ∧ heavy = [] ∧ busy = [].
Proof.
  split.
  - apply (recommendations_by_rules
             [Sim.sample "a" 10 1 1 true; Sim.sample "b" 10 1 1 true]).
    repeat constructor.
  - destruct (recommendations_by_rules
                [Sim.sample "a" 150 1 1 true; Sim.sample "b" 10 1 1 true;
                 Sim.sample "c" 200 1 1 true; Sim.sample "d" 300 1 1 true;
                 Sim.sample "e" 400 1 1 true])
      as [(slow & heavy & busy & [Hslow _] & [_ Hheavy] & [_ Hbusy] & Hall) _].
    destruct Hslow as (text & -> & Hcount & Hnames).
    { apply Exists_cons_hd. by vm_compute. }
    rewrite Hheavy in *.
    2:{ rewrite Exists_exists. intros (r & Hin & Hlt).
        repeat (apply elem_of_cons in Hin as [->|Hin];
                [revert Hlt; by vm_compute|]).
        by apply elem_of_nil in Hin. }
    rewrite Hbusy in *.
    2:{ rewrite Exists_exists. intros (r & Hin & Hlt).
        repeat (apply elem_of_cons in Hin as [->|Hin];
                [revert Hlt; by vm_compute|]).
        by apply elem_of_nil in Hin. }
    exists [text], [], [], text. split; [exact Hall|].
    split; [reflexivity|]. split; [exact Hcount|]. split; [|done].
    exact Hnames.
Defined.

(** ** Summary *)

Lemma label_inj c1 c2 : Tier.label c1 = Tier.label c2 → c1 = c2.
Proof. destruct c1, c2; simpl; congruence. Qed.

Lemma members_partition (rs : list BenchmarkResult) :
  (length (Tier.members Tier.excellent rs) + length (Tier.members Tier.good rs)
   + length (Tier.members Tier.acceptable rs) + length (Tier.members Tier.poor rs)
   = length rs)%nat.
Proof.
  induction rs as [|r rs IH]; [done|].
  unfold Tier.members in *. rewrite !filter_cons.
  destruct (Tier.of_sample r); repeat case_decide; try congruence; simpl; lia.
Qed.

(** The counting loop under the default tables: it does not raise when
    the counter has the four keys, keeps the key set, and adds to each
    tier the number of samples of that tier. *)
Lemma count_categories_init rs (cats0 : gmap string nat) :
  (∀ c, is_Some (cats0 !! Tier.label c)) →
  ∃ cats : gmap string nat,
    count_categories init rs cats0 = Some cats
    ∧ dom cats = dom cats0
    ∧ ∀ c n, cats0 !! Tier.label c = Some n →
             cats !! Tier.label c = Some (n + length (Tier.members c rs))%nat.
Proof.
  revert cats0. induction rs as [|r rs IH]; intros cats0 Hkeys.
  - exists cats0. split; [done|]. split; [done|].
    intros c n ->. simpl. f_equal. lia.
  - simpl. rewrite categorize_init. simpl.
    destruct (Hkeys (Tier.of_sample r)) as [n0 Hn0]. rewrite Hn0. simpl.
    destruct (IH (<[Tier.label (Tier.of_sample r) := (n0 + 1)%nat]> cats0))
      as (cats & Hrun & Hdom & Hcount).
    { intros c. rewrite lookup_insert. case_decide; [eauto | apply Hkeys]. }
    exists cats. split; [done|]. split.
    + rewrite Hdom. apply dom_insert_lookup_L. eauto.
    + intros c n Hn. unfold Tier.members in *. rewrite filter_cons.
      destruct (decide (Tier.of_sample r = c)) as [<-|Hne].
      * rewrite (Hcount _ (n0 + 1)%nat) by apply lookup_insert_eq.
        rewrite Hn0 in Hn. injection Hn as <-. simpl. f_equal. lia.
      * apply Hcount. rewrite lookup_insert_ne; [done|].
        intros Heq. by apply label_inj in Heq.
Qed.

Lemma categories0_keys c : categories0 !! Tier.label c = Some 0%nat.
Proof. destruct c; reflexivity. Qed.

Lemma of_int_eq_0 z : Py.of_int z = 0 → z = 0%Z.
Proof.
  unfold Py.of_int. intros H. apply Q2Qc_eq_iff in H.
  unfold Qeq in H. simpl in H. lia.
Qed.

Lemma len_nonzero {A} (l : list A) : l ≠ [] → Py.len l ≠ 0.
Proof.
  intros Hne H. apply of_int_eq_0 in H. destruct l; [done | simpl in H; lia].
Qed.

Lemma filter_success_split (results : list BenchmarkResult) :
  (length (filter (λ r, success r = true) results)
   + length (filter (λ r, success r = false) results)
   = length results)%nat.
Proof.
  induction results as [|r rs IH]; [done|].
  rewrite !filter_cons.
  destruct (success r); repeat case_decide; try congruence; simpl; lia.
Qed.

Lemma mean_nonempty l : l ≠ [] → Py.mean l = Some (Py.sum l / Py.len l).
Proof. by destruct l. Qed.

Lemma fmap_nonempty {A B} (f : A → B) (l : list A) : l ≠ [] → f <$> l ≠ [].
Proof. by destruct l. Qed.

(** With at least one successful sample and the default tables,
    [_generate_summary] returns its second dictionary, every entry of
    which is a function of the successful samples [ok] alone, except for
    the two counts and the rate, which also see the failed ones. *)
Lemma generate_summary_init results total_duration :
  let ok := filter (λ r, success r = true) results in
  let bad := filter (λ r, success r = false) results in
  ok ≠ [] →
  ∃ cats avg_d min_d max_d p95 p99 avg_m max_m avg_c max_c,
    count_categories init ok categories0 = Some cats
    ∧ Py.mean (duration_ms <$> ok) = Some avg_d
    ∧ Py.min (duration_ms <$> ok) = Some min_d
    ∧ Py.max (duration_ms <$> ok) = Some max_d
    ∧ _percentile (duration_ms <$> ok) 95 = Some p95
    ∧ _percentile (duration_ms <$> ok) 99 = Some p99
    ∧ Py.mean (memory_mb <$> ok) = Some avg_m
    ∧ Py.max (memory_mb <$> ok) = Some max_m
    ∧ Py.mean (cpu_percent <$> ok) = Some avg_c
    ∧ Py.max (cpu_percent <$> ok) = Some max_c
    ∧ _generate_summary init results total_duration
      = Some {| total_tests := length results;
                successful := length ok;
                failed := length bad;
                success_rate := Py.len ok / Py.len results * Py.of_int 100;
                total_duration_ms := total_duration;
                performance_stats :=
                  Some {| avg_duration_ms := avg_d;
                          min_duration_ms := min_d;
                          max_duration_ms := max_d;
                          p95_duration_ms := p95;
                          p99_duration_ms := p99 |};
                memory_stats :=
                  Some {| avg_memory_mb := avg_m;
                          max_memory_mb := max_m;
                          total_memory_mb := Py.sum (memory_mb <$> ok) |};
                cpu_stats :=
                  Some {| avg_cpu_percent := avg_c;
                          max_cpu_percent := max_c |};
                performance_categories := Some cats;
                recommendations := Some (_generate_recommendations ok) |}.
Proof.
  intros ok bad Hok.
  destruct (count_categories_init ok categories0) as (cats & Hcats & _).
  { intros c. rewrite categories0_keys. eauto. }
  assert (results ≠ []) as Hres by (intros ->; by apply Hok).
  pose proof (fmap_nonempty duration_ms ok Hok) as Hd.
  pose proof (fmap_nonempty memory_mb ok Hok) as Hm.
  pose proof (fmap_nonempty cpu_percent ok Hok) as Hc.
  destruct (min_max_bounds _ Hd) as (min_d & max_d & Hmin_d & Hmax_d & _).
  destruct (min_max_bounds _ Hm) as (min_m & max_m & _ & Hmax_m & _).
  destruct (min_max_bounds _ Hc) as (min_c & max_c & _ & Hmax_c & _).
  destruct (percentile_nonneg _ 95 Hd) as [_ [p95 Hp95]]; [lia|].
  destruct (percentile_nonneg _ 99 Hd) as [_ [p99 Hp99]]; [lia|].
  exists cats, (Py.sum (duration_ms <$> ok) / Py.len (duration_ms <$> ok)),
    min_d, max_d, p95, p99,
    (Py.sum (memory_mb <$> ok) / Py.len (memory_mb <$> ok)), max_m,
    (Py.sum (cpu_percent <$> ok) / Py.len (cpu_percent <$> ok)), max_c.
  rewrite !mean_nonempty by done.
  repeat (split; [done|]).
  unfold _generate_summary. fold ok bad.
  destruct ok as [|r0 ok'] eqn:Eok; [done|]. rewrite <- Eok in *.
  rewrite Hcats. simpl.
  unfold Py.truediv. rewrite decide_False by by apply len_nonzero.
  simpl. rewrite !mean_nonempty by done. simpl.
  rewrite Hmin_d, Hmax_d. simpl. rewrite Hp95, Hp99. simpl.
  rewrite Hmax_m. simpl. rewrite Hmax_c. reflexivity.
Qed.

(** C5.  With at least one successful sample the summary exists; its
    success rate is successful / total × 100, the total counting the
    failed samples too, and each aggregate (mean, min, max, p95, p99 of
    the durations; mean, max, sum of memory; mean, max of CPU) is that
    statistic of the successful samples only.  Ten samples of which two
    failed give a rate of 80. *)
Theorem summary_over_successful (results : list BenchmarkResult)
    (total_duration : Qc) :
  let ok := filter (λ r, success r = true) results in
  let bad := filter (λ r, success r = false) results in
  ok ≠ [] →
  ∃ s ps ms cs,
    _generate_summary init results total_duration = Some s
    ∧ total_tests s = length results
    ∧ successful s = length ok
    ∧ failed s = length bad
    ∧ total_tests s = (successful s + failed s)%nat
    ∧ success_rate s = Py.len ok / Py.len results * Py.of_int 100
    ∧ performance_stats s = Some ps
    ∧ Py.mean (duration_ms <$> ok) = Some (avg_duration_ms ps)
    ∧ Py.min (duration_ms <$> ok) = Some (min_duration_ms ps)
    ∧ Py.max (duration_ms <$> ok) = Some (max_duration_ms ps)
    ∧ _percentile (duration_ms <$> ok) 95 = Some (p95_duration_ms ps)
    ∧ _percentile (duration_ms <$> ok) 99 = Some (p99_duration_ms ps)
    ∧ memory_stats s = Some ms
    ∧ Py.mean (memory_mb <$> ok) = Some (avg_memory_mb ms)
    ∧ Py.max (memory_mb <$> ok) = Some (max_memory_mb ms)
    ∧ total_memory_mb ms = Py.sum (memory_mb <$> ok)
    ∧ cpu_stats s = Some cs
    ∧ Py.mean (cpu_percent <$> ok) = Some (avg_cpu_percent cs)
    ∧ Py.max (cpu_percent <$> ok) = Some (max_cpu_percent cs)
    ∧ (length results = 10%nat → length bad = 2%nat →
       success_rate s = Py.of_int 80).
Proof.
  intros ok bad Hok.
  destruct (generate_summary_init results total_duration Hok)
    as (cats & avg_d & min_d & max_d & p95 & p99 & avg_m & max_m & avg_c
        & max_c & _ & ? & ? & ? & ? & ? & ? & ? & ? & ? & Hs).
  fold ok bad in Hs.
  pose proof (filter_success_split results) as Hsplit. fold ok bad in Hsplit.
  eexists _, _, _, _. split; [exact Hs|]. simpl.
  repeat (split; [done || lia|]).
  intros Hten Htwo. unfold Py.len. rewrite Hten.
  replace (length ok) with 8%nat by lia.
  by apply Qc_is_canon.
Qed.

Lemma summary_over_successful_witness :
  ∃ s,
    _generate_summary init
      (replicate 8 (Sim.sample "ok" 50 5 10 true)
         ++ replicate 2 (Sim.sample "ko" 0 0 0 false)) 1
    = Some s
    ∧ success_rate s = Py.of_int 80.
Proof.
  destruct (summary_over_successful
              (replicate 8 (Sim.sample "ok" 50 5 10 true)
                 ++ replicate 2 (Sim.sample "ko" 0 0 0 false)) 1)
    as (s & ps & ms & cs & Hs & Hrest); [done|].
  exists s. split; [exact Hs|].
  repeat match type of Hrest with _ ∧ _ => destruct Hrest as [_ Hrest] end.
  by apply Hrest.
Defined.

(** C6.  Without any successful sample the summary is the short
    dictionary: both counts, zero successes, a success rate of 0, and
    neither statistics nor categories nor recommendations. *)
Theorem summary_without_success (self : PerformanceBenchmarker)
    (results : list BenchmarkResult) (total_duration : Qc) :
  filter (λ r, success r = true) results = [] →
  failed <$> _generate_summary self results total_duration
  = Some (length results)
  ∧ _generate_summary self results total_duration
    = Some {| total_tests := length results;
              successful := 0;
              failed := length (filter (λ r, success r = false) results);
              success_rate := 0;
              total_duration_ms := total_duration;
              performance_stats := None;
              memory_stats := None;
              cpu_stats := None;
              performance_categories := None;
              recommendations := None |}.
Proof.
  intros Hnone. unfold _generate_summary. rewrite Hnone. simpl.
  split; [|done]. f_equal.
  pose proof (filter_success_split results) as Hsplit.
  rewrite Hnone in Hsplit. simpl in Hsplit. done.
Qed.

Lemma summary_without_success_witness :
  success_rate
    <$> _generate_summary init
          [Sim.sample "a" 0 0 0 false; Sim.sample "b" 0 0 0 false] 1
  = Some 0
  ∧ failed
      <$> _generate_summary init
            [Sim.sample "a" 0 0 0 false; Sim.sample "b" 0 0 0 false] 1
    = Some 2%nat.
Proof.
  destruct (summary_without_success init
              [Sim.sample "a" 0 0 0 false; Sim.sample "b" 0 0 0 false] 1)
    as [Hfailed Hs]; [done|].
  split; [by rewrite Hs | exact Hfailed].
Defined.

(** C10.  With at least one successful sample, the category counter of
    the summary has exactly the four tiers as keys, the count of a tier
    is the number of successful samples that classify into it, and the
    four counts add up to the number of successful samples. *)
Theorem category_counts_partition (results : list BenchmarkResult)
    (total_duration : Qc) :
  let ok := filter (λ r, success r = true) results in
  ok ≠ [] →
  ∃ s (cats : gmap string nat) e g a p,
    _generate_summary init results total_duration = Some s
    ∧ performance_categories s = Some cats
    ∧ dom cats = list_to_set categories
    ∧ (∀ c, cats !! Tier.label c
            = Some (length (filter (λ r, _categorize_performance init r
                                         = Some (Tier.label c)) ok)))
    ∧ cats !! "excellent" = Some e
    ∧ cats !! "good" = Some g
    ∧ cats !! "acceptable" = Some a
    ∧ cats !! "poor" = Some p
    ∧ successful s = length ok
    ∧ (e + g + a + p)%nat = successful s.
Proof.
  intros ok Hok.
  destruct (generate_summary_init results total_duration Hok)
    as (cats & avg_d & min_d & max_d & p95 & p99 & avg_m & max_m & avg_c
        & max_c & Hcats & _ & _ & _ & _ & _ & _ & _ & _ & _ & Hs).
  fold ok in Hcats, Hs.
  destruct (count_categories_init ok categories0) as (cats' & Hrun & Hdom & Hn).
  { intros c. rewrite categories0_keys. eauto. }
  rewrite Hcats in Hrun. injection Hrun as <-.
  assert (∀ c, cats !! Tier.label c = Some (length (Tier.members c ok)))
    as Hcount.
  { intros c. by rewrite (Hn c 0%nat (categories0_keys c)). }
  eexists _, cats, _, _, _, _. split; [exact Hs|]. simpl.
  split; [done|]. split; [by rewrite Hdom|]. split.
  { intros c. rewrite Hcount. do 2 f_equal. unfold Tier.members.
    apply list_filter_iff. intros r. rewrite categorize_init.
    split; [by intros -> | intros [=]; by apply label_inj]. }
  split; [apply (Hcount Tier.excellent)|].
  split; [apply (Hcount Tier.good)|].
  split; [apply (Hcount Tier.acceptable)|].
  split; [apply (Hcount Tier.poor)|].
  split; [done|]. apply members_partition.
Qed.

Lemma category_counts_partition_witness :
  ∃ s cats,
    _generate_summary init
      [Sim.sample "a" 50 5 10 true; Sim.sample "b" 50 60 10 true;
       Sim.sample "c" 0 0 0 false; Sim.sample "d" 700 5 10 true] 1
    = Some s
    ∧ performance_categories s = Some cats
    ∧ cats !! "excellent" = Some 1%nat
    ∧ cats !! "good" = Some 0%nat
    ∧ cats !! "acceptable" = Some 1%nat
    ∧ cats !! "poor" = Some 1%nat
    ∧ successful s = 3%nat.
Proof.
  destruct (category_counts_partition
              [Sim.sample "a" 50 5 10 true; Sim.sample "b" 50 60 10 true;
               Sim.sample "c" 0 0 0 false; Sim.sample "d" 700 5 10 true] 1)
    as (s & cats & e & g & a & p & Hs & Hc & _ & Hcount & _ & _ & _ & _
        & Hok & _); [done|].
  exists s, cats. split; [exact Hs|]. split; [exact Hc|].
  split; [exact (Hcount Tier.excellent)|].
  split; [exact (Hcount Tier.good)|].
  split; [exact (Hcount Tier.acceptable)|].
  split; [exact (Hcount Tier.poor)|]. exact Hok.
Defined.

(** ** The probe runner *)

Section RunnerFacts.
Context {W : Type} `{!Env W}.

Lemma bind_returns {A B} (m : M W A) (k : A → M W B) w b w' :
  returns (m ≫= k) w b w'
  ↔ ∃ a w1, returns m w a w1 ∧ returns (k a) w1 b w'.
Proof.
  unfold returns, mbind, M_bind. split.
  - destruct (m w) as [[a|e] w1]; [eauto | discriminate].
  - intros (a & w1 & -> & Hk). exact Hk.
Qed.

Lemma bind_raises {A B} (m : M W A) (k : A → M W B) w e w' :
  (m ≫= k) w = (Raise e, w')
  ↔ m w = (Raise e, w') ∨ ∃ a w1, returns m w a w1 ∧ k a w1 = (Raise e, w').
Proof.
  unfold returns, mbind, M_bind. split.
  - destruct (m w) as [[a|e0] w1]; intros H; [right; eauto|].
    left. by injection H as -> ->.
  - intros [-> | (a & w1 & -> & Hk)]; done.
Qed.

Lemma mret_returns {A} (a b : A) (w w' : W) :
  returns (mret a) w b w' ↔ a = b ∧ w = w'.
Proof. unfold returns, mret, M_ret. split; [by intros [= -> ->] | by intros [-> ->]]. Qed.

Lemma or_raise_returns {A} text (o : option A) (w : W) a w' :
  returns (or_raise text o) w a w' ↔ o = Some a ∧ w = w'.
Proof.
  unfold or_raise. destruct o as [a0|].
  - rewrite mret_returns. split; [by intros [-> ->] | by intros [[= ->] ->]].
  - unfold returns. split; [discriminate | by intros [? _]].
Qed.

Lemma iteration_returns f acc w ds w' :
  returns (iteration f acc) w ds w'
  ↔ ∃ d, ds = acc ++ [d] ∧ timed_calls f w [d] w'.
Proof.
  unfold iteration. simpl. split.
  - intros H. apply bind_returns in H as (s & w1 & Hs & H).
    apply bind_returns in H as ([] & w2 & Hf & H).
    apply bind_returns in H as (e & w3 & He & H).
    apply mret_returns in H as [<- <-].
    eexists. split; [reflexivity|]. by exists s, e, w1, w2, w3.
  - intros (d & -> & s & e & w1 & w2 & w3 & Hs & Hf & He & -> & <-).
    apply bind_returns. exists s, w1. split; [done|].
    apply bind_returns. exists (), w2. split; [done|].
    apply bind_returns. exists e, w3. split; [done|].
    by apply mret_returns.
Qed.

Lemma timed_calls_app f w ds1 w1 ds2 w2 :
  timed_calls f w ds1 w1 → timed_calls f w1 ds2 w2 →
  timed_calls f w (ds1 ++ ds2) w2.
Proof.
  revert w. induction ds1 as [|d ds1 IH]; intros w; simpl.
  - by intros ->.
  - intros (s & e & wa & wb & wc & ? & ? & ? & ? & Hrest) Hnext.
    exists s, e, wa, wb, wc. repeat split; try done. by apply IH.
Qed.

Lemma timed_calls_cons_inv f w d ds w' :
  timed_calls f w (d :: ds) w'
  ↔ ∃ w1, timed_calls f w [d] w1 ∧ timed_calls f w1 ds w'.
Proof.
  simpl. split.
  - intros (s & e & wa & wb & wc & ? & ? & ? & ? & Hrest).
    exists wc. split; [|done]. by exists s, e, wa, wb, wc.
  - intros (w1 & (s & e & wa & wb & wc & ? & ? & ? & ? & <-) & Hrest).
    by exists s, e, wa, wb, wc.
Qed.

(** The timing loop returns exactly when [n] timed calls in a row
    return, and then it has appended their durations in order. *)
Lemma for_range_returns f n acc w ds w' :
  returns (for_range n (iteration f) acc) w ds w'
  ↔ ∃ new, ds = acc ++ new ∧ length new = n ∧ timed_calls f w new w'.
Proof.
  revert acc w. induction n as [|n IH]; intros acc w; simpl.
  - rewrite mret_returns. split.
    + intros [<- <-]. exists []. by rewrite app_nil_r.
    + intros (new & -> & Hlen & Hcalls). destruct new; [|done].
      simpl in Hcalls. by rewrite app_nil_r.
  - rewrite bind_returns. split.
    + intros (acc' & w1 & Hit & Hrest).
      apply iteration_returns in Hit as (d & -> & Hd).
      apply IH in Hrest as (new & -> & Hlen & Hcalls).
      exists (d :: new). rewrite <- app_assoc. split; [done|].
      split; [simpl; lia|]. apply timed_calls_cons_inv. eauto.
    + intros (new & -> & Hlen & Hcalls).
      destruct new as [|d new]; [done|].
      apply timed_calls_cons_inv in Hcalls as (w1 & Hd & Hcalls).
      exists (acc ++ [d]), w1. split.
      * apply iteration_returns. eauto.
      * apply IH. exists new. rewrite <- app_assoc.
        split; [done|]. split; [simpl in Hlen; lia | done].
Qed.

(** The sample a run without exception produces from the two memory
    readings and the list of durations. *)
Lemma timed_run_returns probe f w r w' :
  returns (timed_run probe f) w r w'
  ↔ ∃ initial_memory w1 durations w2 final_memory avg lo hi,
      returns _get_memory_usage w initial_memory w1
      ∧ timed_calls f w1 durations w2
      ∧ length durations = 5%nat
      ∧ returns _get_memory_usage w2 final_memory w'
      ∧ Py.mean durations = Some avg
      ∧ Py.min durations = Some lo
      ∧ Py.max durations = Some hi
      ∧ r = {| name := probe;
               duration_ms := avg;
               memory_mb := Py.max2 0 (final_memory - initial_memory);
               cpu_percent := Py.min2 (Py.of_int 100) (avg / Py.of_int 10);
               success := true;
               error := None;
               metadata :=
                 Some {| Metadata.iterations := 5;
                         Metadata.min_duration_ms := lo;
                         Metadata.max_duration_ms := hi;
                         Metadata.std_dev_ms := stdev durations |} |}.
Proof.
  unfold timed_run. split.
  - intros H. apply bind_returns in H as (m0 & w1 & Hm0 & H).
    apply bind_returns in H as (ds & w2 & Hloop & H).
    apply for_range_returns in Hloop as (new & -> & Hlen & Hcalls).
    rewrite app_nil_l in H.
    apply bind_returns in H as (m1 & w3 & Hm1 & H). cbv zeta in H.
    apply bind_returns in H as (avg & w4 & Havg & H).
    apply or_raise_returns in Havg as [Havg <-].
    apply bind_returns in H as (lo & w5 & Hlo & H).
    apply or_raise_returns in Hlo as [Hlo <-].
    apply bind_returns in H as (hi & w6 & Hhi & H).
    apply or_raise_returns in Hhi as [Hhi <-].
    apply mret_returns in H as [<- <-].
    exists m0, w1, new, w2, m1, avg, lo, hi.
    repeat (split; [done|]). rewrite Hlen. unfold std_dev_ms_of.
    rewrite Hlen. by rewrite decide_True by lia.
  - intros (m0 & w1 & ds & w2 & m1 & avg & lo & hi
            & Hm0 & Hcalls & Hlen & Hm1 & Havg & Hlo & Hhi & ->).
    apply bind_returns. exists m0, w1. split; [done|].
    apply bind_returns. exists ds, w2. split.
    { apply for_range_returns. by exists ds. }
    apply bind_returns. exists m1, w'. split; [done|]. cbv zeta.
    apply bind_returns. exists avg, w'. split; [by apply or_raise_returns|].
    apply bind_returns. exists lo, w'. split; [by apply or_raise_returns|].
    apply bind_returns. exists hi, w'. split; [by apply or_raise_returns|].
    apply mret_returns. split; [|done]. rewrite Hlen. unfold std_dev_ms_of.
    rewrite Hlen. by rewrite decide_True by lia.
Qed.

(** The timing loop raises what the work unit raises: after some timed
    calls that returned, fewer than [n], the next call raises. *)
Lemma for_range_raises f n acc w ds w2 start_time w3 e w4 :
  timed_calls f w ds w2 → (length ds < n)%nat →
  returns perf_counter w2 start_time w3 →
  f w3 = (Raise e, w4) →
  for_range n (iteration f) acc w = (Raise e, w4).
Proof.
  intros Hcalls Hlen Hstart Hraise.
  revert n acc w Hcalls Hlen.
  induction ds as [|d ds IH]; intros n acc w Hcalls Hlen;
    (destruct n as [|n]; [simpl in Hlen; lia|]); simpl.
  - simpl in Hcalls. subst w2. apply bind_raises. left.
    unfold iteration. apply bind_raises. right. exists start_time, w3.
    split; [done|]. apply bind_raises. by left.
  - apply timed_calls_cons_inv in Hcalls as (w1 & Hd & Hcalls).
    apply bind_raises. right. exists (acc ++ [d]), w1. split.
    + apply iteration_returns. eauto.
    + apply IH; [done | simpl in Hlen; lia].
Qed.

(** The runner returns a sample in two ways: the [try] block returned
    it, or the block raised an [Exception] whose [str] returned the text
    of the failed sample. *)
Lemma single_returns probe f w r w' :
  returns (_run_single_benchmark probe f) w r w'
  ↔ returns (timed_run probe f) w r w'
    ∨ ∃ e text, timed_run probe f w = (Raise e, w')
                ∧ is_Exception e = true ∧ str e = Text text
                ∧ r = failed_result probe text.
Proof.
  unfold _run_single_benchmark, try_except, returns.
  destruct (timed_run probe f w) as [[a|e] w1]; split.
  - by left.
  - by intros [? | (e & text & [=] & _)].
  - destruct (is_Exception e) eqn:He; [|discriminate].
    unfold mbind, M_bind, str_of.
    destruct (str e) as [text|e'] eqn:Hs; [|discriminate].
    intros [= <- <-]. right. by exists e, text.
  - intros [[=] | (e' & text & [= <- <-] & -> & Hs & ->)].
    unfold mbind, M_bind, str_of. by rewrite Hs.
Qed.

(** The runner raises in two ways: the [try] block raised something that
    is not an [Exception], or it raised an [Exception] whose [str]
    raised in the handler. *)
Lemma single_raises probe f w e w' :
  _run_single_benchmark probe f w = (Raise e, w')
  ↔ (timed_run probe f w = (Raise e, w') ∧ is_Exception e = false)
    ∨ ∃ e0, timed_run probe f w = (Raise e0, w')
            ∧ is_Exception e0 = true ∧ str e0 = StrRaises e.
Proof.
  unfold _run_single_benchmark, try_except.
  destruct (timed_run probe f w) as [[a|e0] w1]; split.
  - discriminate.
  - by intros [[[=] _] | (e1 & [=] & _)].
  - destruct (is_Exception e0) eqn:He.
    + unfold mbind, M_bind, str_of.
      destruct (str e0) as [text|e'] eqn:Hs; [discriminate|].
      intros [= <- <-]. right. by exists e0.
    + intros [= <- <-]. by left.
  - intros [[[= <- <-] ->] | (e1 & [= <- <-] & -> & Hs)]; [done|].
    unfold mbind, M_bind, str_of. by rewrite Hs.
Qed.

End RunnerFacts.

Section RunnerClaims.
Context {W : Type} `{!Env W}.

Lemma max2_0_nonneg x : 0 ≤ Py.max2 0 x.
Proof.
  unfold Py.max2. case_decide; [by apply Qclt_le_weak | apply Qcle_refl].
Qed.

Lemma min2_upper a x : Py.min2 a x ≤ a.
Proof.
  unfold Py.min2. case_decide; [by apply Qclt_le_weak | apply Qcle_refl].
Qed.

(** C8.  A run of a probe that yields a successful sample called the
    work unit exactly five times, each call between two clock readings;
    the sample's duration is the mean of the five differences in
    milliseconds, its memory the difference of the readings taken after
    and before, clamped at zero, its CPU figure min(100, duration / 10),
    and its metadata holds 5 iterations with the minimum, the maximum
    and [statistics.stdev] of the five durations (the script writes 0
    instead for a single duration).  Conversely, when the two memory
    readings and the five timed calls all return, such a sample is
    produced. *)
Theorem successful_probe_run (probe : string) (f : M W unit) (w : W) :
  (∀ r w',
     returns (_run_single_benchmark probe f) w r w' → success r = true →
     ∃ initial_memory w1 durations w2 final_memory avg lo hi,
       returns _get_memory_usage w initial_memory w1
       ∧ timed_calls f w1 durations w2
       ∧ length durations = 5%nat
       ∧ returns _get_memory_usage w2 final_memory w'
       ∧ Py.mean durations = Some avg
       ∧ Py.min durations = Some lo
       ∧ Py.max durations = Some hi
       ∧ name r = probe
       ∧ duration_ms r = avg
       ∧ memory_mb r = Py.max2 0 (final_memory - initial_memory)
       ∧ 0 ≤ memory_mb r
       ∧ cpu_percent r = Py.min2 (Py.of_int 100) (duration_ms r / Py.of_int 10)
       ∧ cpu_percent r ≤ Py.of_int 100
       ∧ error r = None
       ∧ metadata r
         = Some {| Metadata.iterations := 5;
                   Metadata.min_duration_ms := lo;
                   Metadata.max_duration_ms := hi;
                   Metadata.std_dev_ms := stdev durations |})
  ∧ (∀ initial_memory w1 durations w2 final_memory w',
       returns _get_memory_usage w initial_memory w1 →
       timed_calls f w1 durations w2 →
       length durations = 5%nat →
       returns _get_memory_usage w2 final_memory w' →
       ∃ r, returns (_run_single_benchmark probe f) w r w'
            ∧ success r = true)
  ∧ (∀ d, std_dev_ms_of [d] = 0).
Proof.
  split; [|split].
  - intros r w' Hrun Hok. apply single_returns in Hrun as [Hrun|Hfail].
    + apply timed_run_returns in Hrun
        as (m0 & w1 & ds & w2 & m1 & avg & lo & hi
            & Hm0 & Hcalls & Hlen & Hm1 & Havg & Hlo & Hhi & ->).
      exists m0, w1, ds, w2, m1, avg, lo, hi. simpl.
      repeat (split; [done|]).
      split; [apply max2_0_nonneg|]. split; [done|].
      split; [apply min2_upper | done].
    + destruct Hfail as (e & text & _ & _ & _ & ->). discriminate.
  - intros m0 w1 ds w2 m1 w' Hm0 Hcalls Hlen Hm1.
    assert (ds ≠ []) as Hne by (intros ->; discriminate).
    destruct (min_max_bounds ds Hne) as (lo & hi & Hlo & Hhi & _).
    eexists. split.
    { apply single_returns. left. apply timed_run_returns.
      exists m0, w1, ds, w2, m1, (Py.sum ds / Py.len ds), lo, hi.
      repeat (split; [done || by apply mean_nonempty|]). reflexivity. }
    reflexivity.
  - intros d. reflexivity.
Qed.

(** C3, as the code has it.  A sample with [success = false] has zero
    duration, memory and CPU and no metadata, and its error is the text
    that [str(e)] returned for the exception that ended the run,
    whatever that text is. *)
Theorem failed_sample_shape (probe : string) (f : M W unit) (w : W)
    (r : BenchmarkResult) (w' : W) :
  returns (_run_single_benchmark probe f) w r w' → success r = false →
  duration_ms r = 0 ∧ memory_mb r = 0 ∧ cpu_percent r = 0
  ∧ metadata r = None
  ∧ ∃ e text, timed_run probe f w = (Raise e, w')
              ∧ is_Exception e = true
              ∧ str e = Text text
              ∧ error r = Some text.
Proof.
  intros Hrun Hko. apply single_returns in Hrun as [Hrun|Hfail].
  - apply timed_run_returns in Hrun
      as (? & ? & ? & ? & ? & ? & ? & ? & _ & _ & _ & _ & _ & _ & _ & ->).
    discriminate.
  - destruct Hfail as (e & text & Hraise & He & Hs & ->). simpl.
    repeat (split; [done|]). by exists e, text.
Qed.




(** The loop only appends: one sample per probe, under the probe's
    name. *)
Lemma run_benchmarks_grows self benchmarks results w rs w' :
  returns (run_benchmarks self benchmarks results) w rs w' →
  ∃ new, rs = results ++ new ∧ name <$> new = benchmarks.*1.
Proof.
  revert results w.
  induction benchmarks as [|[probe f] rest IH]; intros results w; simpl.
  - intros [<- <-]%mret_returns. exists []. by rewrite app_nil_r.
  - intros (r & w1 & Hr & H)%bind_returns.
    apply bind_returns in H as ([] & w2 & _ & H).
    apply IH in H as (new & -> & Hnames).
    exists (r :: new). rewrite <- app_assoc. split; [done|]. simpl.
    f_equal; [|done].
    apply single_returns in Hr as [Hr|(e & text & _ & _ & _ & ->)]; [|done].
    apply timed_run_returns in Hr
      as (? & ? & ? & ? & ? & ? & ? & ? & _ & _ & _ & _ & _ & _ & _ & ->).
    done.
Qed.



End RunnerClaims.

(** ** The runner in the simulated world *)

Lemma successful_probe_run_witness :
  ∃ r durations,
    (_run_single_benchmark "p" (sleep_for 1 1000) Sim.start).1 = Return r
    ∧ success r = true
    ∧ length durations = 5%nat
    ∧ Py.mean durations = Some (duration_ms r)
    ∧ cpu_percent r = Py.min2 (Py.of_int 100) (duration_ms r / Py.of_int 10)
    ∧ Metadata.iterations <$> metadata r = Some 5%nat.
Proof.
  destruct (_run_single_benchmark "p" (sleep_for 1 1000) Sim.start)
    as [[r|e] w'] eqn:E; [|vm_compute in E; discriminate].
  destruct (successful_probe_run "p" (sleep_for 1 1000) Sim.start) as [H _].
  assert (success r = true) as Hok.
  { vm_compute in E. by injection E as <- <-. }
  destruct (H r w' E Hok)
    as (m0 & w1 & ds & w2 & m1 & avg & lo & hi & _ & _ & Hlen & _ & Havg
        & _ & _ & _ & Hd & _ & _ & Hcpu & _ & _ & Hmeta).
  exists r, ds. rewrite Hmeta. rewrite <- Hd in Havg. by repeat split.
Defined.

Lemma failed_sample_shape_witness :
  let r := failed_result "p" "boom" in
  duration_ms r = 0 ∧ memory_mb r = 0 ∧ cpu_percent r = 0
  ∧ metadata r = None
  ∧ ∃ e text, timed_run "p" Sim.raise_boom Sim.start = (Raise e, Sim.start)
              ∧ is_Exception e = true
              ∧ str e = Text text
              ∧ error r = Some text.
Proof.
  apply (failed_sample_shape "p" Sim.raise_boom Sim.start _ Sim.start);
    [vm_compute|]; reflexivity.
Defined.

(** C3 as stated, with an error text that is never empty, fails for a
    work unit that raises an exception without a message,
    such as [raise RuntimeError()], whose [str(e)] is the empty
    string. *)
Lemma failed_sample_empty_error :
  let r := failed_result "p" "" in
  returns (_run_single_benchmark "p" Sim.raise_bare) Sim.start r Sim.start
  ∧ success r = false
  ∧ error r = Some ""
  ∧ ¬ (∃ text, error r = Some text ∧ text ≠ "").
Proof.
  repeat split; try (vm_compute; reflexivity).
  intros (text & [= <-] & Hne). by apply Hne.
Qed.


(** The same happens for an [Exception] whose [__str__] raises: the
    handler of the runner raises in turn, and the loop ends there. *)
Example unprintable_exception_aborts_suite :
  (run_benchmarks init
     [("a", sleep_for 1 1000); ("b", Sim.raise_unprintable);
      ("c", sleep_for 200 1000)] [] Sim.start).1
  = Raise {| cls := OtherException;
             str := Text "__str__ returned non-string (type int)" |}.
Proof. vm_compute. reflexivity. Qed.


(** * Further properties of the code *)

(** ** Percentile: order, extremes, permutations, negative arguments *)

Lemma sorted_StronglySorted data : StronglySorted Qcle (Py.sorted data).
Proof. apply (StronglySorted_merge_sort Qcle). Qed.

(** In a sorted list a later position never holds a smaller value. *)
Lemma StronglySorted_lookup_le (l : list Qc) (i j : nat) (x y : Qc) :
  StronglySorted Qcle l → (i ≤ j)%nat →
  l !! i = Some x → l !! j = Some y → x ≤ y.
Proof.
  intros Hl. revert i j. induction Hl as [|z l Hl IH Hz]; intros i j Hij Hi Hj.
  - done.
  - destruct i as [|i], j as [|j]; simpl in *.
    + injection Hi as <-. injection Hj as <-. apply Qcle_refl.
    + injection Hi as <-. rewrite Forall_forall in Hz.
      apply Hz. by eapply list_elem_of_lookup_2.
    + lia.
    + apply (IH i j); [lia | done | done].
Qed.

Lemma percentile_lookup (data : list Qc) (p : Z) :
  data ≠ [] → (0 ≤ p)%Z →
  ∃ i x, i = Z.to_nat (Z.min ((Z.of_nat (length data) * p) `div` 100)
                             (Z.of_nat (length data) - 1))
         ∧ (i < length data)%nat
         ∧ Py.sorted data !! i = Some x
         ∧ _percentile data p = Some x.
Proof.
  intros Hne Hp.
  destruct (percentile_nonneg data p Hne Hp) as [Heq [x Hx]].
  assert (0 < length data)%nat by (destruct data; [done | simpl; lia]).
  assert (0 ≤ (Z.of_nat (length data) * p) `div` 100)%Z
    by (apply Z.div_pos; lia).
  eexists _, x. split; [reflexivity|]. split; [lia|].
  split; [by rewrite <- Heq | done].
Qed.

Lemma percentile_le (data : list Qc) (p q : Z) :
  data ≠ [] → (0 ≤ p ≤ q)%Z →
  ∃ x y, _percentile data p = Some x ∧ _percentile data q = Some y ∧ x ≤ y.
Proof.
  intros Hne [Hp Hpq].
  destruct (percentile_lookup data p Hne Hp) as (i & x & Hi & _ & Hx & Hpx).
  destruct (percentile_lookup data q Hne) as (j & y & Hj & _ & Hy & Hqy);
    [lia|].
  exists x, y. split; [done|]. split; [done|].
  apply (StronglySorted_lookup_le (Py.sorted data) i j);
    [apply sorted_StronglySorted | | done | done].
  subst i j.
  assert (0 < length data)%nat by (destruct data; [done | simpl; lia]).
  assert ((Z.of_nat (length data) * p) `div` 100
          ≤ (Z.of_nat (length data) * q) `div` 100)%Z.
  { apply Z.div_le_mono; [lia|]. apply Z.mul_le_mono_nonneg_l; lia. }
  assert (0 ≤ (Z.of_nat (length data) * p) `div` 100)%Z
    by (apply Z.div_pos; lia).
  apply Nat2Z.inj_le. rewrite !Z2Nat.id by lia. lia.
Qed.

(** The percentile does not decrease with [p], as far as the index is
    computed exactly. *)
Theorem percentile_monotone (data : list Qc) (p q : Z) :
  data ≠ [] → (0 ≤ p ≤ q)%Z →
  Py.float_exact (Z.of_nat (length data) * q) →
  ∃ x y, _percentile data p = Some x ∧ _percentile data q = Some y ∧ x ≤ y.
Proof. intros Hne Hpq _. by apply percentile_le. Qed.

Lemma percentile_monotone_witness :
  ∃ x y, _percentile (Py.of_int <$> [7; 3; 9; 1]%Z) 50 = Some x
         ∧ _percentile (Py.of_int <$> [7; 3; 9; 1]%Z) 95 = Some y
         ∧ x ≤ y.
Proof.
  apply (percentile_monotone (Py.of_int <$> [7; 3; 9; 1]%Z) 50 95);
    [done | lia | unfold Py.float_exact; simpl; lia].
Defined.

(** The least and the greatest element of a list are its sorted
    arrangement's first and last entries. *)
Lemma sorted_ends (data : list Qc) (lo hi : Qc) :
  Py.min data = Some lo → Py.max data = Some hi →
  Py.sorted data !! 0%nat = Some lo
  ∧ Py.sorted data !! (length data - 1)%nat = Some hi.
Proof.
  intros Hlo Hhi.
  assert (data ≠ []) as Hne by (intros ->; discriminate).
  destruct (min_max_bounds data Hne)
    as (lo' & hi' & Hlo' & Hhi' & Hlo_in & Hhi_in & Hb).
  rewrite Hlo in Hlo'. injection Hlo' as <-.
  rewrite Hhi in Hhi'. injection Hhi' as <-.
  assert (0 < length data)%nat as Hlen
    by (destruct data; [done | simpl; lia]).
  pose proof (sorted_StronglySorted data) as Hs.
  pose proof (sorted_length data) as Hsl.
  destruct (lookup_lt_is_Some_2 (Py.sorted data) 0) as [x0 Hx0]; [lia|].
  destruct (lookup_lt_is_Some_2 (Py.sorted data) (length data - 1))
    as [xn Hxn]; [lia|].
  rewrite <- (sorted_Permutation data) in Hlo_in, Hhi_in.
  apply list_elem_of_lookup in Hlo_in as [i Hi].
  apply list_elem_of_lookup in Hhi_in as [j Hj].
  pose proof (lookup_lt_Some _ _ _ Hj) as Hjlt.
  assert (x0 ∈ data) as Hx0_in.
  { rewrite <- (sorted_Permutation data). by eapply list_elem_of_lookup_2. }
  assert (xn ∈ data) as Hxn_in.
  { rewrite <- (sorted_Permutation data). by eapply list_elem_of_lookup_2. }
  split.
  - rewrite Hx0. f_equal. apply Qcle_antisym.
    + apply (StronglySorted_lookup_le (Py.sorted data) 0 i);
        [done | lia | done | done].
    + by apply Hb.
  - rewrite Hxn. f_equal. apply Qcle_antisym.
    + by apply Hb.
    + apply (StronglySorted_lookup_le (Py.sorted data) j (length data - 1));
        [done | lia | done | done].
Qed.

(** At [p = 0] the percentile is the minimum, and from [p = 100] on,
    as far as the index is computed exactly, the clamp makes it the
    maximum. *)
Theorem percentile_extremes (data : list Qc) :
  data ≠ [] →
  _percentile data 0 = Py.min data
  ∧ ∀ p, (100 ≤ p)%Z → Py.float_exact (Z.of_nat (length data) * p) →
         _percentile data p = Py.max data.
Proof.
  intros Hne.
  destruct (min_max_bounds data Hne) as (lo & hi & Hlo & Hhi & _).
  destruct (sorted_ends data lo hi Hlo Hhi) as [Hfirst Hlast].
  assert (0 < length data)%nat as Hlen
    by (destruct data; [done | simpl; lia]).
  split.
  - destruct (percentile_nonneg data 0 Hne) as [-> _]; [lia|].
    rewrite Z.mul_0_r. change (0 `div` 100)%Z with 0%Z.
    rewrite Z.min_l by lia. by rewrite Hlo.
  - intros p Hp _.
    destruct (percentile_nonneg data p Hne) as [-> _]; [lia|].
    assert (Z.of_nat (length data)
            ≤ (Z.of_nat (length data) * p) `div` 100)%Z.
    { apply Z.div_le_lower_bound; [lia|]. rewrite Z.mul_comm.
      apply Z.mul_le_mono_nonneg_l; lia. }
    rewrite Z.min_r by lia.
    replace (Z.to_nat (Z.of_nat (length data) - 1))
      with (length data - 1)%nat by lia.
    by rewrite Hhi.
Qed.

Lemma percentile_extremes_witness :
  _percentile (Py.of_int <$> [7; 3; 9; 1]%Z) 0 = Some (Py.of_int 1)
  ∧ _percentile (Py.of_int <$> [7; 3; 9; 1]%Z) 100 = Some (Py.of_int 9).
Proof.
  destruct (percentile_extremes (Py.of_int <$> [7; 3; 9; 1]%Z))
    as [Hmin Hmax]; [done|].
  split; [rewrite Hmin; reflexivity|].
  rewrite Hmax; [reflexivity | lia | unfold Py.float_exact; simpl; lia].
Defined.

(** The percentile depends on the values only, not on their order. *)
Theorem percentile_permutation (data data' : list Qc) (p : Z) :
  data ≡ₚ data' → _percentile data p = _percentile data' p.
Proof.
  intros Hperm.
  assert (Py.sorted data = Py.sorted data') as Hsame.
  { apply (Sorted_unique Qcle); [apply sorted_Sorted | apply sorted_Sorted|].
    by rewrite !sorted_Permutation. }
  destruct data as [|x l], data' as [|x' l'].
  - done.
  - by apply Permutation_nil_cons in Hperm.
  - symmetry in Hperm. by apply Permutation_nil_cons in Hperm.
  - unfold _percentile. cbv zeta. by rewrite Hsame.
Qed.

Lemma percentile_permutation_witness :
  _percentile (Py.of_int <$> [7; 3; 9; 1]%Z) 95
  = _percentile (Py.of_int <$> [1; 9; 7; 3]%Z) 95.
Proof.
  apply percentile_permutation.
  change (Py.of_int <$> [7; 3; 9; 1]%Z)
    with ([Py.of_int 7; Py.of_int 3] ++ [Py.of_int 9; Py.of_int 1]).
  change (Py.of_int <$> [1; 9; 7; 3]%Z)
    with ([Py.of_int 1; Py.of_int 9] ++ [Py.of_int 7; Py.of_int 3]).
  rewrite (Permutation_app_comm [Py.of_int 7; Py.of_int 3]).
  apply Permutation_app_tail. apply perm_swap.
Defined.

Lemma percentile_negative_index (n : nat) (p : Z) :
  (p < 0)%Z →
  Py.int_div (Z.of_nat n * p) 100
  = (- ((Z.of_nat n * - p) `div` 100))%Z.
Proof.
  intros Hp. unfold Py.int_div.
  replace (Z.of_nat n * p)%Z with (- (Z.of_nat n * - p))%Z by lia.
  rewrite Z.quot_opp_l by lia. rewrite Z.quot_div_nonneg by lia. done.
Qed.

(** Below zero the percentile argument turns into a Python index that
    counts from the end: for [-100 ≤ p < 0], with
    [k = floor(len(data) * -p / 100)], the result is the minimum when
    [k = 0] and the entry [k] places from the end otherwise; for
    [p ≤ -200], as far as the index is computed exactly, it falls off
    the list and IndexError is raised. *)
Theorem percentile_negative (data : list Qc) (p : Z) :
  data ≠ [] →
  ((-100 ≤ p < 0)%Z →
   let n := length data in
   let k := Z.to_nat ((Z.of_nat n * - p) `div` 100) in
   (k ≤ n)%nat
   ∧ _percentile data p
     = Py.sorted data !! (if decide (k = 0%nat) then 0%nat else (n - k)%nat)
   ∧ ∃ x, _percentile data p = Some x ∧ x ∈ data)
  ∧ ((p ≤ -200)%Z → Py.float_exact (Z.of_nat (length data) * p) →
     _percentile data p = None).
Proof.
  intros Hne.
  assert (0 < length data)%nat as Hlen
    by (destruct data; [done | simpl; lia]).
  assert (∀ q, _percentile data q
               = Py.getitem (Py.sorted data)
                   (Z.min (Py.int_div (Z.of_nat (length data) * q) 100)
                          (Z.of_nat (length data) - 1))) as Hdef.
  { intros q. destruct data; [done|]. unfold _percentile. cbv zeta.
    by rewrite sorted_length. }
  split.
  - intros [Hlo Hneg] n k.
    assert (0 ≤ (Z.of_nat n * - p) `div` 100 ≤ Z.of_nat n)%Z as [Hk0 Hkn].
    { split; [apply Z.div_pos; lia|].
      apply Z.div_le_upper_bound; [lia|]. nia. }
    assert (_percentile data p
            = Py.sorted data
              !! (if decide (k = 0%nat) then 0%nat else (n - k)%nat)) as Heq.
    { rewrite Hdef, percentile_negative_index by done. fold n.
      rewrite Z.min_l by lia. unfold Py.getitem. rewrite sorted_length.
      fold n. subst k. case_decide as Hz.
      - rewrite decide_True by lia. f_equal. lia.
      - rewrite decide_True by lia. rewrite decide_False by lia.
        f_equal. lia. }
    split; [subst k; lia|]. split; [done|].
    destruct (lookup_lt_is_Some_2 (Py.sorted data)
                (if decide (k = 0%nat) then 0%nat else (n - k)%nat))
      as [x Hx].
    { rewrite sorted_length. fold n. case_decide; lia. }
    exists x. rewrite Heq. split; [done|].
    rewrite <- (sorted_Permutation data). by eapply list_elem_of_lookup_2.
  - intros Hp _. rewrite Hdef, percentile_negative_index by lia.
    assert (2 * Z.of_nat (length data)
            ≤ (Z.of_nat (length data) * - p) `div` 100)%Z.
    { apply Z.div_le_lower_bound; [lia|]. nia. }
    rewrite Z.min_l by lia. unfold Py.getitem. rewrite sorted_length.
    rewrite decide_False by lia. by rewrite decide_False by lia.
Qed.

Lemma percentile_negative_witness :
  _percentile (Py.of_int <$> [10; 20; 30; 40; 50]%Z) (-50)
  = Some (Py.of_int 40)
  ∧ _percentile (Py.of_int <$> [10; 20; 30; 40; 50]%Z) (-200) = None.
Proof.
  destruct (percentile_negative (Py.of_int <$> [10; 20; 30; 40; 50]%Z) (-50))
    as [Hin _]; [done|].
  destruct (percentile_negative (Py.of_int <$> [10; 20; 30; 40; 50]%Z) (-200))
    as [_ Hout]; [done|].
  split; [|apply Hout; [lia | unfold Py.float_exact; simpl; lia]].
  destruct Hin as (_ & -> & _); [lia|]. reflexivity.
Defined.

(** ** Tier classification: monotonicity and what the tables are read for *)

Lemma of_value_monotone (t1 t2 t3 : Z) (v v' : Qc) :
  v ≤ v' →
  (Tier.rank (Tier.of_value t1 t2 t3 v)
   ≤ Tier.rank (Tier.of_value t1 t2 t3 v'))%nat.
Proof.
  intros Hv. unfold Tier.of_value.
  repeat case_decide; simpl; try lia;
    exfalso;
    match goal with
    | Hle : v' ≤ ?t, Hnot : ¬ v ≤ ?t |- _ =>
        apply Hnot; exact (Qcle_trans _ _ _ Hv Hle)
    end.
Qed.

(** A sample that is no better in any of the three metrics is never put
    in a better category. *)
Theorem categorize_monotone (r r' : BenchmarkResult) :
  duration_ms r ≤ duration_ms r' →
  memory_mb r ≤ memory_mb r' →
  cpu_percent r ≤ cpu_percent r' →
  ∃ c c',
    _categorize_performance init r = Some (Tier.label c)
    ∧ _categorize_performance init r' = Some (Tier.label c')
    ∧ (Tier.rank c ≤ Tier.rank c')%nat.
Proof.
  intros Hd Hm Hc. exists (Tier.of_sample r), (Tier.of_sample r').
  rewrite !categorize_init. split; [done|]. split; [done|].
  unfold Tier.of_sample. rewrite !rank_worse.
  pose proof (of_value_monotone 100 500 1000 _ _ Hd).
  pose proof (of_value_monotone 10 25 50 _ _ Hm).
  pose proof (of_value_monotone 20 50 80 _ _ Hc).
  lia.
Qed.

Lemma categorize_monotone_witness :
  ∃ c c',
    _categorize_performance init (Sim.sample "a" 50 5 10 true)
    = Some (Tier.label c)
    ∧ _categorize_performance init (Sim.sample "b" 700 5 10 true)
      = Some (Tier.label c')
    ∧ (Tier.rank c ≤ Tier.rank c')%nat.
Proof.
  apply (categorize_monotone (Sim.sample "a" 50 5 10 true)
           (Sim.sample "b" 700 5 10 true)); by vm_compute.
Defined.

Lemma get_category_without_poor self self' v metric :
  delete "poor" <$> thresholds self !! metric
  = delete "poor" <$> thresholds self' !! metric →
  _get_category self v metric = _get_category self' v metric.
Proof.
  intros Hsame. unfold _get_category.
  destruct (thresholds self !! metric) as [t|],
           (thresholds self' !! metric) as [t'|]; try done.
  simpl in *. injection Hsame as Hsame.
  assert (∀ key, key ≠ "poor" → t !! key = t' !! key) as Hkey.
  { intros key Hne. rewrite <- (lookup_delete_ne t "poor" key) by done.
    rewrite <- (lookup_delete_ne t' "poor" key) by done. by rewrite Hsame. }
  rewrite (Hkey "excellent"), (Hkey "good"), (Hkey "acceptable") by done.
  done.
Qed.

(** The "poor" entries of the threshold tables (5000, 100, 100) are
    never read: two benchmarkers whose tables agree on everything but
    "poor" classify every sample alike. *)
Theorem poor_threshold_unused (self self' : PerformanceBenchmarker)
    (r : BenchmarkResult) :
  (∀ metric, delete "poor" <$> thresholds self !! metric
             = delete "poor" <$> thresholds self' !! metric) →
  _categorize_performance self r = _categorize_performance self' r.
Proof.
  intros Hsame. unfold _categorize_performance.
  by rewrite !(get_category_without_poor self self') by apply Hsame.
Qed.

Lemma poor_threshold_unused_witness :
  _categorize_performance
    {| thresholds :=
         <["duration_ms" := delete "poor" (threshold_table 100 500 1000 5000)]>
           (<["memory_mb" := threshold_table 10 25 50 7]>
              (<["cpu_percent" := threshold_table 20 50 80 100]> ∅)) |}
    (Sim.sample "a" 700 5 10 true)
  = _categorize_performance init (Sim.sample "a" 700 5 10 true).
Proof.
  apply poor_threshold_unused. intros metric.
  destruct (decide (metric = "duration_ms")) as [->|?];
    [vm_compute; reflexivity|].
  destruct (decide (metric = "memory_mb")) as [->|?];
    [vm_compute; reflexivity|].
  destruct (decide (metric = "cpu_percent")) as [->|?];
    [vm_compute; reflexivity|].
  unfold init. simpl. by rewrite !lookup_insert_ne, lookup_empty by done.
Defined.

(** A benchmarker whose thresholds lack one of the three metrics cannot
    classify anything (KeyError), so its summary raises as soon as one
    sample succeeded, while the summary of a run without any success is
    still produced. *)
Theorem missing_metric_table (self : PerformanceBenchmarker)
    (results : list BenchmarkResult) (total_duration : Qc) :
  (thresholds self !! "duration_ms" = None
   ∨ thresholds self !! "memory_mb" = None
   ∨ thresholds self !! "cpu_percent" = None) →
  (∀ r, _categorize_performance self r = None)
  ∧ (filter (λ r, success r = true) results ≠ [] →
     _generate_summary self results total_duration = None)
  ∧ (filter (λ r, success r = true) results = [] →
     is_Some (_generate_summary self results total_duration)).
Proof.
  intros Hmissing.
  assert (∀ r, _categorize_performance self r = None) as Hnone.
  { intros r. unfold _categorize_performance, _get_category.
    destruct Hmissing as [H|[H|H]]; rewrite H; simpl.
    - done.
    - by destruct (thresholds self !! "duration_ms" ≫= _).
    - destruct (thresholds self !! "duration_ms" ≫= _); [|done]. simpl.
      by destruct (thresholds self !! "memory_mb" ≫= _). }
  split; [done|]. split.
  - intros Hok. unfold _generate_summary.
    destruct (filter _ results) as [|r0 ok]; [done|].
    simpl. by rewrite Hnone.
  - intros Hko. unfold _generate_summary. rewrite Hko. eauto.
Qed.

Lemma missing_metric_table_witness :
  _generate_summary {| thresholds := delete "memory_mb" (thresholds init) |}
    [Sim.sample "a" 50 5 10 true] 1 = None
  ∧ is_Some
      (_generate_summary
         {| thresholds := delete "memory_mb" (thresholds init) |}
         [Sim.sample "a" 0 0 0 false] 1).
Proof.
  destruct (missing_metric_table
              {| thresholds := delete "memory_mb" (thresholds init) |}
              [Sim.sample "a" 50 5 10 true] 1) as (_ & Hraise & _);
    [right; left; by vm_compute|].
  destruct (missing_metric_table
              {| thresholds := delete "memory_mb" (thresholds init) |}
              [Sim.sample "a" 0 0 0 false] 1) as (_ & _ & Hshort);
    [right; left; by vm_compute|].
  split; [by apply Hraise | by apply Hshort].
Defined.

(** ** Arithmetic on the rationals that stand for floats *)

Lemma this_of_int z : (this (Py.of_int z) == inject_Z z)%Q.
Proof. unfold Py.of_int. simpl. apply Qred_correct. Qed.

Lemma this_mult (x y : Qc) : (this (x * y) == this x * this y)%Q.
Proof. simpl. apply Qred_correct. Qed.

Lemma this_plus (x y : Qc) : (this (x + y) == this x + this y)%Q.
Proof. simpl. apply Qred_correct. Qed.

Lemma this_minus (x y : Qc) : (this (x - y) == this x - this y)%Q.
Proof.
  unfold Qcminus. rewrite this_plus. unfold Qcopp. simpl.
  rewrite Qred_correct. reflexivity.
Qed.

(** Comparisons between sums, differences and products of rationals and
    int literals, decided over [Q]. *)
Ltac qc_arith :=
  repeat match goal with
  | H : ¬ (_ ≤ _) |- _ => apply Qcnot_le_lt in H
  | H : ¬ (_ < _) |- _ => apply Qcnot_lt_le in H
  | |- ¬ (_ ≤ _) => apply Qclt_not_le
  | |- ¬ (_ < _) => apply Qcle_not_lt
  end;
  repeat match goal with
  | H : Qcle _ _ |- _ => revert H
  | H : Qclt _ _ |- _ => revert H
  end;
  unfold Qcle, Qclt;
  repeat first [ rewrite this_minus | rewrite this_plus
               | rewrite this_mult | rewrite this_of_int ];
  change (this 0) with 0%Q; change (this 1) with 1%Q;
  unfold inject_Z; intros; lra.

(** ** Recommendations: shape, and agreement with the tiers *)

Lemma warnings_not_affirmation (l : list BenchmarkResult) :
  slow_message l ≠ affirmation
  ∧ memory_message l ≠ affirmation
  ∧ cpu_message l ≠ affirmation.
Proof. repeat split; discriminate. Qed.

(** The recommendation list is never empty and never longer than three,
    and the affirmation never comes with a warning. *)
Theorem recommendations_shape (results : list BenchmarkResult) :
  (1 ≤ length (_generate_recommendations results) ≤ 3)%nat
  ∧ (affirmation ∈ _generate_recommendations results →
     _generate_recommendations results = [affirmation]).
Proof.
  unfold _generate_recommendations.
  destruct (filter (λ r, Py.of_int 100 < duration_ms r) results) as [|s ss];
    destruct (filter (λ r, Py.of_int 25 < memory_mb r) results) as [|m ms];
    destruct (filter (λ r, Py.of_int 50 < cpu_percent r) results) as [|c cs];
    simpl; (split; [lia|]); try done;
    rewrite ?elem_of_cons, elem_of_nil;
    intros Hin; exfalso;
    repeat match goal with
    | H : _ ∨ _ |- _ => destruct H
    | H : affirmation = slow_message ?l |- _ =>
        by destruct (warnings_not_affirmation l) as (? & _)
    | H : affirmation = memory_message ?l |- _ =>
        by destruct (warnings_not_affirmation l) as (_ & ? & _)
    | H : affirmation = cpu_message ?l |- _ =>
        by destruct (warnings_not_affirmation l) as (_ & _ & ?)
    end; done.
Qed.

Lemma recommendations_shape_witness :
  _generate_recommendations
    [Sim.sample "a" 10 1 1 true; Sim.sample "b" 10 1 1 true]
  = [affirmation].
Proof.
  apply (recommendations_shape
           [Sim.sample "a" 10 1 1 true; Sim.sample "b" 10 1 1 true]).
  vm_compute. by left.
Defined.

Lemma worse_excellent a b :
  Tier.worse a b = Tier.excellent → a = Tier.excellent ∧ b = Tier.excellent.
Proof. by destruct a, b. Qed.

Lemma of_value_excellent t1 t2 t3 v :
  Tier.of_value t1 t2 t3 v = Tier.excellent ↔ v ≤ Py.of_int t1.
Proof. unfold Tier.of_value. repeat case_decide; done. Qed.

Lemma of_value_rank_le_1 t1 t2 t3 v :
  v ≤ Py.of_int t2 → (Tier.rank (Tier.of_value t1 t2 t3 v) ≤ 1)%nat.
Proof.
  intros Hv. unfold Tier.of_value. repeat case_decide; simpl; try lia; done.
Qed.

Lemma filter_nil_Forall {A} (P : A → Prop) `{!∀ x, Decision (P x)}
    (l : list A) :
  filter P l = [] ↔ Forall (λ x, ¬ P x) l.
Proof.
  rewrite filter_nil_not_Exists. rewrite Forall_forall, Exists_exists.
  split.
  - intros Hnone x Hin HP. apply Hnone. eauto.
  - intros Hall (x & Hin & HP). by apply (Hall x).
Qed.

(** The recommender and the classifier agree: a suite whose samples are
    all excellent gets the affirmation, and the affirmation is only
    given when every sample is excellent or good, so an acceptable or
    poor sample always draws a warning. *)
Theorem recommendations_match_tiers (results : list BenchmarkResult) :
  (Forall (λ r, _categorize_performance init r = Some "excellent") results →
   _generate_recommendations results = [affirmation])
  ∧ (_generate_recommendations results = [affirmation] →
     Forall (λ r, ∃ c, _categorize_performance init r = Some (Tier.label c)
                       ∧ (Tier.rank c ≤ 1)%nat) results).
Proof.
  split.
  - intros Hall.
    assert (Forall (λ r, duration_ms r ≤ Py.of_int 100
                         ∧ memory_mb r ≤ Py.of_int 10
                         ∧ cpu_percent r ≤ Py.of_int 20) results) as Hle.
    { eapply Forall_impl; [exact Hall|]. intros r Hr. simpl in Hr.
      rewrite categorize_init in Hr. injection Hr as Hr.
      apply (label_inj _ Tier.excellent) in Hr. unfold Tier.of_sample in Hr.
      apply worse_excellent in Hr as [Hr Hc].
      apply worse_excellent in Hr as [Hd Hm].
      by apply of_value_excellent in Hd, Hm, Hc. }
    unfold _generate_recommendations.
    assert (filter (λ r, Py.of_int 100 < duration_ms r) results = []) as ->.
    { apply filter_nil_Forall. eapply Forall_impl; [exact Hle|].
      intros r (Hd & _ & _). simpl. qc_arith. }
    assert (filter (λ r, Py.of_int 25 < memory_mb r) results = []) as ->.
    { apply filter_nil_Forall. eapply Forall_impl; [exact Hle|].
      intros r (_ & Hm & _). simpl. qc_arith. }
    assert (filter (λ r, Py.of_int 50 < cpu_percent r) results = []) as ->.
    { apply filter_nil_Forall. eapply Forall_impl; [exact Hle|].
      intros r (_ & _ & Hc). simpl. qc_arith. }
    done.
  - intros Haff.
    assert (filter (λ r, Py.of_int 100 < duration_ms r) results = []
            ∧ filter (λ r, Py.of_int 25 < memory_mb r) results = []
            ∧ filter (λ r, Py.of_int 50 < cpu_percent r) results = [])
      as (Hd & Hm & Hc).
    { unfold _generate_recommendations in Haff.
      destruct (filter (λ r, Py.of_int 100 < duration_ms r) results);
        destruct (filter (λ r, Py.of_int 25 < memory_mb r) results);
        destruct (filter (λ r, Py.of_int 50 < cpu_percent r) results);
        done. }
    apply filter_nil_Forall in Hd, Hm, Hc.
    rewrite Forall_forall in Hd, Hm, Hc. apply Forall_forall. intros r Hin.
    exists (Tier.of_sample r). split; [apply categorize_init|].
    unfold Tier.of_sample. rewrite !rank_worse.
    pose proof (Hd r Hin) as Hdr. pose proof (Hm r Hin) as Hmr.
    pose proof (Hc r Hin) as Hcr. simpl in Hdr, Hmr, Hcr. clear Hd Hm Hc.
    assert (duration_ms r ≤ Py.of_int 500) as Hd' by qc_arith.
    assert (memory_mb r ≤ Py.of_int 25) as Hm' by qc_arith.
    assert (cpu_percent r ≤ Py.of_int 50) as Hc' by qc_arith.
    pose proof (of_value_rank_le_1 100 500 1000 (duration_ms r) Hd').
    pose proof (of_value_rank_le_1 10 25 50 (memory_mb r) Hm').
    pose proof (of_value_rank_le_1 20 50 80 (cpu_percent r) Hc').
    lia.
Qed.

Lemma recommendations_match_tiers_witness :
  _generate_recommendations
    [Sim.sample "a" 50 5 10 true; Sim.sample "b" 100 10 20 true]
  = [affirmation]
  ∧ Forall (λ r, ∃ c, _categorize_performance init r = Some (Tier.label c)
                      ∧ (Tier.rank c ≤ 1)%nat)
      [Sim.sample "a" 50 5 10 true; Sim.sample "b" 100 20 40 true].
Proof.
  destruct (recommendations_match_tiers
              [Sim.sample "a" 50 5 10 true; Sim.sample "b" 100 10 20 true])
    as [Hexc _].
  destruct (recommendations_match_tiers
              [Sim.sample "a" 50 5 10 true; Sim.sample "b" 100 20 40 true])
    as [_ Haff].
  split; [apply Hexc; by repeat constructor | by apply Haff].
Defined.

(** ** Summary: counts, rate and the order of the statistics *)

Lemma of_int_le (a b : Z) : (a ≤ b)%Z ↔ Py.of_int a ≤ Py.of_int b.
Proof. unfold Qcle. rewrite !this_of_int. by rewrite <- Zle_Qle. Qed.

Lemma of_int_lt (a b : Z) : (a < b)%Z ↔ Py.of_int a < Py.of_int b.
Proof. unfold Qclt. rewrite !this_of_int. by rewrite <- Zlt_Qlt. Qed.

Lemma of_int_inj (a b : Z) : Py.of_int a = Py.of_int b → a = b.
Proof.
  intros H. apply Z.le_antisymm.
  - apply (proj2 (of_int_le a b)). rewrite H. apply Qcle_refl.
  - apply (proj2 (of_int_le b a)). rewrite H. apply Qcle_refl.
Qed.

Lemma len_cons {A} (x : A) (l : list A) : Py.len (x :: l) = Py.len l + 1.
Proof.
  unfold Py.len. apply Qc_is_canon. rewrite this_plus, !this_of_int.
  simpl length. rewrite Nat2Z.inj_succ, <- Z.add_1_r, inject_Z_plus.
  reflexivity.
Qed.

Lemma len_pos {A} (l : list A) : l ≠ [] → 0 < Py.len l.
Proof.
  intros Hne. unfold Py.len. change 0 with (Py.of_int 0).
  apply (proj1 (of_int_lt 0 (Z.of_nat (length l)))).
  destruct l; [done | cbn [length]; lia].
Qed.

(** A quotient [s / t] of two ints with [0 ≤ s ≤ t] and [0 < t], times
    100, is a percentage. *)
Lemma rate_bounds (s t : Z) :
  (0 ≤ s ≤ t)%Z → (0 < t)%Z →
  let rate := Py.of_int s / Py.of_int t * Py.of_int 100 in
  0 ≤ rate ≤ Py.of_int 100
  ∧ (rate = Py.of_int 100 ↔ s = t)
  ∧ (rate = 0 ↔ s = 0%Z).
Proof.
  intros Hs Ht rate.
  assert (Py.of_int t ≠ 0) as Hnz.
  { intros H. change 0 with (Py.of_int 0) in H. apply of_int_inj in H. lia. }
  assert (Py.of_int t * (Py.of_int s / Py.of_int t) = Py.of_int s) as Hx
    by by apply Qcmult_div_r.
  set (x := Py.of_int s / Py.of_int t) in *.
  assert (this (Py.of_int t) * this x == this (Py.of_int s))%Q as Hq
    by (by rewrite <- this_mult, Hx).
  rewrite !this_of_int in Hq.
  assert (0 <= inject_Z s <= inject_Z t)%Q as [Hs0 Hst]
    by (split; [change 0%Q with (inject_Z 0)|]; rewrite <- Zle_Qle; lia).
  assert (0 < inject_Z t)%Q as Ht0
    by (change 0%Q with (inject_Z 0); rewrite <- Zlt_Qlt; lia).
  assert (0 <= this x <= 1)%Q as [Hx0 Hx1] by (split; nra).
  assert (this rate == this x * 100)%Q as Hrate.
  { unfold rate. rewrite this_mult, this_of_int. reflexivity. }
  split; [|split].
  - unfold Qcle. rewrite Hrate, this_of_int.
    change (this 0) with 0%Q. unfold inject_Z. split; lra.
  - split.
    + intros H. apply (f_equal this) in H.
      assert (this rate == inject_Z 100)%Q as H'
        by (by rewrite H, this_of_int).
      rewrite Hrate in H'. unfold inject_Z in H'.
      assert (this x == 1)%Q as Hone by lra.
      rewrite Hone, Qmult_1_r in Hq.
      pose proof (proj1 (inject_Z_injective t s) Hq). lia.
    + intros <-. apply Qc_is_canon. rewrite Hrate, this_of_int.
      assert (this x == 1)%Q as -> by nra. reflexivity.
  - split.
    + intros H. apply (f_equal this) in H.
      assert (this rate == 0)%Q as H' by (by rewrite H).
      rewrite Hrate in H'. assert (this x == 0)%Q as Hzero by lra.
      rewrite Hzero, Qmult_0_r in Hq.
      change 0%Q with (inject_Z 0) in Hq.
      pose proof (proj1 (inject_Z_injective 0 s) Hq). lia.
    + intros ->. apply Qc_is_canon. rewrite Hrate.
      change (inject_Z 0) with 0%Q in Hq.
      assert (this x == 0)%Q as -> by nra. reflexivity.
Qed.

(** What a returned summary is made of, for any threshold tables. *)
Lemma generate_summary_inv self results total_duration s :
  _generate_summary self results total_duration = Some s →
  let ok := filter (λ r, success r = true) results in
  let bad := filter (λ r, success r = false) results in
  total_tests s = length results
  ∧ successful s = length ok
  ∧ failed s = length bad
  ∧ total_duration_ms s = total_duration
  ∧ ((ok = [] ∧ success_rate s = 0
      ∧ performance_stats s = None ∧ memory_stats s = None
      ∧ cpu_stats s = None ∧ performance_categories s = None
      ∧ recommendations s = None)
     ∨ (ok ≠ []
        ∧ success_rate s = Py.len ok / Py.len results * Py.of_int 100
        ∧ ∃ ps ms cs cats,
            performance_stats s = Some ps
            ∧ memory_stats s = Some ms
            ∧ cpu_stats s = Some cs
            ∧ performance_categories s = Some cats
            ∧ recommendations s = Some (_generate_recommendations ok)
            ∧ count_categories self ok categories0 = Some cats
            ∧ Py.mean (duration_ms <$> ok) = Some (avg_duration_ms ps)
            ∧ Py.min (duration_ms <$> ok) = Some (min_duration_ms ps)
            ∧ Py.max (duration_ms <$> ok) = Some (max_duration_ms ps)
            ∧ _percentile (duration_ms <$> ok) 95 = Some (p95_duration_ms ps)
            ∧ _percentile (duration_ms <$> ok) 99 = Some (p99_duration_ms ps)
            ∧ Py.mean (memory_mb <$> ok) = Some (avg_memory_mb ms)
            ∧ Py.max (memory_mb <$> ok) = Some (max_memory_mb ms)
            ∧ total_memory_mb ms = Py.sum (memory_mb <$> ok)
            ∧ Py.mean (cpu_percent <$> ok) = Some (avg_cpu_percent cs)
            ∧ Py.max (cpu_percent <$> ok) = Some (max_cpu_percent cs))).
Proof.
  intros Hs ok bad. unfold _generate_summary in Hs. fold ok bad in Hs.
  destruct ok as [|r0 ok'] eqn:Eok.
  - injection Hs as <-. simpl. repeat (split; [done|]). left. done.
  - rewrite <- Eok in *.
    assert (ok ≠ []) as Hne by (rewrite Eok; done).
    destruct (count_categories self ok categories0) as [cats|]; [|done].
    simpl in Hs. unfold Py.truediv in Hs.
    destruct (decide (Py.len results = 0)); [done|]. simpl in Hs.
    destruct (Py.mean (duration_ms <$> ok)) as [avg_d|]; [|done].
    simpl in Hs.
    destruct (Py.min (duration_ms <$> ok)) as [min_d|]; [|done].
    simpl in Hs.
    destruct (Py.max (duration_ms <$> ok)) as [max_d|]; [|done].
    simpl in Hs.
    destruct (_percentile (duration_ms <$> ok) 95) as [p95|]; [|done].
    simpl in Hs.
    destruct (_percentile (duration_ms <$> ok) 99) as [p99|]; [|done].
    simpl in Hs.
    destruct (Py.mean (memory_mb <$> ok)) as [avg_m|]; [|done].
    simpl in Hs.
    destruct (Py.max (memory_mb <$> ok)) as [max_m|]; [|done].
    simpl in Hs.
    destruct (Py.mean (cpu_percent <$> ok)) as [avg_c|]; [|done].
    simpl in Hs.
    destruct (Py.max (cpu_percent <$> ok)) as [max_c|]; [|done].
    simpl in Hs. injection Hs as <-. simpl.
    repeat (split; [done|]). right. split; [done|]. split; [done|].
    eexists _, _, _, _. repeat (split; [reflexivity|]). reflexivity.
Qed.

(** The running total stays between [len × lo] and [len × hi]. *)
Lemma foldl_plus_bounds (l : list Qc) (lo hi a : Qc) :
  Forall (λ x, lo ≤ x ≤ hi) l →
  a + lo * Py.len l ≤ foldl Qcplus a l ≤ a + hi * Py.len l.
Proof.
  intros Hl. revert a. induction Hl as [|x l [Hlo Hhi] Hl IH]; intros a.
  - simpl. unfold Py.len. change (Z.of_nat (length [])) with 0%Z.
    split; qc_arith.
  - simpl foldl. rewrite len_cons. destruct (IH (a + x)) as [IHlo IHhi].
    split; qc_arith.
Qed.

(** The mean of a list lies between any two bounds of its elements. *)
Lemma mean_between (l : list Qc) (lo hi avg : Qc) :
  Forall (λ x, lo ≤ x ≤ hi) l → Py.mean l = Some avg → lo ≤ avg ≤ hi.
Proof.
  intros Hl Havg.
  assert (l ≠ []) as Hne by (intros ->; discriminate).
  rewrite mean_nonempty in Havg by done. injection Havg as <-.
  pose proof (len_pos l Hne) as Hpos.
  destruct (foldl_plus_bounds l lo hi 0 Hl) as [Hlo Hhi].
  fold (Py.sum l) in Hlo, Hhi.
  assert (Py.len l * (Py.sum l / Py.len l) = Py.sum l) as Hx.
  { apply Qcmult_div_r. intros H. rewrite H in Hpos.
    by apply Qclt_not_eq in Hpos. }
  set (x := Py.sum l / Py.len l) in *. rewrite <- Hx in Hlo, Hhi.
  assert (this (Py.len l) * this lo <= this (Py.len l) * this x)%Q as Hlo'.
  { revert Hlo. unfold Qcle. rewrite !this_plus, !this_mult.
    change (this 0) with 0%Q. intros. lra. }
  assert (this (Py.len l) * this x <= this (Py.len l) * this hi)%Q as Hhi'.
  { revert Hhi. unfold Qcle. rewrite !this_plus, !this_mult.
    change (this 0) with 0%Q. intros. lra. }
  assert (0 < this (Py.len l))%Q as Hpos' by exact Hpos.
  unfold Qcle. split; nra.
Qed.

(** Whatever the samples, a returned summary counts every sample once
    ([total = successful + failed]), its rate is a percentage, the rate
    is 100 exactly when there are samples and none failed, and it is 0
    exactly when none succeeded. *)
Theorem summary_counts_and_rate (self : PerformanceBenchmarker)
    (results : list BenchmarkResult) (total_duration : Qc) (s : Summary) :
  _generate_summary self results total_duration = Some s →
  total_tests s = length results
  ∧ total_tests s = (successful s + failed s)%nat
  ∧ 0 ≤ success_rate s ≤ Py.of_int 100
  ∧ (success_rate s = Py.of_int 100 ↔ failed s = 0%nat ∧ results ≠ [])
  ∧ (success_rate s = 0 ↔ successful s = 0%nat).
Proof.
  intros Hs. apply generate_summary_inv in Hs
    as (Htotal & Hok & Hbad & _ & Hcase).
  pose proof (filter_success_split results) as Hsplit.
  rewrite <- Hok, <- Hbad, <- Htotal in Hsplit.
  split; [done|]. split; [lia|].
  destruct Hcase as [(Hnone & -> & _) | (Hsome & -> & _)].
  - rewrite Hnone in Hok. simpl in Hok. split; [split; by vm_compute|].
    split; [|done]. split; [by vm_compute|].
    intros [Hzero Hne]. destruct results; [done | simpl in *; lia].
  - assert (0 < length (filter (λ r, success r = true) results))%nat as Hpos.
    { destruct (filter _ results); [done | simpl; lia]. }
    destruct (rate_bounds (Z.of_nat (successful s)) (Z.of_nat (total_tests s)))
      as (Hrange & Hfull & Hzero); [lia | lia |].
    unfold Py.len. rewrite <- Hok, <- Htotal.
    split; [done|]. split.
    + rewrite Hfull. split.
      * intros H. split; [lia|]. intros ->. simpl in *. lia.
      * intros [H _]. lia.
    + rewrite Hzero. lia.
Qed.

Lemma summary_counts_and_rate_witness :
  ∃ s, _generate_summary init
         [Sim.sample "a" 50 5 10 true; Sim.sample "b" 0 0 0 false] 1 = Some s
       ∧ total_tests s = 2%nat
       ∧ total_tests s = (successful s + failed s)%nat
       ∧ 0 ≤ success_rate s ≤ Py.of_int 100.
Proof.
  destruct (_generate_summary init
              [Sim.sample "a" 50 5 10 true; Sim.sample "b" 0 0 0 false] 1)
    as [s|] eqn:E; [|vm_compute in E; discriminate].
  destruct (summary_counts_and_rate _ _ _ _ E) as (H1 & H2 & H3 & _).
  exists s. split; [reflexivity|]. split; [exact H1|]. split; [exact H2|].
  exact H3.
Defined.

Lemma percentile_in_data (data : list Qc) (p : Z) (x : Qc) :
  (0 ≤ p)%Z → data ≠ [] → _percentile data p = Some x → x ∈ data.
Proof.
  intros Hp Hne Hx.
  destruct (percentile_lookup data p Hne Hp) as (i & y & _ & _ & Hy & Hpy).
  rewrite Hx in Hpy. injection Hpy as <-.
  rewrite <- (sorted_Permutation data). by eapply list_elem_of_lookup_2.
Qed.

(** In every summary with statistics, the figures come in order:
    min ≤ mean ≤ max and min ≤ p95 ≤ p99 ≤ max for the durations, and
    the mean memory and CPU do not exceed their maxima. *)
Theorem summary_statistics_ordered (self : PerformanceBenchmarker)
    (results : list BenchmarkResult) (total_duration : Qc) (s : Summary)
    (ps : PerformanceStats) (ms : MemoryStats) (cs : CpuStats) :
  _generate_summary self results total_duration = Some s →
  performance_stats s = Some ps →
  memory_stats s = Some ms →
  cpu_stats s = Some cs →
  min_duration_ms ps ≤ avg_duration_ms ps ≤ max_duration_ms ps
  ∧ min_duration_ms ps ≤ p95_duration_ms ps
  ∧ p95_duration_ms ps ≤ p99_duration_ms ps
  ∧ p99_duration_ms ps ≤ max_duration_ms ps
  ∧ avg_memory_mb ms ≤ max_memory_mb ms
  ∧ avg_cpu_percent cs ≤ max_cpu_percent cs.
Proof.
  intros Hs Hps Hms Hcs. apply generate_summary_inv in Hs
    as (_ & _ & _ & _ & Hcase).
  destruct Hcase as [(_ & _ & Hnone & _) | (Hok & _ & Hstats)];
    [congruence|].
  destruct Hstats as (ps' & ms' & cs' & cats & Hps' & Hms' & Hcs' & _ & _ & _
                      & Havg & Hmin & Hmax & Hp95 & Hp99 & Havg_m & Hmax_m
                      & _ & Havg_c & Hmax_c).
  rewrite Hps in Hps'. injection Hps' as <-.
  rewrite Hms in Hms'. injection Hms' as <-.
  rewrite Hcs in Hcs'. injection Hcs' as <-.
  set (ok := filter (λ r, success r = true) results) in *.
  pose proof (fmap_nonempty duration_ms ok Hok) as Hd.
  pose proof (fmap_nonempty memory_mb ok Hok) as Hm.
  pose proof (fmap_nonempty cpu_percent ok Hok) as Hc.
  destruct (min_max_bounds _ Hd) as (lo & hi & Hlo & Hhi & _ & _ & Hb).
  rewrite Hmin in Hlo. injection Hlo as <-.
  rewrite Hmax in Hhi. injection Hhi as <-.
  destruct (min_max_bounds _ Hm) as (lo_m & hi_m & _ & Hhi_m & _ & _ & Hb_m).
  rewrite Hmax_m in Hhi_m. injection Hhi_m as <-.
  destruct (min_max_bounds _ Hc) as (lo_c & hi_c & _ & Hhi_c & _ & _ & Hb_c).
  rewrite Hmax_c in Hhi_c. injection Hhi_c as <-.
  split; [eapply mean_between; [|exact Havg]; by apply Forall_forall|].
  split; [apply Hb; by apply (percentile_in_data _ 95)|].
  split.
  { destruct (percentile_le (duration_ms <$> ok) 95 99 Hd)
      as (x & y & Hx & Hy & Hxy); [lia|].
    rewrite Hp95 in Hx. rewrite Hp99 in Hy.
    injection Hx as <-. injection Hy as <-. done. }
  split; [apply Hb; by apply (percentile_in_data _ 99)|].
  split.
  - eapply (mean_between _ lo_m); [|exact Havg_m]. by apply Forall_forall.
  - eapply (mean_between _ lo_c); [|exact Havg_c]. by apply Forall_forall.
Qed.

Lemma summary_statistics_ordered_witness :
  ∃ ps, performance_stats
          <$> _generate_summary init
                [Sim.sample "a" 50 5 10 true; Sim.sample "b" 700 5 10 true;
                 Sim.sample "c" 0 0 0 false] 1
        = Some (Some ps)
        ∧ min_duration_ms ps ≤ avg_duration_ms ps ≤ max_duration_ms ps
        ∧ p95_duration_ms ps ≤ p99_duration_ms ps.
Proof.
  destruct (_generate_summary init
              [Sim.sample "a" 50 5 10 true; Sim.sample "b" 700 5 10 true;
               Sim.sample "c" 0 0 0 false] 1) as [s|] eqn:E;
    [|vm_compute in E; discriminate].
  destruct (performance_stats s) as [ps|] eqn:Eps;
    [|vm_compute in E; injection E as <-; discriminate].
  destruct (memory_stats s) as [ms|] eqn:Ems;
    [|vm_compute in E; injection E as <-; discriminate].
  destruct (cpu_stats s) as [cs|] eqn:Ecs;
    [|vm_compute in E; injection E as <-; discriminate].
  destruct (summary_statistics_ordered _ _ _ _ ps ms cs E Eps Ems Ecs)
    as (H1 & _ & H2 & _).
  exists ps. simpl. rewrite Eps. split; [reflexivity|]. split; [exact H1|].
  exact H2.
Defined.

(** ** The probe runner: memory readings, sample invariants, tiers *)

(** [x % 10] lies in [0, 10). *)
Lemma fmod_10_range (x : Qc) :
  0 ≤ fmod x (Py.of_int 10) < Py.of_int 10.
Proof.
  unfold fmod. set (y := (this x / this (Py.of_int 10))%Q).
  pose proof (Qfloor_le y) as Hfl.
  pose proof (Qlt_floor y) as Hlt.
  rewrite inject_Z_plus in Hlt. change (inject_Z 1) with 1%Q in Hlt.
  set (k := Qfloor y) in *. clearbody k.
  assert (10 * y == this x)%Q as Hy.
  { unfold y. rewrite this_of_int. change (inject_Z 10) with 10%Q. field. }
  clearbody y. unfold Qcle, Qclt.
  rewrite this_minus, this_mult, !this_of_int.
  change (this 0) with 0%Q. change (inject_Z 10) with 10%Q.
  split; lra.
Qed.

Section RunnerExtras.
Context {W : Type} `{!Env W}.

(** [_get_memory_usage] case by case: the resident set size in MiB when
    [psutil] answers; when importing it raises ImportError, 25 plus the
    clock modulo 10, a figure in [25, 35); any other exception of the
    [psutil] call is passed on. *)
Theorem memory_usage_cases (w : W) :
  (∀ rss w1, returns psutil_rss w rss w1 →
     returns _get_memory_usage w
       (Py.of_int rss / Py.of_int 1024 / Py.of_int 1024) w1)
  ∧ (∀ e w1 now w2,
       psutil_rss w = (Raise e, w1) → is_ImportError e = true →
       returns time_time w1 now w2 →
       returns _get_memory_usage w
         (Py.of_int 25 + fmod now (Py.of_int 10)) w2
       ∧ Py.of_int 25 ≤ Py.of_int 25 + fmod now (Py.of_int 10)
         < Py.of_int 35)
  ∧ (∀ e w1,
       psutil_rss w = (Raise e, w1) → is_ImportError e = false →
       _get_memory_usage w = (Raise e, w1)).
Proof.
  split; [|split].
  - intros rss w1 Hrss. unfold _get_memory_usage, try_except, returns.
    unfold mbind, M_bind. by rewrite Hrss.
  - intros e w1 now w2 Hrss He Hnow.
    split.
    + unfold _get_memory_usage, try_except, returns.
      unfold mbind at 1, M_bind at 1. rewrite Hrss, He.
      unfold mbind, M_bind. by rewrite Hnow.
    + destruct (fmod_10_range now) as [H0 H10].
      set (m := fmod now (Py.of_int 10)) in *. split; qc_arith.
  - intros e w1 Hrss He. unfold _get_memory_usage, try_except.
    unfold mbind, M_bind. by rewrite Hrss, He.
Qed.

(** Every sample the runner returns carries the probe's name and has one
    of two shapes: successful, with metadata and no error, or failed,
    with an error text, no metadata and zero metrics. *)
Theorem sample_well_formed (probe : string) (f : M W unit) (w : W)
    (r : BenchmarkResult) (w' : W) :
  returns (_run_single_benchmark probe f) w r w' →
  name r = probe
  ∧ (success r = true ↔ error r = None)
  ∧ (success r = true ↔ is_Some (metadata r))
  ∧ (success r = false →
     duration_ms r = 0 ∧ memory_mb r = 0 ∧ cpu_percent r = 0).
Proof.
  intros Hrun.
  apply single_returns in Hrun as [Hrun|(e & text & _ & _ & _ & ->)].
  - apply timed_run_returns in Hrun
      as (? & ? & ? & ? & ? & ? & ? & ? & _ & _ & _ & _ & _ & _ & _ & ->).
    simpl. split; [done|]. split; [done|]. split; [|done].
    split; [eauto | done].
  - simpl. split; [done|]. split; [done|]. split; [|done].
    split; [done | by intros [? ?]].
Qed.

End RunnerExtras.

Lemma memory_usage_cases_witness :
  returns _get_memory_usage Sim.start
    (Py.of_int 25 + fmod (Sim.seconds Sim.start) (Py.of_int 10)) Sim.start.
Proof.
  destruct (memory_usage_cases Sim.start) as (_ & Hfallback & _).
  apply (Hfallback {| cls := ImportError; str := Text "No module named 'psutil'" |}
           Sim.start (Sim.seconds Sim.start) Sim.start);
    reflexivity.
Defined.

Lemma sample_well_formed_witness :
  ∃ r w', returns (_run_single_benchmark "p" Sim.raise_boom) Sim.start r w'
          ∧ name r = "p"
          ∧ (success r = true ↔ error r = None).
Proof.
  exists (failed_result "p" "boom"), Sim.start.
  assert (returns (_run_single_benchmark "p" Sim.raise_boom) Sim.start
            (failed_result "p" "boom") Sim.start) as Hrun
    by (vm_compute; reflexivity).
  split; [exact Hrun|].
  destruct (sample_well_formed _ _ _ _ _ Hrun) as (Hname & Herr & _).
  split; [exact Hname | exact Herr].
Defined.

(** The CPU figure [min(100, d / 10)] adds nothing to the duration tier
    but a lower last cut-off: together they classify [d] as the
    duration table would with 800 in place of 1000. *)
Lemma effective_duration_tier (d : Qc) :
  Tier.worse (Tier.of_value 100 500 1000 d)
    (Tier.of_value 20 50 80 (Py.min2 (Py.of_int 100) (d / Py.of_int 10)))
  = Tier.of_value 100 500 800 d.
Proof.
  assert (Py.of_int 10 * (d / Py.of_int 10) = d) as Hd
    by (apply Qcmult_div_r; by vm_compute).
  set (x := d / Py.of_int 10) in *. clearbody x. subst d.
  unfold Tier.of_value, Py.min2.
  repeat case_decide; try reflexivity; exfalso; qc_arith.
Qed.

Lemma worse_swap a b c :
  Tier.worse (Tier.worse a b) c = Tier.worse (Tier.worse a c) b.
Proof. by destruct a, b, c. Qed.

Section RunnerTiers.
Context {W : Type} `{!Env W}.

(** Without [psutil] every memory reading is 25 plus the clock modulo
    10. *)
Lemma memory_usage_fallback_range (w : W) (m : Qc) (w' : W) :
  (∀ w0, ∃ e w1, psutil_rss w0 = (Raise e, w1) ∧ is_ImportError e = true) →
  returns _get_memory_usage w m w' →
  Py.of_int 25 ≤ m < Py.of_int 35.
Proof.
  intros Hno Hm. destruct (Hno w) as (e & w1 & Hrss & He).
  unfold _get_memory_usage, try_except, returns in Hm.
  unfold mbind at 1, M_bind at 1 in Hm. rewrite Hrss, He in Hm.
  unfold mbind, M_bind in Hm.
  destruct (time_time w1) as [[now|e'] w2]; [|discriminate].
  injection Hm as <- <-.
  destruct (fmod_10_range now) as [H0 H10].
  set (x := fmod now (Py.of_int 10)) in *. clearbody x. split; qc_arith.
Qed.

(** Where [psutil] cannot be imported, the memory figure of a successful
    sample is a difference of two readings in [25, 35), clamped at
    zero: it stays below 10, so the sample's memory tier is always
    excellent and the memory recommendation can never apply to it. *)
Theorem fallback_memory_is_small (probe : string) (f : M W unit) (w : W)
    (r : BenchmarkResult) (w' : W) :
  (∀ w0, ∃ e w1, psutil_rss w0 = (Raise e, w1) ∧ is_ImportError e = true) →
  returns (_run_single_benchmark probe f) w r w' →
  success r = true →
  0 ≤ memory_mb r < Py.of_int 10
  ∧ _get_category init (memory_mb r) "memory_mb" = Some "excellent"
  ∧ filter (λ r, Py.of_int 25 < memory_mb r) [r] = [].
Proof.
  intros Hno Hrun Hok. apply single_returns in Hrun as [Hrun|Hfail];
    [|destruct Hfail as (e & text & _ & _ & _ & ->); discriminate].
  apply timed_run_returns in Hrun
    as (m0 & w1 & ds & w2 & m1 & avg & lo & hi
        & Hm0 & _ & _ & Hm1 & _ & _ & _ & ->).
  simpl.
  destruct (memory_usage_fallback_range _ _ _ Hno Hm0) as [Ha0 Hb0].
  destruct (memory_usage_fallback_range _ _ _ Hno Hm1) as [Ha1 Hb1].
  assert (0 ≤ Py.max2 0 (m1 - m0) < Py.of_int 10) as [Hlo Hhi].
  { unfold Py.max2. case_decide; split; qc_arith. }
  split; [done|]. split.
  - destruct (get_category_init (Py.max2 0 (m1 - m0))) as (_ & -> & _).
    unfold Tier.of_value. set (m := Py.max2 0 (m1 - m0)) in *.
    rewrite decide_True; [done|]. clearbody m. qc_arith.
  - rewrite filter_cons, filter_nil. simpl.
    set (m := Py.max2 0 (m1 - m0)) in *. rewrite decide_False; [done|].
    clearbody m. qc_arith.
Qed.

(** The duration of a successful sample lies between the minimum and
    the maximum recorded in its metadata. *)
Theorem successful_sample_spread (probe : string) (f : M W unit) (w : W)
    (r : BenchmarkResult) (w' : W) :
  returns (_run_single_benchmark probe f) w r w' →
  success r = true →
  ∃ md, metadata r = Some md
        ∧ Metadata.min_duration_ms md ≤ duration_ms r
          ≤ Metadata.max_duration_ms md.
Proof.
  intros Hrun Hok. apply single_returns in Hrun as [Hrun|Hfail];
    [|destruct Hfail as (e & text & _ & _ & _ & ->); discriminate].
  apply timed_run_returns in Hrun
    as (m0 & w1 & ds & w2 & m1 & avg & lo & hi
        & _ & _ & Hlen & _ & Havg & Hlo & Hhi & ->).
  eexists. split; [reflexivity|]. simpl.
  assert (ds ≠ []) as Hne by (intros ->; discriminate).
  destruct (min_max_bounds ds Hne) as (lo' & hi' & Hlo' & Hhi' & _ & _ & Hb).
  rewrite Hlo in Hlo'. injection Hlo' as <-.
  rewrite Hhi in Hhi'. injection Hhi' as <-.
  eapply mean_between; [|exact Havg]. by apply Forall_forall.
Qed.

(** Since the CPU figure is computed from the duration, a successful
    sample is classified by its duration, with cut-offs 100/500/800,
    and its memory alone; and it is CPU-intensive for the recommender
    (above 50) only if its duration is above 500, hence also slow. *)
Theorem runner_effective_tiers (probe : string) (f : M W unit) (w : W)
    (r : BenchmarkResult) (w' : W) :
  returns (_run_single_benchmark probe f) w r w' →
  success r = true →
  _categorize_performance init r
  = Some (Tier.label
            (Tier.worse (Tier.of_value 100 500 800 (duration_ms r))
                        (Tier.of_value 10 25 50 (memory_mb r))))
  ∧ (Py.of_int 50 < cpu_percent r → Py.of_int 500 < duration_ms r).
Proof.
  intros Hrun Hok. apply single_returns in Hrun as [Hrun|Hfail];
    [|destruct Hfail as (e & text & _ & _ & _ & ->); discriminate].
  apply timed_run_returns in Hrun
    as (m0 & w1 & ds & w2 & m1 & avg & lo & hi
        & _ & _ & _ & _ & _ & _ & _ & ->).
  split.
  - rewrite categorize_init. unfold Tier.of_sample. simpl.
    by rewrite worse_swap, effective_duration_tier.
  - simpl.
    assert (Py.of_int 10 * (avg / Py.of_int 10) = avg) as Hd
      by (apply Qcmult_div_r; by vm_compute).
    set (x := avg / Py.of_int 10) in *. clearbody x. subst avg.
    unfold Py.min2. case_decide; intros Hcpu; qc_arith.
Qed.

(** What leaves the runner as an exception.  An exception outside
    [Exception] raised by the work unit in one of its calls leaves the
    runner as it is, without any sample.  So does the exception that
    [str(e)] raises in the handler, for an [Exception] of the work unit
    whose [__str__] fails.  And nothing else does: whatever the runner
    raises is of the first kind, raised inside the [try] block, or of
    the second. *)
Theorem non_exception_passes_through (probe : string) (f : M W unit) :
  (∀ w initial_memory w1 durations w2 start_time w3 e w4,
     returns _get_memory_usage w initial_memory w1 →
     timed_calls f w1 durations w2 →
     (length durations < 5)%nat →
     returns perf_counter w2 start_time w3 →
     f w3 = (Raise e, w4) →
     (is_Exception e = false →
      _run_single_benchmark probe f w = (Raise e, w4))
     ∧ (∀ e', is_Exception e = true → str e = StrRaises e' →
          _run_single_benchmark probe f w = (Raise e', w4)))
  ∧ (∀ w e w',
       _run_single_benchmark probe f w = (Raise e, w') →
       (is_Exception e = false ∧ timed_run probe f w = (Raise e, w'))
       ∨ (∃ e0, timed_run probe f w = (Raise e0, w')
                ∧ is_Exception e0 = true ∧ str e0 = StrRaises e)).
Proof.
  split.
  - intros w m0 w1 ds w2 s w3 e w4 Hm0 Hcalls Hlen Hs Hraise.
    assert (timed_run probe f w = (Raise e, w4)) as Hbody.
    { unfold timed_run. apply bind_raises. right. exists m0, w1.
      split; [done|]. apply bind_raises. left. by eapply for_range_raises. }
    split.
    + intros He. apply single_raises. by left.
    + intros e' He Hstr. apply single_raises. right. by exists e.
  - intros w e w' Hraise.
    apply single_raises in Hraise as [[Hbody He] | Hstr]; [by left | by right].
Qed.

End RunnerTiers.

Lemma fallback_memory_is_small_witness :
  ∃ r, (_run_single_benchmark "p" (sleep_for 1 1000) Sim.start).1 = Return r
       ∧ 0 ≤ memory_mb r < Py.of_int 10
       ∧ _get_category init (memory_mb r) "memory_mb" = Some "excellent".
Proof.
  destruct (_run_single_benchmark "p" (sleep_for 1 1000) Sim.start)
    as [[r|e] w'] eqn:E; [|vm_compute in E; discriminate].
  assert (success r = true) as Hok.
  { vm_compute in E. by injection E as <- <-. }
  destruct (fallback_memory_is_small "p" (sleep_for 1 1000) Sim.start r w')
    as (Hrange & Htier & _); [|exact E|exact Hok|].
  { intros w0. eexists _, _. split; reflexivity. }
  exists r. split; [reflexivity|]. split; [exact Hrange | exact Htier].
Defined.

Lemma successful_sample_spread_witness :
  ∃ r md,
    (_run_single_benchmark "p" (sleep_for 1 1000) Sim.start).1 = Return r
    ∧ metadata r = Some md
    ∧ Metadata.min_duration_ms md ≤ duration_ms r
      ≤ Metadata.max_duration_ms md.
Proof.
  destruct (_run_single_benchmark "p" (sleep_for 1 1000) Sim.start)
    as [[r|e] w'] eqn:E; [|vm_compute in E; discriminate].
  assert (success r = true) as Hok.
  { vm_compute in E. by injection E as <- <-. }
  destruct (successful_sample_spread "p" (sleep_for 1 1000) Sim.start r w'
              E Hok) as (md & Hmd & Hspread).
  exists r, md. split; [reflexivity|]. split; [exact Hmd | exact Hspread].
Defined.

Lemma runner_effective_tiers_witness :
  ∃ r, (_run_single_benchmark "p" (sleep_for 900 1000) Sim.start).1 = Return r
       ∧ duration_ms r = Py.of_int 900
       ∧ _categorize_performance init r = Some "poor".
Proof.
  destruct (_run_single_benchmark "p" (sleep_for 900 1000) Sim.start)
    as [[r|e] w'] eqn:E; [|vm_compute in E; discriminate].
  assert (success r = true) as Hok.
  { vm_compute in E. by injection E as <- <-. }
  destruct (runner_effective_tiers "p" (sleep_for 900 1000) Sim.start r w'
              E Hok) as [Htier _].
  exists r. split; [reflexivity|].
  assert (duration_ms r = Py.of_int 900) as Hd.
  { vm_compute in E. injection E as <- <-. by apply Qc_is_canon. }
  split; [exact Hd|]. rewrite Htier, Hd.
  vm_compute in E. injection E as <- <-. reflexivity.
Defined.

Lemma non_exception_passes_through_witness :
  _run_single_benchmark "b" Sim.exit_now Sim.start
  = (Raise {| cls := NonException; str := Text "1" |}, Sim.start)
  ∧ _run_single_benchmark "b" Sim.raise_unprintable Sim.start
    = (Raise {| cls := OtherException;
                str := Text "__str__ returned non-string (type int)" |},
       Sim.start).
Proof.
  split.
  - destruct (non_exception_passes_through "b" Sim.exit_now) as [Hpass _].
    destruct (Hpass Sim.start
                (Py.of_int 25 + fmod (Sim.seconds Sim.start) (Py.of_int 10))
                Sim.start [] Sim.start (Sim.seconds Sim.start) Sim.start
                {| cls := NonException; str := Text "1" |} Sim.start)
      as [Hout _];
      [reflexivity | reflexivity | simpl; lia | reflexivity | reflexivity |].
    by apply Hout.
  - destruct (non_exception_passes_through "b" Sim.raise_unprintable)
      as [Hpass _].
    destruct (Hpass Sim.start
                (Py.of_int 25 + fmod (Sim.seconds Sim.start) (Py.of_int 10))
                Sim.start [] Sim.start (Sim.seconds Sim.start) Sim.start
                Sim.unprintable Sim.start)
      as [_ Hstr];
      [reflexivity | reflexivity | simpl; lia | reflexivity | reflexivity |].
    by apply Hstr.
Defined.

(** ** The suite, the reports and [main] *)

Section SuiteFacts.
Context {W : Type} `{!Env W} `{!Host W}.

Lemma try_except_returns {A} (body : M W A) handles handler w a w' :
  returns (try_except body handles handler) w a w'
  ↔ returns body w a w'
    ∨ ∃ e w1, body w = (Raise e, w1) ∧ handles e = true
              ∧ returns (handler e) w1 a w'.
Proof.
  unfold try_except, returns. destruct (body w) as [[b|e] w1]; split.
  - by left.
  - by intros [? | (e & w2 & [=] & _)].
  - destruct (handles e) eqn:He; [|discriminate].
    intros Hh. right. by exists e, w1.
  - intros [[=] | (e' & w2 & [= <- <-] & -> & Hh)]. done.
Qed.

Lemma group_names self header table w rs w' :
  returns (_ ← print_line header; run_benchmarks self table []) w rs w' →
  name <$> rs = table.*1.
Proof.
  intros (u & w1 & _ & Hrun)%bind_returns.
  apply run_benchmarks_grows in Hrun as (new & -> & Hnames). done.
Qed.

(** A report raises KeyError before anything else when the summary has
    no statistics. *)
Lemma html_head_raises suite w :
  performance_stats (BenchmarkSuite.summary suite) = None →
  html_head suite w
  = (Raise {| cls := OtherException; str := Text "'performance_stats'" |}, w).
Proof. intros Hnone. unfold html_head. by rewrite Hnone. Qed.

Lemma md_head_raises suite w :
  performance_stats (BenchmarkSuite.summary suite) = None →
  md_head suite w
  = (Raise {| cls := OtherException; str := Text "'performance_stats'" |}, w).
Proof. intros Hnone. unfold md_head. by rewrite Hnone. Qed.

Lemma html_head_returns suite w text w' :
  returns (html_head suite) w text w' →
  is_Some (performance_stats (BenchmarkSuite.summary suite)).
Proof.
  unfold html_head.
  intros (ps & w1 & Hps & _)%bind_returns.
  apply or_raise_returns in Hps as [-> _]. eauto.
Qed.

(** What a suite that [run_benchmark_suite] returns is made of. *)
Lemma run_benchmark_suite_returns results_dir suite_name device os_version
    w suite w' :
  returns (run_benchmark_suite init results_dir suite_name device os_version)
    w suite w' →
  name <$> BenchmarkSuite.results suite
  = ["SharedStore_Initialization"; "SharedStore_TaskAddition";
     "SharedStore_TaskRetrieval"; "SharedStore_ConcurrentAccess";
     "TimeSlot_Operations"; "PetEvolution_PointAddition";
     "PetEvolution_StateCalculation";
     "Memory_TaskCreation"; "Memory_WidgetCreation";
     "Memory_AssetLoading"; "Memory_LeakDetection";
     "UI_ViewCreation"; "UI_AnimationPerformance";
     "UI_ScrollingPerformance"; "UI_ResponsivenessTest";
     "Network_CDNResponse"; "Network_AssetDownload";
     "Network_FailoverHandling"; "Network_CacheEfficiency";
     "AI_TaskPlanGeneration"; "AI_RecommendationEngine";
     "AI_SentimentAnalysis"; "AI_BehaviorAnalysis"]
  ∧ _generate_summary init (BenchmarkSuite.results suite)
      (BenchmarkSuite.total_duration_ms suite)
    = Some (BenchmarkSuite.summary suite)
  ∧ is_Some (performance_stats (BenchmarkSuite.summary suite))
  ∧ BenchmarkSuite.name suite = suite_name
  ∧ BenchmarkSuite.device suite = device
  ∧ BenchmarkSuite.os_version suite = os_version.
Proof.
  unfold run_benchmark_suite. intros H.
  apply bind_returns in H as (? & ? & _ & H).
  apply bind_returns in H as (? & ? & _ & H).
  apply bind_returns in H as (? & ? & _ & H).
  apply bind_returns in H as (t0 & ? & _ & H).
  apply bind_returns in H as (core & ? & Hcore & H).
  apply bind_returns in H as (memory & ? & Hmemory & H).
  apply bind_returns in H as (ui & ? & Hui & H).
  apply bind_returns in H as (network & ? & Hnetwork & H).
  apply bind_returns in H as (ai & ? & Hai & H).
  apply bind_returns in H as (t1 & ? & _ & H). cbv zeta in H.
  apply bind_returns in H as (s & ? & Hs & H).
  apply or_raise_returns in Hs as [Hs _].
  apply bind_returns in H as (stamp & ? & _ & H).
  apply bind_returns in H as (? & ? & _ & H).
  apply bind_returns in H as (? & ? & Hreports & H).
  apply bind_returns in H as (? & ? & _ & H).
  apply mret_returns in H as [<- _]. simpl.
  apply group_names in Hcore, Hmemory, Hui, Hnetwork, Hai.
  split.
  { rewrite !fmap_app, Hcore, Hmemory, Hui, Hnetwork, Hai. reflexivity. }
  split; [done|]. split; [|done].
  unfold _generate_reports in Hreports.
  apply bind_returns in Hreports as (? & ? & _ & Hreports).
  apply bind_returns in Hreports as (? & ? & Hhtml & _).
  unfold _generate_html_report in Hhtml.
  apply bind_returns in Hhtml as (? & ? & Hhead & _).
  by apply html_head_returns in Hhead.
Qed.

End SuiteFacts.

Section SuiteClaims.
Context {W : Type} `{!Env W} `{!Host W}.

(** Whichever probes fail, a suite that [run_benchmark_suite] returns
    holds exactly the 23 samples of the five groups, in the order core,
    memory, UI, network, AI; its summary counts 23 tests; and at least
    one of the samples succeeded, because the reports cannot be written
    otherwise. *)
Theorem suite_has_the_23_samples (results_dir suite_name device os_version
    : string) (w : W) (suite : BenchmarkSuite.t) (w' : W) :
  returns (run_benchmark_suite init results_dir suite_name device os_version)
    w suite w' →
  name <$> BenchmarkSuite.results suite
  = ["SharedStore_Initialization"; "SharedStore_TaskAddition";
     "SharedStore_TaskRetrieval"; "SharedStore_ConcurrentAccess";
     "TimeSlot_Operations"; "PetEvolution_PointAddition";
     "PetEvolution_StateCalculation";
     "Memory_TaskCreation"; "Memory_WidgetCreation";
     "Memory_AssetLoading"; "Memory_LeakDetection";
     "UI_ViewCreation"; "UI_AnimationPerformance";
     "UI_ScrollingPerformance"; "UI_ResponsivenessTest";
     "Network_CDNResponse"; "Network_AssetDownload";
     "Network_FailoverHandling"; "Network_CacheEfficiency";
     "AI_TaskPlanGeneration"; "AI_RecommendationEngine";
     "AI_SentimentAnalysis"; "AI_BehaviorAnalysis"]
  ∧ total_tests (BenchmarkSuite.summary suite) = 23%nat
  ∧ (successful (BenchmarkSuite.summary suite)
     + failed (BenchmarkSuite.summary suite) = 23)%nat
  ∧ ∃ r, r ∈ BenchmarkSuite.results suite ∧ success r = true.
Proof.
  intros Hrun. apply run_benchmark_suite_returns in Hrun
    as (Hnames & Hsummary & [ps Hps] & _).
  assert (length (BenchmarkSuite.results suite) = 23%nat) as Hlen.
  { rewrite <- (length_fmap name), Hnames. reflexivity. }
  apply generate_summary_inv in Hsummary
    as (Htotal & Hok & Hbad & _ & Hcase).
  pose proof (filter_success_split (BenchmarkSuite.results suite)) as Hsplit.
  split; [done|]. split; [lia|]. split; [lia|].
  destruct Hcase as [(_ & _ & Hnone & _) | (Hsome & _)]; [congruence|].
  destruct (filter (λ r, success r = true) (BenchmarkSuite.results suite))
    as [|r ok] eqn:Efilter; [done|].
  exists r.
  assert (r ∈ filter (λ r, success r = true) (BenchmarkSuite.results suite))
    as Hin by (rewrite Efilter; by left).
  by apply list_elem_of_filter in Hin as [? ?].
Qed.

(** For a suite in which no sample succeeded neither report can be
    generated: each generator raises KeyError('performance_stats')
    before it opens its output file, and so does [_generate_reports]
    after reading the clock. *)
Theorem reports_need_a_success (self : PerformanceBenchmarker)
    (suite : BenchmarkSuite.t) (w : W) :
  _generate_summary self (BenchmarkSuite.results suite)
    (BenchmarkSuite.total_duration_ms suite)
  = Some (BenchmarkSuite.summary suite) →
  Forall (λ r, success r = false) (BenchmarkSuite.results suite) →
  let key_error :=
    {| cls := OtherException; str := Text "'performance_stats'" |} in
  (∀ output_file,
     _generate_html_report self suite output_file w = (Raise key_error, w))
  ∧ (∀ output_file,
       _generate_markdown_report self suite output_file w
       = (Raise key_error, w))
  ∧ (∀ results_dir stamp w1,
       returns now_stamp w stamp w1 →
       _generate_reports self results_dir suite w = (Raise key_error, w1)).
Proof.
  intros Hsummary Hall key_error.
  assert (performance_stats (BenchmarkSuite.summary suite) = None) as Hnone.
  { apply generate_summary_inv in Hsummary as (_ & _ & _ & _ & Hcase).
    destruct Hcase as [(_ & _ & Hnone & _) | (Hsome & _)]; [done|].
    exfalso. apply Hsome. apply filter_nil_Forall.
    eapply Forall_impl; [exact Hall|]. intros r Hr. simpl in *. congruence. }
  assert (∀ output_file w0,
            _generate_html_report self suite output_file w0
            = (Raise key_error, w0)) as Hhtml.
  { intros output_file w0. unfold _generate_html_report.
    apply bind_raises. left. by apply html_head_raises. }
  split; [intros; apply Hhtml|]. split.
  - intros output_file. unfold _generate_markdown_report.
    apply bind_raises. left. by apply md_head_raises.
  - intros results_dir stamp w1 Hstamp. unfold _generate_reports.
    apply bind_raises. right. exists stamp, w1. split; [done|].
    apply bind_raises. left. apply Hhtml.
Qed.

(** When [main] returns, it returns 0 or 1, and 0 only if the suite ran
    to its end and none of its 23 samples failed.  Where standard
    output takes every line, a suite that ran to its end makes [main]
    return 0 if no sample failed and 1 otherwise.  When the suite raised
    an [Exception] whose [str] returns, and the line with the reason
    can be printed, [main] returns 1. *)
Theorem main_exit_code (w : W) (args : Args.t) (w1 w2 : W) :
  returns parse_args w args w1 →
  returns (mkdir (Args.results_dir args)) w1 () w2 →
  let run :=
    run_benchmark_suite init (Args.results_dir args) (Args.suite_name args)
      (Args.device args) (Args.os_version args) in
  (∀ code w', returns main w code w' → code = 0%Z ∨ code = 1%Z)
  ∧ (∀ w',
       returns main w 0%Z w' →
       ∃ suite w3,
         returns run w2 suite w3
         ∧ Forall (λ r, success r = true) (BenchmarkSuite.results suite)
         ∧ length (BenchmarkSuite.results suite) = 23%nat)
  ∧ (∀ suite w3,
       returns run w2 suite w3 →
       (∀ line w0, ∃ w0', returns (print line) w0 () w0') →
       ∃ w', returns main w
               (if decide (failed (BenchmarkSuite.summary suite) = 0%nat)
                then 0%Z else 1%Z) w')
  ∧ (∀ e w3 text w4,
       run w2 = (Raise e, w3) → is_Exception e = true →
       str e = Text text →
       returns (print ("❌ Benchmark failed: " +:+ text)) w3 () w4 →
       returns main w 1%Z w4).
Proof.
  intros Hargs Hmkdir run.
  assert (∀ code w',
            returns main w code w'
            ↔ returns
                (try_except
                   (suite ← run;
                    _ ← print_line (nl +:+ "🎉 Benchmark completed successfully!");
                    _ ← print_line
                          ("📊 Results saved to: " +:+ Args.results_dir args);
                    _ ← print_line
                          ("✅ Success Rate: "
                             +:+ fmt_float 1
                                   (success_rate (BenchmarkSuite.summary suite))
                             +:+ "%");
                    performance_stats ←
                      summary_key "performance_stats"
                        (performance_stats (BenchmarkSuite.summary suite));
                    _ ← print_line
                          ("⚡ Average Performance: "
                             +:+ fmt_float 2 (avg_duration_ms performance_stats)
                             +:+ "ms");
                    mret (if decide (failed (BenchmarkSuite.summary suite)
                                     = 0%nat)
                          then 0%Z else 1%Z))
                   is_Exception
                   (λ e,
                      text ← str_of e;
                      _ ← print_line ("❌ Benchmark failed: " +:+ text);
                      mret 1%Z))
                w2 code w') as Hmain.
  { intros code w'. unfold main, new_benchmarker, returns.
    unfold mbind at 1, M_bind at 1. rewrite Hargs.
    unfold mbind at 1, M_bind at 1. unfold mbind at 1, M_bind at 1.
    rewrite Hmkdir. reflexivity. }
  split; [|split; [|split]].
  - intros code w' Hcode. apply Hmain in Hcode.
    apply try_except_returns in Hcode as [Hbody | (e & w3 & _ & _ & Hh)].
    + apply bind_returns in Hbody as (suite & ? & _ & Hbody).
      apply bind_returns in Hbody as (? & ? & _ & Hbody).
      apply bind_returns in Hbody as (? & ? & _ & Hbody).
      apply bind_returns in Hbody as (? & ? & _ & Hbody).
      apply bind_returns in Hbody as (? & ? & _ & Hbody).
      apply bind_returns in Hbody as (? & ? & _ & Hbody).
      apply mret_returns in Hbody as [<- _]. case_decide; auto.
    + apply bind_returns in Hh as (? & ? & _ & Hh).
      apply bind_returns in Hh as (? & ? & _ & Hh).
      apply mret_returns in Hh as [<- _]. auto.
  - intros w' Hzero. apply Hmain in Hzero.
    apply try_except_returns in Hzero as [Hbody | (e & w3 & _ & _ & Hh)].
    + apply bind_returns in Hbody as (suite & w3 & Hrun & Hbody).
      apply bind_returns in Hbody as (? & ? & _ & Hbody).
      apply bind_returns in Hbody as (? & ? & _ & Hbody).
      apply bind_returns in Hbody as (? & ? & _ & Hbody).
      apply bind_returns in Hbody as (? & ? & _ & Hbody).
      apply bind_returns in Hbody as (? & ? & _ & Hbody).
      apply mret_returns in Hbody as [Hcode _].
      case_decide as Hfailed; [|discriminate].
      exists suite, w3. split; [done|].
      pose proof (run_benchmark_suite_returns _ _ _ _ _ _ _ Hrun)
        as (Hnames & Hsummary & _).
      apply generate_summary_inv in Hsummary as (_ & _ & Hbad & _).
      rewrite Hfailed in Hbad. split.
      * apply Forall_forall. intros r Hin.
        destruct (success r) eqn:Hr; [done|]. exfalso.
        assert (r ∈ filter (λ r, success r = false)
                      (BenchmarkSuite.results suite)) as Hin'
          by (by apply list_elem_of_filter).
        destruct (filter _ (BenchmarkSuite.results suite)); [|done].
        by apply elem_of_nil in Hin'.
      * rewrite <- (length_fmap name), Hnames. reflexivity.
    + apply bind_returns in Hh as (? & ? & _ & Hh).
      apply bind_returns in Hh as (? & ? & _ & Hh).
      by apply mret_returns in Hh as [[=] _].
  - intros suite w3 Hrun Hprint.
    pose proof (run_benchmark_suite_returns _ _ _ _ _ _ _ Hrun)
      as (_ & _ & [ps Hps] & _).
    destruct (Hprint (nl +:+ "🎉 Benchmark completed successfully!") w3)
      as [w4 H4].
    destruct (Hprint ("📊 Results saved to: " +:+ Args.results_dir args) w4)
      as [w5 H5].
    destruct (Hprint
                ("✅ Success Rate: "
                   +:+ fmt_float 1 (success_rate (BenchmarkSuite.summary suite))
                   +:+ "%") w5) as [w6 H6].
    destruct (Hprint
                ("⚡ Average Performance: "
                   +:+ fmt_float 2 (avg_duration_ms ps) +:+ "ms") w6)
      as [w7 H7].
    exists w7. apply Hmain. apply try_except_returns. left.
    apply bind_returns. exists suite, w3. split; [done|].
    apply bind_returns. exists (), w4. split; [exact H4|].
    apply bind_returns. exists (), w5. split; [exact H5|].
    apply bind_returns. exists (), w6. split; [exact H6|].
    apply bind_returns. exists ps, w6. split.
    { apply or_raise_returns. split; [done | reflexivity]. }
    apply bind_returns. exists (), w7. split; [exact H7|].
    apply mret_returns. split; reflexivity.
  - intros e w3 text w4 Hraise He Htext Hprint.
    apply Hmain. apply try_except_returns. right.
    exists e, w3. split; [|split; [done|]].
    + apply bind_raises. by left.
    + apply bind_returns. exists text, w3. split.
      { unfold returns, str_of. by rewrite Htext. }
      apply bind_returns. exists (), w4. split; [exact Hprint|].
      by apply mret_returns.
Qed.

End SuiteClaims.

(** ** The suite on the simulated host *)

Lemma suite_has_the_23_samples_witness :
  ∃ suite,
    (run_benchmark_suite init "BenchmarkResults" "suite" "device" "17.0"
       Lab.start).1 = Return suite
    ∧ total_tests (BenchmarkSuite.summary suite) = 23%nat
    ∧ ∃ r, r ∈ BenchmarkSuite.results suite ∧ success r = true.
Proof.
  destruct (run_benchmark_suite init "BenchmarkResults" "suite" "device"
              "17.0" Lab.start) as [[suite|e] w'] eqn:E;
    [|vm_compute in E; discriminate].
  destruct (suite_has_the_23_samples _ _ _ _ _ _ _ E)
    as (_ & Htotal & _ & Hsome).
  exists suite. split; [reflexivity|]. split; [exact Htotal | exact Hsome].
Defined.

Lemma reports_need_a_success_witness :
  let suite :=
    {| BenchmarkSuite.name := "suite";
       BenchmarkSuite.timestamp := "2024-01-01T00:00:00+00:00";
       BenchmarkSuite.device := "device";
       BenchmarkSuite.os_version := "17.0";
       BenchmarkSuite.total_duration_ms := 1;
       BenchmarkSuite.results := [Sim.sample "a" 0 0 0 false];
       BenchmarkSuite.summary :=
         {| total_tests := 1; successful := 0; failed := 1;
            success_rate := 0; total_duration_ms := 1;
            performance_stats := None; memory_stats := None;
            cpu_stats := None; performance_categories := None;
            recommendations := None |} |} in
  _generate_html_report init suite "report.html" Lab.start
  = (Raise {| cls := OtherException; str := Text "'performance_stats'" |},
     Lab.start).
Proof.
  intros suite.
  destruct (reports_need_a_success init suite Lab.start) as (Hhtml & _).
  - reflexivity.
  - by repeat constructor.
  - apply Hhtml.
Defined.

Lemma main_exit_code_witness :
  (∃ w', returns main Lab.start 0%Z w')
  ∧ (∃ w', returns main Lab.broken 1%Z w').
Proof.
  split.
  - destruct (main_exit_code Lab.start
                {| Args.project_path := ".";
                   Args.results_dir := "BenchmarkResults";
                   Args.suite_name := "MyTaskList Performance Suite";
                   Args.device := "iPhone 15 Pro";
                   Args.os_version := "17.0" |} Lab.start Lab.start)
      as (_ & _ & Hreturned & _); [reflexivity | reflexivity |].
    destruct (run_benchmark_suite init "BenchmarkResults"
                "MyTaskList Performance Suite" "iPhone 15 Pro" "17.0"
                Lab.start) as [[suite|e] w3] eqn:E;
      [|vm_compute in E; discriminate].
    destruct (Hreturned suite w3 E) as [w' Hmain].
    { intros line w0. eexists. reflexivity. }
    assert (failed (BenchmarkSuite.summary suite) = 0%nat) as Hfailed.
    { vm_compute in E. by injection E as <- <-. }
    rewrite decide_True in Hmain by exact Hfailed. by exists w'.
  - destruct (main_exit_code Lab.broken
                {| Args.project_path := ".";
                   Args.results_dir := "BenchmarkResults";
                   Args.suite_name := "MyTaskList Performance Suite";
                   Args.device := "iPhone 15 Pro";
                   Args.os_version := "17.0" |} Lab.broken Lab.broken)
      as (_ & _ & _ & Hraised); [reflexivity | reflexivity |].
    destruct (run_benchmark_suite init "BenchmarkResults"
                "MyTaskList Performance Suite" "iPhone 15 Pro" "17.0"
                Lab.broken) as [[suite|e] w3] eqn:E;
      [vm_compute in E; discriminate|].
    assert (is_Exception e = true ∧ str e = Text "'performance_stats'")
      as [He Hs].
    { vm_compute in E. by injection E as <- <-. }
    eexists. apply (Hraised e w3 "'performance_stats'" _ E He Hs).
    reflexivity.
Defined.
